(** * Tensor representations, dispatch and tree flattening of [phiml/math/_tensors.py]

    A shallow embedding of the tensor core: the three tensor representations
    ([NativeTensor], [TensorStack], [Layout]), binary-operator dispatch, caching,
    the tree flatten/unflatten protocol and the equality-mode stack.

    Python exceptions are values of an error monad, [assert] raises
    [AssertionError], and the [NotImplemented] sentinel is an ordinary return
    value.  Backend kernels are recorded as uninterpreted terms of [Native];
    the shape algebra and the other collaborators whose sources are not part
    of the module are parameters of the sections that use them. *)

From Stdlib Require Import List String Ascii Bool Arith ZArith Lia.
From Stdlib Require Import DecimalString.
Import ListNotations.
Open Scope string_scope.
Open Scope list_scope.

Set Implicit Arguments.

(* ------------------------------------------------------------------------- *)
(** ** Exceptions and the error monad *)

Inductive Exception : Type :=
| AssertionError (msg : string)
| NotImplementedError (msg : string)
| ValueError (msg : string)
| KeyError (key : string)
| IndexError
| AttributeError
| TypeError
| IncompatibleShapes
| NoBackendFound.

Inductive Result (A : Type) : Type :=
| Ok (a : A)
| Raise (e : Exception).

Arguments Ok {A} a.
Arguments Raise {A} e.

Definition bind {A B : Type} (r : Result A) (k : A -> Result B) : Result B :=
  match r with
  | Ok a => k a
  | Raise e => Raise e
  end.

Notation "x <- e ;; k" := (bind e (fun x => k))
  (at level 61, e at next level, right associativity).
Notation "' p <- e ;; k" := (bind e (fun x => let p := x in k))
  (at level 61, p pattern, e at next level, right associativity).

(** [assert cond, msg] *)
Definition py_assert (cond : bool) (msg : string) : Result unit :=
  if cond then Ok tt else Raise (AssertionError msg).

Definition is_ok {A : Type} (r : Result A) : bool :=
  match r with Ok _ => true | Raise _ => false end.

(** A comprehension [[f(x) for x in xs]] whose body may raise: evaluated left
    to right, the first exception aborts it. *)
Fixpoint mapM {A B : Type} (f : A -> Result B) (xs : list A) : Result (list B) :=
  match xs with
  | [] => Ok []
  | x :: rest =>
      y <- f x ;;
      ys <- mapM f rest ;;
      Ok (y :: ys)
  end.

(** [zip(xs, ys)]: stops at the shorter argument. *)
Fixpoint zip {A B : Type} (xs : list A) (ys : list B) : list (A * B) :=
  match xs, ys with
  | x :: xs', y :: ys' => (x, y) :: zip xs' ys'
  | _, _ => []
  end.

Definition string_of_nat (n : nat) : string :=
  NilEmpty.string_of_uint (Nat.to_uint n).

Definition list_eqb {A : Type} (eqb : A -> A -> bool) : list A -> list A -> bool :=
  fix go (xs ys : list A) : bool :=
    match xs, ys with
    | [], [] => true
    | x :: xs', y :: ys' => eqb x y && go xs' ys'
    | _, _ => false
    end.

Definition option_eqb {A : Type} (eqb : A -> A -> bool) (x y : option A) : bool :=
  match x, y with
  | None, None => true
  | Some a, Some b => eqb a b
  | _, _ => false
  end.

(* ------------------------------------------------------------------------- *)
(** ** Shapes

    Modelled from the spec: the [Shape] class lives in [_shape.py], which is
    not among the sources.  The module builds shapes as
    [Shape(sizes, names, types, item_names)], four parallel tuples; they are kept
    here as one list of dimension descriptors (name, type, size, item names).
    A size is an integer, [None], or a tensor (non-uniform shapes); the tensor
    is identified by a number. *)

Inductive DimType : Type :=
| BATCH_DIM | SPATIAL_DIM | CHANNEL_DIM | INSTANCE_DIM | DUAL_DIM.

Inductive Size : Type :=
| SizeNone
| SizeInt (n : nat)
| SizeTensor (id : nat).

Record Dim : Type := mkDim {
  dim_name : string;
  dim_type : option DimType;
  dim_size : Size;
  dim_item_names : option (list string)
}.

Definition Shape : Type := list Dim.

Definition EMPTY_SHAPE : Shape := [].

Definition DimType_eqb (a b : DimType) : bool :=
  match a, b with
  | BATCH_DIM, BATCH_DIM | SPATIAL_DIM, SPATIAL_DIM | CHANNEL_DIM, CHANNEL_DIM
  | INSTANCE_DIM, INSTANCE_DIM | DUAL_DIM, DUAL_DIM => true
  | _, _ => false
  end.

Definition Size_eqb (a b : Size) : bool :=
  match a, b with
  | SizeNone, SizeNone => true
  | SizeInt n, SizeInt m => Nat.eqb n m
  | SizeTensor i, SizeTensor j => Nat.eqb i j
  | _, _ => false
  end.

Definition Dim_eqb (a b : Dim) : bool :=
  String.eqb (dim_name a) (dim_name b)
  && option_eqb DimType_eqb (dim_type a) (dim_type b)
  && Size_eqb (dim_size a) (dim_size b)
  && option_eqb (list_eqb String.eqb) (dim_item_names a) (dim_item_names b).

(** [shape1 == shape2] *)
Definition Shape_eqb : Shape -> Shape -> bool := list_eqb Dim_eqb.

(** [shape.names] *)
Definition names (s : Shape) : list string := map dim_name s.

(** [shape.sizes] *)
Definition sizes (s : Shape) : list Size := map dim_size s.

(** [shape.rank] *)
Definition rank (s : Shape) : nat := List.length s.

Definition mem_name (n : string) (ns : list string) : bool :=
  existsb (String.eqb n) ns.

(** [name in shape] *)
Definition has_dim (n : string) (s : Shape) : bool := mem_name n (names s).

(** [shape.get_size(name)] *)
Fixpoint get_size (s : Shape) (n : string) : Result Size :=
  match s with
  | [] => Raise (KeyError n)
  | d :: rest => if String.eqb (dim_name d) n then Ok (dim_size d) else get_size rest n
  end.

(** [shape.index(name)] *)
Fixpoint index (s : Shape) (n : string) : Result nat :=
  match s with
  | [] => Raise (ValueError n)
  | d :: rest =>
      if String.eqb (dim_name d) n then Ok 0
      else i <- index rest n ;; Ok (S i)
  end.

(** [shape.without(names)] *)
Definition without (s : Shape) (ns : list string) : Shape :=
  filter (fun d => negb (mem_name (dim_name d) ns)) s.

(** [shape.only(order, reorder=True).names]: the requested names that the
    shape has, in the requested order. *)
Definition only_reorder_names (s : Shape) (order : list string) : list string :=
  filter (fun n => has_dim n s) order.

(** [shape.with_sizes(sizes, keep_item_names=True)] for a list of integers. *)
Fixpoint with_sizes (s : Shape) (ns : list nat) : Shape :=
  match s, ns with
  | d :: rest, n :: ns' =>
      mkDim (dim_name d) (dim_type d) (SizeInt n) (dim_item_names d) :: with_sizes rest ns'
  | _, _ => s
  end.

(** [shape.without_sizes()] *)
Definition without_sizes (s : Shape) : Shape :=
  map (fun d => mkDim (dim_name d) (dim_type d) SizeNone (dim_item_names d)) s.

(** [shape.well_defined]: no size is [None]. *)
Definition well_defined (s : Shape) : bool :=
  forallb (fun d => match dim_size d with SizeNone => false | _ => true end) s.

(** [shape.is_non_uniform]: some size is a tensor. *)
Definition is_non_uniform (s : Shape) : bool :=
  existsb (fun d => match dim_size d with SizeTensor _ => true | _ => false end) s.

Definition is_uniform (s : Shape) : bool := negb (is_non_uniform s).

(** The name of a single-dimension shape, [stack_dim.name]. *)
Definition single_name (s : Shape) : string :=
  match s with
  | d :: _ => dim_name d
  | [] => ""
  end.

(** The size of a single-dimension shape, [stack_dim.size]. *)
Definition single_size (s : Shape) : Size :=
  match s with
  | d :: _ => dim_size d
  | [] => SizeNone
  end.

(* ------------------------------------------------------------------------- *)
(** ** Native values

    Backend kernels run on opaque arrays.  A native value is either a given
    array or number, or the record of a kernel call on native values.  The
    sizes of an array are not part of its record, so a kernel whose outcome
    depends on them is recorded as a call.  Where a call is refused for
    arguments that are known, a transposition by axes that are no
    permutation and a tiling by a size that is no integer, the call is made
    through [backend_transpose] and [backend_tile], which raise. *)

Inductive PyFloat : Type :=
| FNaN
| FFinite (mantissa exponent : Z).

Inductive PyNumber : Type :=
| PyBool (b : bool)
| PyInt (z : Z)
| PyFloatNum (x : PyFloat).

#[warnings="-register-all"]
Inductive Native : Type :=
| NArray (id : nat)                            (* an array handed in from outside *)
| NNumber (x : PyNumber)                       (* a Python scalar *)
| NItem (a : Native)                           (* [a.item()] *)
| NCast (a : Native) (precision : nat)         (* [backend.cast(a, DType(kind, precision))] *)
| NTranspose (a : Native) (perm : list nat)    (* [backend.transpose(a, perm)] *)
| NAsTensor (a : Native)                       (* [backend.as_tensor(a)] *)
| NGetitem (a : Native) (slices : list bool)   (* [a[tuple(slices)]], [true] is [slice(None)], [false] is [None] *)
| NTile (a : Native) (multiples : list Size)   (* [backend.tile(a, multiples)] *)
| NStack (xs : list Native) (axis : nat)       (* [backend.stack(xs, axis)] *)
| NConcat (xs : list Native) (axis : nat)      (* [backend.concat(xs, axis)] *)
| NUnstack (a : Native) (axis i : nat)         (* [backend.unstack(a, axis)[i]] *)
| NNumpy (a : Native)                          (* [backend.numpy(a)] *)
| NApply (f : string) (a b : Native).          (* a binary kernel applied to two arrays *)

(* ------------------------------------------------------------------------- *)
(** ** Python objects

    Everything the module handles is a Python object: tensors, the containers
    that hold them, and the skeletons that [disassemble_tree] returns, which
    are containers again, with strings and [None] as markers.  One type holds
    them all.  A tuple, list or dict is an instance of exactly the built-in
    class: the class of a container is not recorded, so an instance of a
    subclass (a namedtuple, a [Dict]) has no value of its own here.  A dict
    is an association list in insertion order.  The fields of the three
    tensor classes are the attributes their [__init__] sets. *)

#[warnings="-register-all"]
Inductive Obj : Type :=
| PyNone
| PyStr (s : string)
| PyOpaque (id : nat)               (* an object no numeric backend recognises *)
| PyRaw (n : Native)                (* a number or a backend array *)
| PyShapeDict (s : Shape)           (* the dict form of a shape, [Shape._to_dict] *)
| PyList (items : list Obj)
| PyTuple (items : list Obj)
| PyDict (items : list (string * Obj))
| PyNode (cls : nat) (dataclass : bool) (attrs : list (string * Obj))
                                    (* an object with attributes: a [PhiTreeNode] or a dataclass *)
| NativeTensor (_native : Native) (_native_shape _shape : Shape)
| TensorStack (_tensors : list Obj) (_stack_dim : Shape) (_varying_shapes : bool) (_shape : Shape)
| Layout (_obj : Obj) (_stack_dim : Shape) (_shape : Shape).

(** [isinstance(obj, Tensor)] *)
Definition is_Tensor (o : Obj) : bool :=
  match o with
  | NativeTensor _ _ _ | TensorStack _ _ _ _ | Layout _ _ _ => true
  | _ => false
  end.

Definition is_NativeTensor (o : Obj) : bool :=
  match o with NativeTensor _ _ _ => true | _ => false end.

Definition is_TensorStack (o : Obj) : bool :=
  match o with TensorStack _ _ _ _ => true | _ => false end.

Definition is_Layout (o : Obj) : bool :=
  match o with Layout _ _ _ => true | _ => false end.

(** [t.shape], the property of the three tensor classes.  Other objects have
    no such attribute. *)
Definition shape (o : Obj) : Result Shape :=
  match o with
  | NativeTensor _ _ s => Ok s
  | TensorStack _ _ _ s => Ok s
  | Layout _ _ s => Ok s
  | _ => Raise AttributeError
  end.

(** [type(x)] as it prints in a message. *)
Definition type_name (o : Obj) : string :=
  match o with
  | PyNone => "<class 'NoneType'>"
  | PyStr _ => "<class 'str'>"
  | PyOpaque _ => "<class 'object'>"
  | PyRaw _ => "<class 'numpy.ndarray'>"
  | PyShapeDict _ => "<class 'dict'>"
  | PyList _ => "<class 'list'>"
  | PyTuple _ => "<class 'tuple'>"
  | PyDict _ => "<class 'dict'>"
  | PyNode _ _ _ => "<class 'object'>"
  | NativeTensor _ _ _ => "<class 'phiml.math._tensors.NativeTensor'>"
  | TensorStack _ _ _ _ => "<class 'phiml.math._tensors.TensorStack'>"
  | Layout _ _ _ => "<class 'phiml.math._tensors.Layout'>"
  end.

(* ------------------------------------------------------------------------- *)
(** ** Collaborators

    Functions of [_shape.py], [_magic_ops.py], [_sparse.py], [_ops.py] and of
    the backend, which the module imports.  Their sources are not part of the
    module; the model takes them as parameters. *)

Record Collaborators : Type := {
  (** [merge_shapes] on the given shapes; raises [IncompatibleShapes]. *)
  merge_shapes : list Shape -> Result Shape;
  (** [shape_stack(stack_dim, *shapes)] *)
  shape_stack : Shape -> list Shape -> Result Shape;
  (** [is_sparse(tensor)] of [_sparse.py] *)
  is_sparse : Obj -> bool;
  (** [dense(tensor)] of [_sparse.py] *)
  dense : Obj -> Result Obj;
  (** [choose_backend(native).dtype(native).precision] *)
  dtype_precision : Native -> option nat;
  (** [get_precision()], the globally set floating point precision *)
  get_precision : nat;
  (** [parse_dim_order(order)] on a string of comma-separated names *)
  parse_dim_order : string -> list string;
  (** The part of [reshaped_native] that packs groups of dimensions with
      [expand] and [pack_dims] before it transposes: the value, the groups
      and [force_expand]. *)
  reshaped_native_packed : Obj -> list Shape -> bool -> Result Native;
  (** The last branch of [TensorStack._contiguous], for components whose
      shapes are not uniform: it unstacks along the dimension that
      [shape.shape] of [_shape.py] names. *)
  contiguous_non_uniform : Obj -> Result Obj;
  (** [_transposed_native(order, force_expand)] of the stack that this last
      branch returns. *)
  non_uniform_transposed_native : Obj -> list string -> bool -> Result Native;
  (** [iter(obj)] on an object that is none of the built-in containers: an
      array, an object with an iterator of its own. *)
  iterate_object : Obj -> Result (list Obj);
  (** The backend value that a Python object stands for, where the object a
      [Layout] wraps is used as an array. *)
  object_as_native : Obj -> Result Native;
  (** [self._contiguous()._unstack(dim)] of a [TensorStack], which
      concatenates with the backend. *)
  contiguous_unstack : Obj -> string -> Result (list Obj);
  (** A backend kernel, given by name, called on two Python objects. *)
  kernel_on_objects : string -> Obj -> Obj -> Result Obj;
  (** The shape that [Layout.__init__] computes,
      [shape_stack(stack_dim, *Layout._recursive_get_shapes(obj, stack_dim), stack_dim_first=True)]. *)
  layout_shape : Obj -> Shape -> Result Shape;
  (** [isinstance(obj, Shapable)] *)
  is_Shapable : Obj -> bool;
  (** [stack(values, dim, expand_values=True)] of [_magic_ops.py] *)
  stack : list Obj -> Shape -> Result Obj;
  (** [expand(value, dims)] of [_magic_ops.py] *)
  expand : Obj -> Shape -> Result Obj;
  (** [tensor[{dim: i}]], [Tensor.__getitem__] with its slicing collaborators *)
  getitem : Obj -> string -> nat -> Result Obj;
  (** [as_tensor(data, convert_external=convert)] of the backend chosen for
      [compat_natives] and [data];
      raises [NoBackendFound]. *)
  as_tensor : list Native -> Obj -> Result Native;
  (** [backend.staticshape(native)] *)
  staticshape : Native -> list nat;
  (** [wrap(native, shape)]: [tensor] on a backend array with given dimensions *)
  wrap_with_shape : Native -> Shape -> Result Obj;
  (** [tensor(data, convert=False)] on sequences and arrays *)
  tensor_of_data : Obj -> Result Obj;
  (** [shape(obj)] of [_shape.py] on an object that is not a tensor *)
  shape_of : Obj -> Result Shape;
  (** [shape1.is_compatible(shape2)] *)
  is_compatible : Shape -> Shape -> bool;
  (** [close(a, b, rel_tolerance, abs_tolerance, equal_nan)] of [_ops.py] *)
  close : Obj -> Obj -> PyFloat -> PyFloat -> bool -> Result bool;
  (** [x == y] and [x != y] as Python evaluates them on two objects *)
  py_eq : Obj -> Obj -> Result Obj;
  py_ne : Obj -> Obj -> Result Obj;
  (** [Shape._from_dict(shape._to_dict(False))]: a shape read back from its
      dict form without sizes *)
  from_dict_without_sizes : Shape -> Shape;
  (** [isinstance(native, np.ndarray)] *)
  is_ndarray : Native -> bool;
  (** [variable_attributes(obj)] of [_magic_ops.py], the default [attr_type] *)
  variable_attributes : Obj -> list string
}.

(* ------------------------------------------------------------------------- *)
(** ** [TensorStack] *)

Section TensorStackClass.
Variable C : Collaborators.

(** The loop of [TensorStack.__init__] over the components. *)
Fixpoint check_components (stack_dim : Shape) (components : list Obj) : Result unit :=
  match components with
  | [] => Ok tt
  | t :: rest =>
      _ <- py_assert (is_Tensor t) "" ;;
      s <- shape t ;;
      _ <- py_assert (negb (has_dim (single_name stack_dim) s))
             "Cannot stack along the dimension because it already exists." ;;
      check_components stack_dim rest
  end.

(** [TensorStack.__init__(components, stack_dim)] *)
Definition TensorStack_init (components : list Obj) (stack_dim : Shape) : Result Obj :=
  _ <- py_assert (Nat.eqb (rank stack_dim) 1)
         "stack_dim must be a single-dimension Shape object" ;;
  _ <- check_components stack_dim components ;;
  let _stack_dim := with_sizes stack_dim [List.length components] in
  shapes <- mapM shape components ;;
  _varying_shapes <-
    match merge_shapes C shapes with
    | Ok _ => Ok false
    | Raise IncompatibleShapes => Ok true
    | Raise e => Raise e
    end ;;
  _shape <- shape_stack C _stack_dim shapes ;;
  Ok (TensorStack components _stack_dim _varying_shapes _shape).

(** The property [_is_tracer]: [False] on [NativeTensor] and [Layout], any
    component on [TensorStack]. *)
Fixpoint _is_tracer (t : Obj) : bool :=
  match t with
  | TensorStack tensors _ _ _ => existsb _is_tracer tensors
  | _ => false
  end.

(** The property [TensorStack.requires_broadcast]. *)
Definition requires_broadcast (t : Obj) : Result bool :=
  match t with
  | TensorStack tensors _ varying s =>
      if varying || negb (well_defined s) || _is_tracer t then Ok true
      else
        match tensors with
        | [] => Raise IndexError
        | t0 :: _ =>
            s0 <- shape t0 ;;
            if is_non_uniform s0 then Ok true else Ok (is_sparse C t)
        end
  | _ => Raise AttributeError
  end.

End TensorStackClass.

(* ------------------------------------------------------------------------- *)
(** ** The equality-mode stack

    [_EQUALITY_REDUCE] is a module-level list of dicts; the last entry is the
    active mode.  The two context managers append a frame, run the body of the
    [with] statement and, in a [finally] clause, pop the last frame and assert
    that it equals the frame they appended. *)

Inductive Frame : Type :=
| Elementwise                                   (* [{'type': 'elementwise'}] *)
| ByRef                                         (* [{'type': 'ref'}] *)
| ShapeAndValue (rel_tolerance abs_tolerance : PyFloat) (equal_nan : bool).
                                                (* [{'type': 'shape_and_value', ...}] *)

Definition PyFloat_same (a b : PyFloat) : bool :=
  match a, b with
  | FNaN, FNaN => true
  | FFinite m e, FFinite m' e' => Z.eqb m m' && Z.eqb e e'
  | _, _ => false
  end.

(** [popped == frame] on the dicts.  The frame that is compared is the very
    object that was appended whenever the body left the list as it found it;
    dict comparison takes identical values as equal. *)
Definition Frame_eqb (f g : Frame) : bool :=
  match f, g with
  | Elementwise, Elementwise => true
  | ByRef, ByRef => true
  | ShapeAndValue r a n, ShapeAndValue r' a' n' =>
      PyFloat_same r r' && PyFloat_same a a' && Bool.eqb n n'
  | _, _ => false
  end.

Definition EqualityStack : Type := list Frame.

(** The initial value of [_EQUALITY_REDUCE]. *)
Definition _EQUALITY_REDUCE : EqualityStack := [Elementwise].

(** How the body of a [with] statement ends. *)
Inductive Outcome (A : Type) : Type :=
| Returned (a : A)
| Raised (e : Exception).

Arguments Returned {A} a.
Arguments Raised {A} e.

(** Code that runs with access to the global list. *)
Definition Region (A : Type) : Type := EqualityStack -> EqualityStack * Outcome A.

(** [list.pop(-1)] *)
Fixpoint pop_last {A : Type} (l : list A) : option (list A * A) :=
  match l with
  | [] => None
  | x :: rest =>
      match pop_last rest with
      | None => Some ([], x)
      | Some (rest', y) => Some (x :: rest', y)
      end
  end.

(** [with manager: body] for a manager that appends [frame] before its [yield]
    and runs [assert _EQUALITY_REDUCE.pop(-1) == frame] in its [finally]
    clause.  A failing assertion replaces the exception of the body. *)
Definition with_frame {A : Type} (frame : Frame) (body : Region A) : Region A :=
  fun stack =>
    let (stack', outcome) := body (stack ++ [frame]) in
    match pop_last stack' with
    | None => (stack', Raised IndexError)
    | Some (rest, popped) =>
        if Frame_eqb popped frame then (rest, outcome)
        else (rest, Raised (AssertionError ""))
    end.

(** [with equality_by_ref(): body] *)
Definition equality_by_ref {A : Type} (body : Region A) : Region A :=
  with_frame ByRef body.

(** [with equality_by_shape_and_value(rel_tolerance, abs_tolerance, equal_nan): body] *)
Definition equality_by_shape_and_value {A : Type}
    (rel_tolerance abs_tolerance : PyFloat) (equal_nan : bool) (body : Region A) : Region A :=
  with_frame (ShapeAndValue rel_tolerance abs_tolerance equal_nan) body.

(** [_EQUALITY_REDUCE[-1]] *)
Definition active_frame (stack : EqualityStack) : Result Frame :=
  match pop_last stack with
  | Some (_, f) => Ok f
  | None => Raise IndexError
  end.

(* ------------------------------------------------------------------------- *)
(** ** Native arrays of a [NativeTensor] *)

(** The [order] argument of [Tensor.native]: [None], a tuple or list of
    dimension names, a comma-separated string, or a [Shape]. *)
Inductive Order : Type :=
| OrderNone
| OrderSeq (is_tuple : bool) (groups : list string)
| OrderStr (s : string)
| OrderShape (s : Shape).

(** [list(range(n))] *)
Definition range (n : nat) : list nat := seq 0 n.

(** [list.index(x)] on a list of names *)
Fixpoint position (l : list string) (x : string) : Result nat :=
  match l with
  | [] => Raise (ValueError x)
  | y :: rest =>
      if String.eqb y x then Ok 0
      else i <- position rest x ;; Ok (S i)
  end.

(** *** Kernels that refuse their arguments

    Modelled from the spec: the backends are not among the sources.  A
    transposition takes a permutation of the axes of the array, and [tile]
    takes an integer for every axis. *)

(** Every axis from [0] to [len(perm) - 1] occurs in [perm]. *)
Definition is_permutation (perm : list nat) : bool :=
  forallb (fun axis => existsb (Nat.eqb axis) perm) (range (List.length perm)).

(** [backend.transpose(a, perm)] *)
Definition backend_transpose (a : Native) (perm : list nat) : Result Native :=
  if is_permutation perm then Ok (NTranspose a perm)
  else Raise (ValueError "axes don't match array").

Definition is_integer (m : Size) : bool :=
  match m with SizeInt _ => true | _ => false end.

(** [backend.tile(a, multiples)] *)
Definition backend_tile (a : Native) (multiples : list Size) : Result Native :=
  if forallb is_integer multiples then Ok (NTile a multiples)
  else Raise TypeError.

Section NativeArrays.
Variable C : Collaborators.

(** [NativeTensor._transposed_native(order, force_expand)].  [order] is a
    sequence of names; [order_is_tuple] tells a tuple from a list, which
    matters for [order == self._native_shape.names], a comparison with a
    tuple. *)
Definition NativeTensor_transposed_native
    (native : Native) (native_shape shape_ : Shape)
    (order : list string) (order_is_tuple : bool) (force_expand : bool) : Result Native :=
  _ <- py_assert (forallb (fun n => mem_name n order) (names native_shape))
         "Failed to get native tensor because dims were not specified in the dim order." ;;
  if order_is_tuple && list_eqb String.eqb order (names native_shape) then
    match dtype_precision C native with
    | None => Ok native
    | Some p =>
        if Nat.eqb p (get_precision C) then Ok native
        else Ok (NCast native (get_precision C))
    end
  else
    (* --- Transpose --- *)
    perm <- mapM (index native_shape) (only_reorder_names native_shape order) ;;
    transposed <-
      (if negb (list_eqb Nat.eqb perm (range (List.length perm)))
       then backend_transpose native perm
       else Ok (NAsTensor native)) ;;
    if Nat.eqb (List.length order) (List.length perm) then Ok transposed
    else
      (* --- Expand --- *)
      let slices := map (fun dim => has_dim dim native_shape) order in
      let expanded := NGetitem transposed slices in
      if force_expand then
        multiples <-
          mapM (fun dim =>
                  if has_dim dim shape_ && negb (has_dim dim native_shape)
                  then get_size shape_ dim
                  else Ok (SizeInt 1))
               order ;;
        backend_tile expanded multiples
      else Ok expanded.

(** [process_group(g)] of [reshaped_native] for a group given as a
    string. *)
Definition process_group (value_shape : Shape) (g : string) : Result (list string) :=
  let g := parse_dim_order C g in
  _ <- (if Nat.ltb 1 (List.length g)
        then py_assert (forallb (fun name => has_dim name value_shape) g)
               "When specifying a group by dim names, all dims must be present"
        else Ok tt) ;;
  Ok (only_reorder_names value_shape g).

(** [[g.name if g else f'new{i}' for i, g in enumerate(groups)]] *)
Fixpoint group_names (i : nat) (groups : list (list string)) : list string :=
  match groups with
  | [] => []
  | g :: rest =>
      match g with
      | name :: _ => name
      | [] => String.append "new" (string_of_nat i)
      end :: group_names (S i) rest
  end.

Definition to_numpy_if (to_numpy : bool) (native : Native) : Native :=
  if to_numpy then NNumpy native else native.

(** [reshaped_native(value, groups, force_expand, to_numpy)] with groups
    given as strings.  The branch that only transposes is taken by a
    [NativeTensor], so the method called there is that of [NativeTensor]. *)
Definition reshaped_native (value : Obj) (groups : list string)
    (force_expand to_numpy : bool) : Result Native :=
  _ <- py_assert (is_Tensor value) "value must be a Tensor" ;;
  _ <- py_assert (negb (_is_tracer value)) "Failed accessing native values because tensor is a tracer" ;;
  value <- (if is_sparse C value then dense C value else Ok value) ;;
  value_shape <- shape value ;;
  groups <- mapM (process_group value_shape) groups ;;
  let packed :=
    (* --- Pack and transpose --- *)
    native <- reshaped_native_packed C value
                (map (fun g => filter (fun d => mem_name (dim_name d) g) value_shape) groups)
                force_expand ;;
    Ok (to_numpy_if to_numpy native) in
  match value with
  | NativeTensor native native_shape shape_ =>
      if forallb (fun g => Nat.leb (List.length g) 1) groups then
        (* --- Only transpose, no packing --- *)
        native <- NativeTensor_transposed_native native native_shape shape_
                    (group_names 0 groups) false force_expand ;;
        Ok (to_numpy_if to_numpy native)
      else packed
  | _ => packed
  end.

(** [Layout.native(order, force_expand, to_numpy)] with [to_numpy=False]:
    the wrapped object. *)
Definition Layout_native (obj : Obj) (stack_dim : Shape) (order : Order) : Result Obj :=
  _ <- match order with
       | OrderNone => Ok tt
       | OrderSeq _ o =>
           py_assert (list_eqb String.eqb o (names stack_dim))
             "Layout.native() does not allow for changing the dimension order"
       | OrderStr o =>
           py_assert (list_eqb String.eqb (parse_dim_order C o) (names stack_dim))
             "Layout.native() does not allow for changing the dimension order"
       | OrderShape o =>
           py_assert (list_eqb String.eqb (names o) (names stack_dim))
             "Layout.native() does not allow for changing the dimension order"
       end ;;
  Ok obj.

(** [t.native(order)] for a component [t] of a stack and a tuple or list
    [order], with [force_expand] and [to_numpy] at their defaults: the
    method of [Tensor] hands a tuple or list to [reshaped_native], [Layout]
    has a method of its own. *)
Definition component_native (t : Obj) (order : list string) : Result Native :=
  match t with
  | Layout obj stack_dim _ =>
      o <- Layout_native obj stack_dim (OrderSeq true order) ;;
      object_as_native C o
  | _ => reshaped_native t order true false
  end.

(** [TensorStack._contiguous()].  [None] is returned for a stack that
    requires broadcasting. *)
Definition TensorStack_contiguous (t : Obj) : Result Obj :=
  match t with
  | TensorStack tensors stack_dim _ s =>
      rb <- requires_broadcast C t ;;
      if rb then Ok PyNone
      else
        shapes <- mapM shape tensors ;;
        if forallb is_uniform shapes then
          natives <- mapM (fun c => component_native c (names s)) tensors ;;
          axis <- index s (single_name stack_dim) ;;
          Ok (NativeTensor (NConcat natives axis) s s)
        else contiguous_non_uniform C t
  | _ => Raise AttributeError
  end.

(** [TensorStack._transposed_native(order, force_expand)] *)
Definition TensorStack_transposed_native (t : Obj) (order : list string)
    (order_is_tuple force_expand : bool) : Result Native :=
  match t with
  | TensorStack tensors stack_dim _ s =>
      let inner_order :=
        filter (fun name => negb (String.eqb name (single_name stack_dim))) order in
      (* Is only the stack dimension shifted? *)
      if list_eqb String.eqb (names (without s (names stack_dim))) inner_order then
        natives <- mapM (fun c => component_native c inner_order) tensors ;;
        _ <- py_assert (mem_name (single_name stack_dim) order)
               "Dimension missing from 'order'." ;;
        axis <- position order (single_name stack_dim) ;;
        Ok (NStack natives axis)
      else
        _ <- py_assert (negb (is_non_uniform s))
               "Cannot convert non-uniform tensor to native tensor." ;;
        c <- TensorStack_contiguous t ;;
        match c with
        | NativeTensor native native_shape shape_ =>
            NativeTensor_transposed_native native native_shape shape_
              order order_is_tuple force_expand
        | TensorStack _ _ _ _ => non_uniform_transposed_native C c order force_expand
        | _ => Raise AttributeError
        end
  | _ => Raise AttributeError
  end.

(** [_transposed_native] as the method of the three classes. *)
Definition _transposed_native (t : Obj) (order : list string) (order_is_tuple : bool)
    (force_expand : bool) : Result Native :=
  match t with
  | NativeTensor native native_shape shape_ =>
      NativeTensor_transposed_native native native_shape shape_ order order_is_tuple force_expand
  | TensorStack _ _ _ _ => TensorStack_transposed_native t order order_is_tuple force_expand
  | Layout _ _ _ => Raise (NotImplementedError "<class 'phiml.math._tensors.Layout'>")
  | _ => Raise AttributeError
  end.

(** [Tensor.native(order, force_expand, to_numpy)] *)
Definition Tensor_native (t : Obj) (order : Order) (force_expand to_numpy : bool)
    : Result Native :=
  match order with
  | OrderSeq _ groups => reshaped_native t groups force_expand to_numpy
  | _ =>
      s <- shape t ;;
      order <-
        match order with
        | OrderNone =>
            _ <- py_assert (Nat.leb (rank s) 1)
                   "When calling Tensor.native() or Tensor.numpy(), the dimension order must be specified for Tensors with more than one dimension" ;;
            Ok (names s)
        | OrderStr o => Ok (parse_dim_order C o)
        | OrderShape o => Ok (names o)
        | OrderSeq _ groups => Ok groups
        end ;;
      native <- _transposed_native t order true force_expand ;;
      Ok (to_numpy_if to_numpy native)
  end.

(** [t.native(order, force_expand, to_numpy)] where an array is expected:
    [Layout] overrides the method of [Tensor]. *)
Definition native (t : Obj) (order : Order) (force_expand to_numpy : bool)
    : Result Native :=
  match t with
  | Layout obj stack_dim _ =>
      o <- Layout_native obj stack_dim order ;;
      n <- object_as_native C o ;;
      Ok (to_numpy_if to_numpy n)
  | _ => Tensor_native t order force_expand to_numpy
  end.

End NativeArrays.

(* ------------------------------------------------------------------------- *)
(** ** Reference collaborators

    Modelled from the spec: simple versions of the collaborators, used to run
    the model on concrete inputs.  [merge_shapes] takes the union of the
    dimensions in first-seen order with batch dimensions first, and fails when
    two dimensions of one name disagree on type or on defined size;
    [shape_stack] puts the stack dimension in front of the merged dimensions
    and marks a size on which the components disagree as non-uniform. *)

Module Reference.

Definition same_type (a b : Dim) : bool :=
  option_eqb DimType_eqb (dim_type a) (dim_type b).

Definition same_size (a b : Dim) : bool :=
  match dim_size a, dim_size b with
  | SizeNone, _ | _, SizeNone => true
  | x, y => Size_eqb x y
  end.

Definition defined_of (a b : Dim) : Dim :=
  match dim_size a with
  | SizeNone => b
  | _ => a
  end.

Fixpoint add_dim (strict : bool) (d : Dim) (s : Shape) : Result Shape :=
  match s with
  | [] => Ok [d]
  | e :: rest =>
      if String.eqb (dim_name e) (dim_name d) then
        if same_type e d && same_size e d then Ok (defined_of e d :: rest)
        else if strict then Raise IncompatibleShapes
        else Ok (mkDim (dim_name e) (dim_type e) (SizeTensor 0) (dim_item_names e) :: rest)
      else
        r <- add_dim strict d rest ;; Ok (e :: r)
  end.

Fixpoint add_dims (strict : bool) (ds : Shape) (s : Shape) : Result Shape :=
  match ds with
  | [] => Ok s
  | d :: rest => s' <- add_dim strict d s ;; add_dims strict rest s'
  end.

Fixpoint union (strict : bool) (shapes : list Shape) (acc : Shape) : Result Shape :=
  match shapes with
  | [] => Ok acc
  | s :: rest => acc' <- add_dims strict s acc ;; union strict rest acc'
  end.

Definition is_batch (d : Dim) : bool :=
  match dim_type d with
  | Some BATCH_DIM => true
  | _ => false
  end.

Definition batch_first (s : Shape) : Shape :=
  filter is_batch s ++ filter (fun d => negb (is_batch d)) s.

Definition merge (shapes : list Shape) : Result Shape :=
  s <- union true shapes [] ;; Ok (batch_first s).

Definition stacked (stack_dim : Shape) (shapes : list Shape) : Result Shape :=
  s <- union false shapes [] ;; Ok (stack_dim ++ s).

(** Splits a string at commas. *)
Fixpoint split_commas (current : string) (s : string) : list string :=
  match s with
  | EmptyString => [current]
  | String c rest =>
      if Ascii.eqb c ","%char then current :: split_commas "" rest
      else split_commas (String.append current (String c EmptyString)) rest
  end.

(** [stack]: a [TensorStack] of the values, built as [TensorStack.__init__]
    builds it. *)
Definition stack_tensors (values : list Obj) (dim : Shape) : Result Obj :=
  shapes <- mapM shape values ;;
  _shape <- stacked (with_sizes dim [List.length values]) shapes ;;
  Ok (TensorStack values (with_sizes dim [List.length values])
        (negb (is_ok (merge shapes))) _shape).

(** [expand] of a number: a [NativeTensor] that holds the number and
    declares [dims]. *)
Definition expand_value (value : Obj) (dims : Shape) : Result Obj :=
  match value with
  | PyRaw n => Ok (NativeTensor n EMPTY_SHAPE dims)
  | _ => Raise (NotImplementedError "expand")
  end.

(** [x == y] on numbers; a NaN equals nothing. *)
Definition python_eq (x y : Obj) : Result Obj :=
  match x, y with
  | PyRaw (NNumber (PyFloatNum a)), PyRaw (NNumber (PyFloatNum b)) =>
      match a, b with
      | FFinite m e, FFinite m' e' =>
          Ok (PyRaw (NNumber (PyBool (Z.eqb m m' && Z.eqb e e'))))
      | _, _ => Ok (PyRaw (NNumber (PyBool false)))
      end
  | PyRaw (NNumber (PyInt a)), PyRaw (NNumber (PyInt b)) =>
      Ok (PyRaw (NNumber (PyBool (Z.eqb a b))))
  | PyRaw (NNumber (PyBool a)), PyRaw (NNumber (PyBool b)) =>
      Ok (PyRaw (NNumber (PyBool (Bool.eqb a b))))
  | _, _ => Raise (NotImplementedError "==")
  end.

Definition python_not (x : Obj) : Result Obj :=
  match x with
  | PyRaw (NNumber (PyBool b)) => Ok (PyRaw (NNumber (PyBool (negb b))))
  | _ => Raise (NotImplementedError "not")
  end.

Definition collaborators : Collaborators := {|
  merge_shapes := merge;
  shape_stack := stacked;
  is_sparse := fun _ => false;
  dense := fun t => Ok t;
  dtype_precision := fun _ => None;
  get_precision := 32;
  parse_dim_order := split_commas "";
  reshaped_native_packed := fun _ _ _ => Raise (NotImplementedError "pack_dims");
  contiguous_non_uniform := fun _ => Raise (NotImplementedError "non-uniform");
  non_uniform_transposed_native := fun _ _ _ => Raise (NotImplementedError "non-uniform");
  iterate_object := fun _ => Raise TypeError;
  object_as_native := fun o =>
    match o with
    | PyRaw n => Ok n
    | _ => Raise (NotImplementedError "object")
    end;
  contiguous_unstack := fun _ _ => Raise (NotImplementedError "concat");
  kernel_on_objects := fun _ _ _ => Raise (NotImplementedError "kernel");
  layout_shape := fun _ stack_dim => Ok stack_dim;
  is_Shapable := fun _ => false;
  stack := stack_tensors;
  expand := expand_value;
  getitem := fun _ _ _ => Raise (NotImplementedError "getitem");
  as_tensor := fun _ data =>
    match data with
    | PyRaw n => Ok n
    | _ => Raise NoBackendFound
    end;
  staticshape := fun _ => [];
  wrap_with_shape := fun n s => Ok (NativeTensor n s s);
  tensor_of_data := fun _ => Raise (ValueError "not supported");
  shape_of := fun o =>
    match o with
    | PyRaw (NNumber _) => Ok EMPTY_SHAPE
    | _ => Raise (ValueError "shape")
    end;
  is_compatible := fun a b => is_ok (merge [a; b]);
  close := fun _ _ _ _ _ => Raise (NotImplementedError "close");
  py_eq := python_eq;
  py_ne := fun a b => r <- python_eq a b ;; python_not r;
  from_dict_without_sizes := without_sizes;
  is_ndarray := fun n => match n with NArray _ => true | _ => false end;
  variable_attributes := fun o =>
    match o with
    | PyNode _ _ attrs => map fst attrs
    | _ => []
    end
|}.

(** Shapes and arrays of the examples. *)
Definition dim (name : string) (type : DimType) (size : nat) : Dim :=
  mkDim name (Some type) (SizeInt size) None.

End Reference.

(* ------------------------------------------------------------------------- *)
(** ** Binary operations *)

(** What [_op2] returns: a tensor, or the [NotImplemented] sentinel. *)
Inductive Op2Result : Type :=
| Handled (result : Obj)
| NotImplemented.

(** A function on native values, the [native_function] argument of [_op2].
    [NativeTensor] and [TensorStack] call it on backend arrays, a [Layout]
    calls it on the Python objects it wraps; the model gives the one Python
    callable both readings. *)
Record NativeFunction : Type := {
  on_arrays : Native -> Native -> Result Native;
  on_objects : Obj -> Obj -> Result Obj
}.

(** The arguments that describe the operation to [_op2].  [operator] acts on
    tensors and lets Python choose the callee. *)
Record Operation : Type := {
  operator : Obj -> Obj -> Result Obj;
  native_function : NativeFunction;
  op_name : string;
  op_symbol : string
}.

(** [zip] of the unpacked lists: the columns of a list of rows *)
Fixpoint heads {A : Type} (lists : list (list A)) : option (list A * list (list A)) :=
  match lists with
  | [] => Some ([], [])
  | [] :: _ => None
  | (x :: xs) :: rest =>
      match heads rest with
      | Some (hs, ts) => Some (x :: hs, xs :: ts)
      | None => None
      end
  end.

Fixpoint zip_star_fuel {A : Type} (fuel : nat) (lists : list (list A)) : list (list A) :=
  match fuel with
  | 0 => []
  | S fuel' =>
      match heads lists with
      | Some (hs, ts) => hs :: zip_star_fuel fuel' ts
      | None => []
      end
  end.

Definition zip_star {A : Type} (lists : list (list A)) : list (list A) :=
  match lists with
  | [] => []
  | first :: _ => zip_star_fuel (List.length first) lists
  end.

(** [len(obj)] *)
Definition py_len (obj : Obj) : Result nat :=
  match obj with
  | PyList items | PyTuple items => Ok (List.length items)
  | PyDict items => Ok (List.length items)
  | PyStr s => Ok (String.length s)
  | _ => Raise TypeError
  end.

(** [shape.channel] *)
Definition channel (s : Shape) : Shape :=
  filter (fun d => option_eqb DimType_eqb (dim_type d) (Some CHANNEL_DIM)) s.

(** [shape[name]] *)
Definition dim_named (s : Shape) (n : string) : Shape :=
  filter (fun d => String.eqb (dim_name d) n) s.

(** [concat_shapes(a, b)] *)
Definition concat_shapes (a b : Shape) : Shape := a ++ b.

(** [wrap(b)] for a bool [b]: [tensor] returns [NativeTensor(data, EMPTY_SHAPE)]. *)
Definition wrap_bool (b : bool) : Obj :=
  NativeTensor (NNumber (PyBool b)) EMPTY_SHAPE EMPTY_SHAPE.

(** [float('nan')] *)
Definition nan : Obj := PyRaw (NNumber (PyFloatNum FNaN)).

Section BinaryOperations.
Variable C : Collaborators.

(** [shape1 & shape2] *)
Definition and_shapes (a b : Shape) : Result Shape := merge_shapes C [a; b].

(** [Layout.__init__(obj, stack_dim)] *)
Definition Layout_init (obj : Obj) (stack_dim : Shape) : Result Obj :=
  s <- layout_shape C obj stack_dim ;;
  Ok (Layout obj stack_dim s).

(** [wrap(data)], which is [tensor(data, convert=False)] without a shape. *)
Definition wrap (data : Obj) : Result Obj :=
  match data with
  | NativeTensor _ _ _ | TensorStack _ _ _ _ | Layout _ _ _ => Ok data
  | PyStr _ | PyNone => Layout_init data EMPTY_SHAPE
  | PyRaw (NNumber x) => Ok (NativeTensor (NNumber x) EMPTY_SHAPE EMPTY_SHAPE)
  | _ => tensor_of_data C data
  end.

(** [t._natives()] *)
Fixpoint _natives (t : Obj) : Result (list Native) :=
  match t with
  | NativeTensor native _ _ => Ok [native]
  | TensorStack tensors _ _ _ =>
      (fix go (ts : list Obj) : Result (list Native) :=
         match ts with
         | [] => Ok []
         | c :: rest =>
             a <- _natives c ;;
             b <- go rest ;;
             Ok (a ++ b)
         end) tensors
  | Layout _ _ _ => Raise (NotImplementedError "<class 'phiml.math._tensors.Layout'>")
  | _ => Raise AttributeError
  end.

(** [compatible_tensor(data, compat_shape, compat_natives, convert=False)]
    for data that is no [Shape]. *)
Definition compatible_tensor (data : Obj) (compat_shape : Shape)
    (compat_natives : list Native) : Result Obj :=
  if is_Tensor data then Ok data
  else
    data <- as_tensor C compat_natives data ;;
    let shape_ := staticshape C data in
    if Nat.eqb (List.length shape_) 0 then Ok (NativeTensor data EMPTY_SHAPE EMPTY_SHAPE)
    else if Nat.eqb (List.length shape_) (rank (channel compat_shape)) then
      wrap_with_shape C data (channel compat_shape)
    else if Nat.ltb 1 (rank (channel compat_shape)) && Nat.eqb (List.length shape_) 1
            && has_dim "vector" (channel compat_shape) then
      wrap_with_shape C data (without_sizes (dim_named compat_shape "vector"))
    else if Nat.eqb (List.length shape_) (rank compat_shape) then
      Ok (NativeTensor data (with_sizes compat_shape shape_) (with_sizes compat_shape shape_))
    else Raise (ValueError "Cannot combine tensor with tensor of another shape").

(** [self._tensor(other)] *)
Definition _tensor (self other : Obj) : Result Obj :=
  let convert :=
    self_shape <- shape self ;;
    natives <- _natives self ;;
    compatible_tensor other self_shape natives in
  if is_Tensor other then Ok other
  else
    match other with
    | PyTuple items | PyList items =>
        if existsb is_Tensor items then
          self_shape <- shape self ;;
          outer_dim <-
            (if has_dim "vector" self_shape then Ok (dim_named self_shape "vector")
             else if Nat.eqb (rank (channel self_shape)) 1 then Ok (channel self_shape)
             else Raise (ValueError "Cannot combine tensor with tuple")) ;;
          let remaining_shape := without self_shape (names outer_dim) in
          other_items <-
            mapM (fun v =>
                    if is_Tensor v then Ok v
                    else natives <- _natives self ;;
                         compatible_tensor v remaining_shape natives)
                 items ;;
          stack C other_items outer_dim
        else convert
    | _ => convert
    end.

(** [[t.native(order=broadcast_shape, force_expand=False) if t.rank > 0 else t.native() ...]] *)
Definition broadcast_native (broadcast_shape : Shape) (t : Obj) : Result Native :=
  s <- shape t ;;
  if Nat.ltb 0 (rank s) then native C t (OrderShape broadcast_shape) false false
  else native C t OrderNone true false.

(** [NativeTensor._op2(other, operator, native_function, op_name, op_symbol, switch_args)] *)
Definition NativeTensor_op2 (self other : Obj) (op : Operation) (switch_args : bool)
    : Result Op2Result :=
  match self with
  | NativeTensor _ self_native_shape self_shape =>
      match _tensor self other with
      | Raise NoBackendFound => Ok NotImplemented
      | Raise e => Raise e
      | Ok other_tensor =>
          let was_converted := negb (is_Tensor other) in
          if negb (is_NativeTensor other_tensor) && negb was_converted then Ok NotImplemented
          else
            other_tensor <-
              (if negb (is_NativeTensor other_tensor) then
                 s <- shape other_tensor ;;
                 n <- native C other_tensor (OrderShape s) true false ;;
                 Ok (NativeTensor n s s)
               else Ok other_tensor) ;;
            match other_tensor with
            | NativeTensor _ other_native_shape other_shape =>
                broadcast_shape <- and_shapes self_native_shape other_native_shape ;;
                native1 <- broadcast_native broadcast_shape self ;;
                native2 <- broadcast_native broadcast_shape other_tensor ;;
                result_tensor <-
                  (if switch_args then on_arrays (native_function op) native2 native1
                   else on_arrays (native_function op) native1 native2) ;;
                s <- and_shapes self_shape other_shape ;;
                Ok (Handled (NativeTensor result_tensor broadcast_shape s))
            | _ => Raise AttributeError
            end
      end
  | _ => Raise AttributeError
  end.

(** [NativeTensor._unstack(dim)] *)
Definition NativeTensor_unstack (native : Native) (native_shape shape_ : Shape)
    (dim : string) : Result (list Obj) :=
  let new_shape := without shape_ [dim] in
  let new_native_shape := without native_shape [dim] in
  if has_dim dim native_shape then
    axis <- index native_shape dim ;;
    size <- get_size native_shape dim ;;
    match size with
    | SizeInt n =>
        Ok (map (fun i => NativeTensor (NUnstack native axis i) new_native_shape new_shape)
                (range n))
    | _ => Raise (ValueError "unstack")
    end
  else
    _ <- py_assert (has_dim dim shape_)
           "Cannot unstack tensor along non-existant dimension" ;;
    size <- get_size shape_ dim ;;
    match size with
    | SizeInt n => Ok (repeat (NativeTensor native new_native_shape new_shape) n)
    | _ => Raise TypeError
    end.

(** [Layout.wrap(native, stack_dim)] *)
Definition Layout_wrap (stack_dim : Shape) (native : Obj) : Result Obj :=
  if is_Tensor native then Ok native
  else
    match native with
    | PyNone | PyTuple _ | PyList _ | PyDict _ => Layout_init native stack_dim
    | PyRaw (NNumber x) =>
        if is_Shapable C native then Ok native
        else Ok (NativeTensor (NNumber x) EMPTY_SHAPE EMPTY_SHAPE)
    | _ => if is_Shapable C native then Ok native else Layout_init native stack_dim
    end.

(** The items that iterating over an object yields. *)
Fixpoint chars (s : string) : list Obj :=
  match s with
  | EmptyString => []
  | String c rest => PyStr (String c EmptyString) :: chars rest
  end.

(** [iter(obj)]: a list or tuple gives its items, a dict its keys and a
    string its characters; [None] cannot be iterated; any other object is
    asked for its iterator. *)
Definition py_iter (obj : Obj) : Result (list Obj) :=
  match obj with
  | PyList items | PyTuple items => Ok items
  | PyDict items => Ok (map (fun kv => PyStr (fst kv)) items)
  | PyStr s => Ok (chars s)
  | PyNone => Raise TypeError
  | _ => iterate_object C obj
  end.

(** [t._unstack(dim)] *)
Fixpoint _unstack (t : Obj) (dim : string) : Result (list Obj) :=
  match t with
  | NativeTensor native native_shape shape_ =>
      NativeTensor_unstack native native_shape shape_ dim
  | TensorStack tensors stack_dim _ _ =>
      if String.eqb dim (single_name stack_dim) then Ok tensors
      else
        rb <- requires_broadcast C t ;;
        if rb then
          unstacked <-
            (fix go (ts : list Obj) : Result (list (list Obj)) :=
               match ts with
               | [] => Ok []
               | c :: rest =>
                   u <- _unstack c dim ;;
                   us <- go rest ;;
                   Ok (u :: us)
               end) tensors ;;
          mapM (fun items => TensorStack_init C items stack_dim) (zip_star unstacked)
        else contiguous_unstack C t dim
  | Layout obj stack_dim _ =>
      match names stack_dim with
      | [] => Raise IndexError
      | first :: _ =>
          if String.eqb dim first then
            native <- match obj with
                      | PyDict items => Ok (map snd items)
                      | _ => py_iter obj
                      end ;;
            mapM (Layout_wrap (tl stack_dim)) native
          else Raise (NotImplementedError "")
      end
  | _ => Raise AttributeError
  end.

(** [broadcastable_native_tensors] on tensors of the three dense
    classes. *)
Definition broadcastable_native_tensors (tensors : list Obj)
    : Result (Shape * list Native) :=
  shapes <- mapM shape tensors ;;
  broadcast_shape <- merge_shapes C shapes ;;
  natives <-
    mapM (fun t =>
            s <- shape t ;;
            if Nat.ltb 0 (rank s)
            then native C t (OrderSeq true (names broadcast_shape)) true false
            else native C t OrderNone true false)
         tensors ;;
  Ok (broadcast_shape, natives).

(** [TensorStack._op2(other, operator, native_function, op_name, op_symbol)] *)
Definition TensorStack_op2 (self other : Obj) (op : Operation) : Result Op2Result :=
  match self with
  | TensorStack self_tensors self_stack_dim _ self_shape =>
      other <- _tensor self other ;;
      rb <- requires_broadcast C self ;;
      if rb then
        other_shape <- shape other ;;
        tensors <-
          (if has_dim (single_name self_stack_dim) other_shape then
             other_slices <- _unstack other (single_name self_stack_dim) ;;
             mapM (fun p => operator op (fst p) (snd p)) (zip self_tensors other_slices)
           else
             mapM (fun t => operator op t other) self_tensors) ;;
        r <- TensorStack_init C tensors self_stack_dim ;;
        Ok (Handled r)
      else
        match other with
        | NativeTensor _ _ _ =>
            '(new_shape, natives) <- broadcastable_native_tensors [self; other] ;;
            match natives with
            | [native1; native2] =>
                result_tensor <- on_arrays (native_function op) native1 native2 ;;
                Ok (Handled (NativeTensor result_tensor new_shape new_shape))
            | _ => Raise TypeError
            end
        | TensorStack other_tensors other_stack_dim _ _ =>
            other_rb <- requires_broadcast C other ;;
            if negb other_rb then
              '(new_shape, natives) <- broadcastable_native_tensors [self; other] ;;
              match natives with
              | [native1; native2] =>
                  result_tensor <- on_arrays (native_function op) native1 native2 ;;
                  Ok (Handled (NativeTensor result_tensor new_shape new_shape))
              | _ => Raise TypeError
              end
            else
              tensors <-
                (if has_dim (single_name other_stack_dim) self_shape then
                   self_slices <- _unstack self (single_name other_stack_dim) ;;
                   mapM (fun p => operator op (fst p) (snd p)) (zip self_slices other_tensors)
                 else
                   mapM (fun t => operator op self t) other_tensors) ;;
              r <- TensorStack_init C tensors self_stack_dim ;;
              Ok (Handled r)
        | _ => Ok NotImplemented
        end
  | _ => Raise AttributeError
  end.

End BinaryOperations.

Section LayoutOperations.
Variable C : Collaborators.

(** [Layout._recursive_op2(obj, shape, other, operator, native_function, op_name)].
    The list [others] is built before the items are visited. *)
Fixpoint Layout_recursive_op2 (op : Operation) (obj : Obj) (shape_ : Shape) (other : Obj)
    {struct obj} : Result Obj :=
  match shape_ with
  | d :: inner =>
      let dim := dim_name d in
      others <-
        (if is_Tensor other && match shape other with
                               | Ok s => has_dim dim s
                               | Raise _ => false
                               end then
           other_shape <- shape other ;;
           size <- get_size other_shape dim ;;
           n <- py_len obj ;;
           _ <- py_assert (Size_eqb size (SizeInt n)) "Shape mismatch during the operation" ;;
           mapM (getitem C other dim) (range n)
         else
           n <- py_len obj ;;
           Ok (repeat other n)) ;;
      match obj with
      | PyTuple items =>
          r <- (fix go (items : list Obj) (others : list Obj) : Result (list Obj) :=
                  match items, others with
                  | i :: items', o :: others' =>
                      x <- Layout_recursive_op2 op i inner o ;;
                      xs <- go items' others' ;;
                      Ok (x :: xs)
                  | _, _ => Ok []
                  end) items others ;;
          Ok (PyTuple r)
      | PyList items =>
          r <- (fix go (items : list Obj) (others : list Obj) : Result (list Obj) :=
                  match items, others with
                  | i :: items', o :: others' =>
                      x <- Layout_recursive_op2 op i inner o ;;
                      xs <- go items' others' ;;
                      Ok (x :: xs)
                  | _, _ => Ok []
                  end) items others ;;
          Ok (PyList r)
      | PyDict items =>
          r <- (fix go (items : list (string * Obj)) (others : list Obj)
                  : Result (list (string * Obj)) :=
                  match items, others with
                  | (k, v) :: items', o :: others' =>
                      x <- Layout_recursive_op2 op v inner o ;;
                      xs <- go items' others' ;;
                      Ok ((k, x) :: xs)
                  | _, _ => Ok []
                  end) items others ;;
          Ok (PyDict r)
      | _ => Ok PyNone
      end
  | [] =>
      (* leaf *)
      match other with
      | Layout other_obj other_stack_dim [] =>
          o <- Layout_native C other_obj other_stack_dim OrderNone ;;
          on_objects (native_function op) obj o
      | _ =>
          if is_Tensor other then operator op obj other
          else on_objects (native_function op) obj other
      end
  end.

(** [Layout._op2(other, operator, native_function, op_name, op_symbol)] *)
Definition Layout_op2 (self other : Obj) (op : Operation) : Result Op2Result :=
  match self with
  | Layout self_obj self_stack_dim _ =>
      obj <- Layout_recursive_op2 op self_obj self_stack_dim other ;;
      let new_stack :=
        match other with
        | Layout _ other_stack_dim _ =>
            concat_shapes self_stack_dim (without other_stack_dim (names self_stack_dim))
        | _ => self_stack_dim
        end in
      r <- Layout_init C obj new_stack ;;
      Ok (Handled r)
  | _ => Raise AttributeError
  end.

(** [x._op2(other, operator, native_function, op_name, op_symbol)], the method
    of the class of [x]. *)
Definition _op2 (x other : Obj) (op : Operation) : Result Op2Result :=
  match x with
  | NativeTensor _ _ _ => NativeTensor_op2 C x other op false
  | TensorStack _ _ _ _ => TensorStack_op2 C x other op
  | Layout _ _ _ => Layout_op2 x other op
  | _ => Raise AttributeError
  end.

End LayoutOperations.

(* ------------------------------------------------------------------------- *)
(** ** [custom_op2] *)

(** One call of [_op2], as [custom_op2] makes it. *)
Record Op2Call : Type := {
  receiver : Obj;
  argument : Obj;
  operation : Operation
}.

Section CustomOp2.
Variable C : Collaborators.

(** The method [_op2] as Python looks it up on the class of the receiver. *)
Variable op2_method : Obj -> Obj -> Operation -> Result Op2Result.

(** [lambda a, b: f(b, a)] *)
Definition flip_native (f : NativeFunction) : NativeFunction := {|
  on_arrays := fun a b => on_arrays f b a;
  on_objects := fun a b => on_objects f b a
|}.

(** [custom_op2(x, y, l_operator, l_native_function, r_operator, r_native_function, op_name, op_symbol)].
    Next to the result the model returns the calls of [_op2] in the order
    in which they were made. *)
Definition custom_op2 (x y : Obj)
    (l_operator : Obj -> Obj -> Result Obj) (l_native_function : NativeFunction)
    (r_operator : option (Obj -> Obj -> Result Obj))
    (r_native_function : option NativeFunction)
    (op_name_ : string) (op_symbol_ : option string)
    : list Op2Call * Result Obj :=
  let op_symbol_ :=
    match op_symbol_ with
    | None => op_name_
    | Some symbol => symbol
    end in
  match wrap C x with
  | Raise e => ([], Raise e)
  | Ok x =>
      match wrap C y with
      | Raise e => ([], Raise e)
      | Ok y =>
          let l := {| operator := l_operator; native_function := l_native_function;
                      op_name := op_name_; op_symbol := op_symbol_ |} in
          let call1 := {| receiver := x; argument := y; operation := l |} in
          match op2_method x y l with
          | Raise e => ([call1], Raise e)
          | Ok (Handled result) => ([call1], Ok result)
          | Ok NotImplemented =>
              let r_operator :=
                match r_operator with
                | None => fun a b => l_operator b a
                | Some f => f
                end in
              let r_native_function :=
                match r_native_function with
                | None => flip_native l_native_function
                | Some f => f
                end in
              let r := {| operator := r_operator;
                          native_function := r_native_function;
                          op_name := String.append "r" op_name_;
                          op_symbol := op_symbol_ |} in
              let call2 := {| receiver := y; argument := x; operation := r |} in
              match op2_method y x r with
              | Raise e => ([call1; call2], Raise e)
              | Ok (Handled result) => ([call1; call2], Ok result)
              | Ok NotImplemented =>
                  ([call1; call2],
                   Raise (NotImplementedError
                            (String.append "Operation not supported between "
                              (String.append (type_name x)
                                (String.append " and " (type_name y))))))
              end
          end
      end
  end.

End CustomOp2.

(* ------------------------------------------------------------------------- *)
(** ** Equality of tensors *)

Section Equality.
Variable C : Collaborators.

(** The operations that [__eq__] and [__ne__] hand to [_op2]. *)
Definition eq_operation : Operation := {|
  operator := py_eq C;
  native_function := {| on_arrays := fun x y => Ok (NApply "equal" x y);
                        on_objects := kernel_on_objects C "equal" |};
  op_name := "eq";
  op_symbol := "=="
|}.

Definition ne_operation : Operation := {|
  operator := py_ne C;
  native_function := {| on_arrays := fun x y => Ok (NApply "not_equal" x y);
                        on_objects := kernel_on_objects C "not_equal" |};
  op_name := "ne";
  op_symbol := "!="
|}.

Definition Layout_eq_operation : Operation := {|
  operator := py_eq C;
  native_function := {| on_arrays := fun x y => Ok (NApply "==" x y);
                        on_objects := py_eq C |};
  op_name := "eq";
  op_symbol := "=="
|}.

Definition Layout_ne_operation : Operation := {|
  operator := py_ne C;
  native_function := {| on_arrays := fun x y => Ok (NApply "!=" x y);
                        on_objects := py_ne C |};
  op_name := "ne";
  op_symbol := "!="
|}.

(** [set(shape1) != set(shape2)] *)
Definition same_dim_set (a b : Shape) : bool :=
  forallb (fun d => existsb (Dim_eqb d) b) a && forallb (fun d => existsb (Dim_eqb d) a) b.

(** [shape(other)] *)
Definition shape_fn (other : Obj) : Result Shape :=
  if is_Tensor other then shape other else shape_of C other.

(** [Tensor.__eq__(self, other)].  [stack] is [_EQUALITY_REDUCE] and
    [identical] is the value of [self is other]. *)
Definition Tensor___eq__ (stack_ : EqualityStack) (identical : bool) (self other : Obj)
    : Result Op2Result :=
  if identical then
    s <- shape self ;;
    r <- expand C (PyRaw (NNumber (PyBool true))) s ;;
    Ok (Handled r)
  else
    frame <- active_frame stack_ ;;
    match frame with
    | ByRef => Ok (Handled (wrap_bool identical))
    | ShapeAndValue rel_tolerance abs_tolerance equal_nan =>
        s <- shape self ;;
        other_shape <- shape other ;;
        if negb (same_dim_set s other_shape) then Ok (Handled (wrap_bool false))
        else
          b <- close C self other rel_tolerance abs_tolerance equal_nan ;;
          Ok (Handled (wrap_bool b))
    | Elementwise =>
        let other := match other with PyNone => nan | _ => other end in
        s <- shape self ;;
        other_shape <- shape_fn other ;;
        if is_compatible C s other_shape then _op2 C self other eq_operation
        else Ok (Handled (wrap_bool false))
    end.

(** [Tensor.__ne__(self, other)] *)
Definition Tensor___ne__ (stack_ : EqualityStack) (identical : bool) (self other : Obj)
    : Result Op2Result :=
  frame <- active_frame stack_ ;;
  match frame with
  | ByRef => Ok (Handled (wrap_bool (negb identical)))
  | ShapeAndValue rel_tolerance abs_tolerance equal_nan =>
      s <- shape self ;;
      other_shape <- shape other ;;
      if negb (same_dim_set s other_shape) then Ok (Handled (wrap_bool true))
      else
        b <- close C self other rel_tolerance abs_tolerance equal_nan ;;
        Ok (Handled (wrap_bool (negb b)))
  | Elementwise =>
      let other := match other with PyNone => nan | _ => other end in
      s <- shape self ;;
      other_shape <- shape_fn other ;;
      if is_compatible C s other_shape then _op2 C self other ne_operation
      else Ok (Handled (wrap_bool true))
  end.

Definition is_elementwise (f : Frame) : bool :=
  match f with Elementwise => true | _ => false end.

(** [Layout.__eq__(self, other)] *)
Definition Layout___eq__ (stack_ : EqualityStack) (identical : bool) (self other : Obj)
    : Result Op2Result :=
  frame <- active_frame stack_ ;;
  if negb (is_elementwise frame) then Tensor___eq__ stack_ identical self other
  else _op2 C self other Layout_eq_operation.

(** [Layout.__ne__(self, other)] *)
Definition Layout___ne__ (stack_ : EqualityStack) (identical : bool) (self other : Obj)
    : Result Op2Result :=
  frame <- active_frame stack_ ;;
  if negb (is_elementwise frame) then Tensor___ne__ stack_ identical self other
  else _op2 C self other Layout_ne_operation.

(** [t.__eq__(other)]: the method of the class of [t]. *)
Definition __eq__ (stack_ : EqualityStack) (identical : bool) (t other : Obj)
    : Result Op2Result :=
  match t with
  | Layout _ _ _ => Layout___eq__ stack_ identical t other
  | NativeTensor _ _ _ | TensorStack _ _ _ _ => Tensor___eq__ stack_ identical t other
  | _ => Raise AttributeError
  end.

(** [t.__ne__(other)]: the method of the class of [t]. *)
Definition __ne__ (stack_ : EqualityStack) (identical : bool) (t other : Obj)
    : Result Op2Result :=
  match t with
  | Layout _ _ _ => Layout___ne__ stack_ identical t other
  | NativeTensor _ _ _ | TensorStack _ _ _ _ => Tensor___ne__ stack_ identical t other
  | _ => Raise AttributeError
  end.

End Equality.

(* ------------------------------------------------------------------------- *)
(** ** Example values *)

Module Examples.
Import Reference.

Definition b_dim : Shape := [mkDim "b" (Some BATCH_DIM) SizeNone None].
Definition x2 : Shape := [dim "x" SPATIAL_DIM 2].
Definition x3 : Shape := [dim "x" SPATIAL_DIM 3].

(** Two tensors of different shapes, stacked along [b]. *)
Definition t1 : Obj := NativeTensor (NArray 1) x2 x2.
Definition t2 : Obj := NativeTensor (NArray 2) x3 x3.
Definition ragged : Obj :=
  TensorStack [t1; t2] [dim "b" BATCH_DIM 2] true
    [dim "b" BATCH_DIM 2; mkDim "x" (Some SPATIAL_DIM) (SizeTensor 0) None].

(** Three scalars, stacked along [b]. *)
Definition u1 : Obj := NativeTensor (NArray 3) [] [].
Definition u2 : Obj := NativeTensor (NArray 4) [] [].
Definition u3 : Obj := NativeTensor (NArray 5) [] [].
Definition three : Obj :=
  TensorStack [u1; u2; u3] [dim "b" BATCH_DIM 3] false [dim "b" BATCH_DIM 3].

(** [lambda x, y: x + y] on two [NativeTensor]s whose arrays broadcast. *)
Definition add_operator (x y : Obj) : Result Obj :=
  match x, y with
  | NativeTensor n ns s, NativeTensor m _ _ => Ok (NativeTensor (NApply "add" n m) ns s)
  | _, _ => Raise TypeError
  end.

Definition add_native : NativeFunction := {|
  on_arrays := fun a b => Ok (NApply "add" a b);
  on_objects := fun _ _ => Raise TypeError
|}.

Definition add : Operation := {|
  operator := add_operator;
  native_function := add_native;
  op_name := "add";
  op_symbol := "+"
|}.

(** A vector of two entries, and a list of two scalar tensors that is
    combined with it. *)
Definition vector2 : Shape := [dim "vector" CHANNEL_DIM 2].
Definition v : Obj := NativeTensor (NArray 0) vector2 vector2.
Definition pair_of_scalars : Obj := PyList [u1; u2].

(** A tensor with the dimension [x] of size three. *)
Definition w : Obj := NativeTensor (NArray 6) x3 x3.

(** A layout without dimensions that holds NaN, and a layout of two numbers
    along [a]. *)
Definition nan_layout : Obj := Layout nan [] [].
Definition a2 : Shape := [dim "a" CHANNEL_DIM 2].
Definition a3 : Shape := [dim "a" CHANNEL_DIM 3].
Definition two_numbers : Obj :=
  Layout (PyList [PyRaw (NNumber (PyInt 1)); PyRaw (NNumber (PyInt 2))]) a2 a2.
Definition three_along_a : Obj := NativeTensor (NArray 7) a3 a3.

(** The tree [[None, t1, {'k': u1}]]. *)
Definition tree : Obj := PyList [PyNone; t1; PyDict [("k", u1)]].

(** A dict with the key that marks the skeleton of a layout. *)
Definition layout_key_dict : Obj := PyDict [("__layout__", PyNone)].

(** Two layouts of the list [['p', 'q']]: one along [b], which carries no
    size, and one along [a] of size two. *)
Definition unsized_words : Obj := Layout (PyList [PyStr "p"; PyStr "q"]) b_dim b_dim.
Definition sized_words : Obj := Layout (PyList [PyStr "p"; PyStr "q"]) a2 a2.

(** The tuple of [tree] and a layout, and a tuple of the same structure
    that holds other tensors. *)
Definition forest : Obj := PyTuple [tree; unsized_words].
Definition forest_alike : Obj :=
  PyTuple [PyList [PyNone; t2; PyDict [("k", u3)]]; unsized_words].

(** The tensors of [forest] and those that take their places in
    [forest_alike]. *)
Definition replaced (a b : Obj) : Prop := (a = t1 /\ b = t2) \/ (a = u1 /\ b = u3).

(** The dicts [{'a': t1, 'b': t2}] and [{'b': t2, 'a': t1}], which hold the
    same value under every key. *)
Definition a_then_b : list (string * Obj) := [("a", t1); ("b", t2)].
Definition b_then_a : list (string * Obj) := [("b", t2); ("a", t1)].

(** A class whose [_op2] handles nothing. *)
Definition handles_nothing (x other : Obj) (op : Operation) : Result Op2Result :=
  Ok NotImplemented.

(** A body of a [with] statement that leaves the list of modes alone. *)
Definition quiet_body : Region unit := fun stack_ => (stack_, Returned tt).

(** A body that appends a frame of its own and does not remove it:
    [_EQUALITY_REDUCE.append({'type': 'elementwise'})]. *)
Definition appending_body : Region unit :=
  fun stack_ => (stack_ ++ [Elementwise], Returned tt).

(** The same body, ending in [raise KeyError]. *)
Definition appending_raising_body : Region unit :=
  fun stack_ => (stack_ ++ [Elementwise], Raised (KeyError "k")).

(** A body that empties the list: [_EQUALITY_REDUCE.clear()]. *)
Definition clearing_body : Region unit := fun _ => ([], Returned tt).

End Examples.

(* ------------------------------------------------------------------------- *)
(** ** Flattening and rebuilding trees *)

Definition MISSING_TENSOR : string := "__missing__".
Definition NATIVE_TENSOR : string := "__native__".

(** [obj[key]] on a dict, and [getattr(obj, name)] on the attributes of an
    object. *)
Fixpoint lookup {A : Type} (key : string) (items : list (string * A)) : option A :=
  match items with
  | [] => None
  | (k, v) :: rest => if String.eqb k key then Some v else lookup key rest
  end.

(** [key in dict] *)
Definition has_key {A : Type} (key : string) (items : list (string * A)) : bool :=
  match lookup key items with Some _ => true | None => false end.

(** Modelled from the spec: [copy_with(obj, **updates)] of [_magic_ops.py]:
    a copy of the object in which the named attributes have the new values
    and all other state is kept. *)
Definition copy_with (attrs : list (string * Obj)) (updates : list (string * Obj))
    : list (string * Obj) :=
  map (fun kv => match lookup (fst kv) updates with
                 | Some v => (fst kv, v)
                 | None => kv
                 end) attrs.

(** The dict that [keys[name] = key] builds for the names in turn, given the
    entries [later] of the names that follow: a later entry for the same name
    replaces this one. *)
Definition dict_entry (key : string) (v : Obj) (later : list (string * Obj))
    : list (string * Obj) :=
  if has_key key later then later else (key, v) :: later.

(** [Shape(sizes, tuple([f"dim{i}" ...]), (None,) * len(sizes), (None,) * len(sizes))] *)
Fixpoint default_dims (i : nat) (sizes_ : list nat) : Shape :=
  match sizes_ with
  | [] => []
  | n :: rest =>
      mkDim (String.append "dim" (string_of_nat i)) None (SizeInt n) None
        :: default_dims (S i) rest
  end.

(** Modelled from the spec: the instance check of [magic.PhiTreeNode], whose
    source is not part of the module.  [cached] asserts it and then calls
    itself on the tuple of the components of a stack: tensors are tree nodes,
    and so are tuples, lists and dicts of tree nodes and objects that declare
    attributes. *)
Fixpoint is_PhiTreeNode (o : Obj) : bool :=
  match o with
  | NativeTensor _ _ _ | TensorStack _ _ _ _ | Layout _ _ _ => true
  | PyTuple items | PyList items => forallb is_PhiTreeNode items
  | PyDict items => forallb (fun kv => is_PhiTreeNode (snd kv)) items
  | PyNode _ _ _ => true
  | _ => false
  end.

Section Trees.
Variable C : Collaborators.

(** [values.pop(0)] *)
Definition pop0 (values : list Obj) : Result (Obj * list Obj) :=
  match values with
  | [] => Raise IndexError
  | v :: rest => Ok (v, rest)
  end.

(** [Shape._from_dict(d)] *)
Definition Shape_from_dict (d : Obj) : Result Shape :=
  match d with
  | PyShapeDict s => Ok (from_dict_without_sizes C s)
  | _ => Raise TypeError
  end.

(** The attribute loop of [assemble_tree]:
    [{a: assemble_tree(getattr(obj, a), values, attr_type) for a in attributes}].
    [parts] holds, for every attribute of the object, the rebuilding of its
    value as a function of the list of values. *)
Fixpoint assemble_attributes
    (parts : list (string * (list Obj -> Result (Obj * list Obj))))
    (attributes : list string) (values : list Obj)
    : Result (list (string * Obj) * list Obj) :=
  match attributes with
  | [] => Ok ([], values)
  | a :: rest =>
      match lookup a parts with
      | None => Raise AttributeError
      | Some part =>
          '(v, values) <- part values ;;
          '(updates, values) <- assemble_attributes parts rest values ;;
          Ok (dict_entry a v updates, values)
      end
  end.

(** [assemble_tree(obj, values, attr_type)].  The list [values] is consumed
    from the front; the rest is returned with the result.  A dataclass
    container is rebuilt by [assemble] of the dataclass module, which is
    modelled from the spec as the attribute loop of the [PhiTreeNode]
    branch. *)
Fixpoint assemble_tree (attr_type : Obj -> list string) (obj : Obj) (values : list Obj)
    {struct obj} : Result (Obj * list Obj) :=
  let assemble_items :=
    fix go (items : list Obj) (values : list Obj) : Result (list Obj * list Obj) :=
      match items with
      | [] => Ok ([], values)
      | item :: rest =>
          '(x, values) <- assemble_tree attr_type item values ;;
          '(xs, values) <- go rest values ;;
          Ok (x :: xs, values)
      end in
  match obj with
  | PyStr s =>
      if String.eqb s MISSING_TENSOR then Ok (PyNone, values)
      else if String.eqb s NATIVE_TENSOR then
        '(value, values) <- pop0 values ;;
        match value with
        | NativeTensor native _ shape_ =>
            if is_ndarray C native && Shape_eqb shape_ EMPTY_SHAPE
            then Ok (PyRaw (NItem native), values)
            else Ok (PyRaw native, values)
        | _ => Raise (AssertionError "Failed to assemble tree structure.")
        end
      else Ok (obj, values)
  | PyNone =>
      '(value, values) <- pop0 values ;;
      _ <- py_assert (is_Tensor value) "" ;;
      Ok (value, values)
  | PyList items =>
      '(xs, values) <- assemble_items items values ;;
      Ok (PyList xs, values)
  | PyTuple items =>
      '(xs, values) <- assemble_items items values ;;
      Ok (PyTuple xs, values)
  | PyDict items =>
      if has_key "__layout__" items then
        match
          (fix find (items : list (string * Obj))
             : option (list Obj -> Result (Obj * list Obj)) :=
             match items with
             | [] => None
             | (k, v) :: rest =>
                 if String.eqb k "obj" then Some (assemble_tree attr_type v)
                 else find rest
             end) items
        with
        | None => Raise (KeyError "obj")
        | Some content_of =>
            '(content, values) <- content_of values ;;
            match lookup "stack_dim" items with
            | None => Raise (KeyError "stack_dim")
            | Some d =>
                stack_dim <- Shape_from_dict d ;;
                r <- Layout_init C content stack_dim ;;
                Ok (r, values)
            end
        end
      else
        '(xs, values) <-
          (fix go (items : list (string * Obj)) (values : list Obj)
             : Result (list (string * Obj) * list Obj) :=
             match items with
             | [] => Ok ([], values)
             | (name, val) :: rest =>
                 '(x, values) <- assemble_tree attr_type val values ;;
                 '(xs, values) <- go rest values ;;
                 Ok ((name, x) :: xs, values)
             end) items values ;;
        Ok (PyDict xs, values)
  | NativeTensor _ _ _ | TensorStack _ _ _ _ | Layout _ _ _ => Ok (obj, values)
  | PyNode cls dataclass attrs =>
      let parts := map (fun kv => (fst kv, assemble_tree attr_type (snd kv))) attrs in
      '(updates, values) <- assemble_attributes parts (attr_type obj) values ;;
      Ok (PyNode cls dataclass (copy_with attrs updates), values)
  | PyRaw _ | PyOpaque _ | PyShapeDict _ => Ok (obj, values)
  end.

(** The loop of [disassemble_tree] over the items of a tuple or list. *)
Definition disassemble_items (dis : Obj -> Result (Obj * list Obj))
    : list Obj -> Result (list Obj * list Obj) :=
  fix go (items : list Obj) : Result (list Obj * list Obj) :=
    match items with
    | [] => Ok ([], [])
    | item :: rest =>
        '(key, value) <- dis item ;;
        '(keys, values) <- go rest ;;
        Ok (key :: keys, value ++ values)
    end.

(** The attribute loop of [disassemble_tree].  [parts] holds, for every
    attribute of the object, the flattening of its value. *)
Fixpoint disassemble_attributes
    (parts : list (string * Result (Obj * list Obj))) (attributes : list string)
    : Result (list (string * Obj) * list Obj) :=
  match attributes with
  | [] => Ok ([], [])
  | a :: rest =>
      match lookup a parts with
      | None => Raise AttributeError
      | Some part =>
          '(key, value) <- part ;;
          '(keys, values) <- disassemble_attributes parts rest ;;
          Ok (dict_entry a key keys, value ++ values)
      end
  end.

(** [NativeTensor._cached()] *)
Definition NativeTensor_cached (self_native : Native) (native_shape shape_ : Shape)
    : Result Obj :=
  if Shape_eqb native_shape shape_ then Ok (NativeTensor self_native native_shape shape_)
  else
    n <- native C (NativeTensor self_native native_shape shape_) (OrderShape shape_)
           true false ;;
    Ok (NativeTensor n shape_ shape_).

(** The branch of [cached] for a [TensorStack].  [dis] is
    [disassemble_tree] with [cache=True], through which [cached(t._tensors)]
    reaches the components. *)
Definition cached_TensorStack (dis : Obj -> Result (Obj * list Obj))
    (tensors : list Obj) (stack_dim : Shape) (varying : bool) (shape_ : Shape)
    : Result Obj :=
  _ <- py_assert (is_PhiTreeNode (PyTuple tensors)) "All arguments must be Tensors" ;;
  '(keys, values) <- disassemble_items dis tensors ;;
  '(inners, _) <- assemble_tree (variable_attributes C) (PyTuple keys) values ;;
  match inners with
  | PyTuple inners =>
      rb <- requires_broadcast C (TensorStack tensors stack_dim varying shape_) ;;
      if rb then TensorStack_init C inners stack_dim
      else
        natives <- mapM (fun t => s <- shape t ;;
                                  native C t (OrderSeq true (names s)) true false)
                        inners ;;
        axis <- index shape_ (single_name stack_dim) ;;
        Ok (NativeTensor (NStack natives axis) shape_ shape_)
  | _ => Raise TypeError
  end.

(** [disassemble_tree(obj, cache, attr_type)].  Where [cache] is set a
    tensor leaf is replaced by [cached(leaf)]; the branches of [cached] for
    the two dense classes appear here, and [cached] itself follows.  The
    branch of a dataclass calls [disassemble] of the dataclass module and
    caches the values it returns.  Modelled from the spec: [disassemble]
    recurses over the declared attributes and keeps all other state. *)
Fixpoint disassemble_tree (attr_type : Obj -> list string) (cache : bool) (obj : Obj)
    {struct obj} : Result (Obj * list Obj) :=
  match obj with
  | PyNone => Ok (PyStr MISSING_TENSOR, [])
  | Layout o stack_dim _ =>
      '(keys, values) <- disassemble_tree attr_type cache o ;;
      Ok (PyDict [("__layout__", PyRaw (NNumber (PyInt 1)));
                  ("stack_dim", PyShapeDict stack_dim);
                  ("obj", keys)], values)
  | NativeTensor n native_shape shape_ =>
      t <- (if cache then NativeTensor_cached n native_shape shape_ else Ok obj) ;;
      Ok (PyNone, [t])
  | TensorStack tensors stack_dim varying shape_ =>
      t <- (if cache then
              cached_TensorStack (disassemble_tree (variable_attributes C) true)
                tensors stack_dim varying shape_
            else Ok obj) ;;
      Ok (PyNone, [t])
  | PyTuple items =>
      '(keys, values) <- disassemble_items (disassemble_tree attr_type cache) items ;;
      Ok (PyTuple keys, values)
  | PyList items =>
      '(keys, values) <- disassemble_items (disassemble_tree attr_type cache) items ;;
      Ok (PyList keys, values)
  | PyDict items =>
      '(keys, values) <-
        (fix go (items : list (string * Obj)) : Result (list (string * Obj) * list Obj) :=
           match items with
           | [] => Ok ([], [])
           | (name, item) :: rest =>
               '(key, value) <- disassemble_tree attr_type cache item ;;
               '(keys, values) <- go rest ;;
               Ok ((name, key) :: keys, value ++ values)
           end) items ;;
      Ok (PyDict keys, values)
  | PyNode cls dataclass attrs =>
      let parts :=
        map (fun kv => (fst kv, disassemble_tree attr_type cache (snd kv))) attrs in
      '(keys, values) <- disassemble_attributes parts (attr_type obj) ;;
      Ok (PyNode cls dataclass (copy_with attrs keys), values)
  | PyRaw n =>
      let shape_ := default_dims 0 (staticshape C n) in
      Ok (PyStr NATIVE_TENSOR, [NativeTensor n shape_ shape_])
  | PyStr _ | PyOpaque _ | PyShapeDict _ => Ok (obj, [])
  end.

(** [cached(t)] on the three dense classes and on trees. *)
Definition cached (t : Obj) : Result Obj :=
  _ <- py_assert (is_Tensor t || is_PhiTreeNode t) "All arguments must be Tensors" ;;
  match t with
  | NativeTensor n native_shape shape_ => NativeTensor_cached n native_shape shape_
  | TensorStack tensors stack_dim varying shape_ =>
      cached_TensorStack (disassemble_tree (variable_attributes C) true)
        tensors stack_dim varying shape_
  | Layout _ _ _ => Ok t
  | _ =>
      '(tree, tensors) <- disassemble_tree (variable_attributes C) true t ;;
      '(r, _) <- assemble_tree (variable_attributes C) tree tensors ;;
      Ok r
  end.

End Trees.

(* ------------------------------------------------------------------------- *)
(** ** Trees that the flattening reproduces *)

Section Supported.
Variable C : Collaborators.
Variable attr_type : Obj -> list string.

(** The trees [x] for which [assemble_tree] undoes [disassemble_tree]:
    - no string leaf is one of the two markers;
    - no dict has the key ['__layout__'];
    - a raw array is not a NumPy array of rank zero, which [assemble_tree]
      hands back as a Python scalar;
    - an object with attributes has distinct attribute names, declares
      distinct attributes that it has, and declares the same attributes
      after its attribute values were replaced;
    - the stack dimensions of a [Layout] read back from their dict form
      unchanged, and its shape is the one [Layout.__init__] computes.  The
      dict form is written by [_to_dict(False)], without the sizes, so
      stack dimensions that carry sizes do not read back unchanged.
    Tuples, lists and dicts are instances of the built-in classes, as
    everywhere in [Obj]: the skeleton and the result are built with
    [tuple(...)], a list and a dict, whatever the class of the container
    was. *)
Fixpoint supported (x : Obj) : Prop :=
  match x with
  | PyStr s => s <> MISSING_TENSOR /\ s <> NATIVE_TENSOR
  | PyRaw n => is_ndarray C n && Nat.eqb (List.length (staticshape C n)) 0 = false
  | PyList items | PyTuple items =>
      (fix all (l : list Obj) : Prop :=
         match l with
         | [] => True
         | y :: rest => supported y /\ all rest
         end) items
  | PyDict items =>
      has_key "__layout__" items = false /\
      (fix all (l : list (string * Obj)) : Prop :=
         match l with
         | [] => True
         | kv :: rest => supported (snd kv) /\ all rest
         end) items
  | PyNode cls dataclass attrs =>
      NoDup (map fst attrs) /\
      NoDup (attr_type x) /\
      (forall a, In a (attr_type x) -> has_key a attrs = true) /\
      (forall attrs', map fst attrs' = map fst attrs ->
                      attr_type (PyNode cls dataclass attrs') = attr_type x) /\
      (fix all (l : list (string * Obj)) : Prop :=
         match l with
         | [] => True
         | kv :: rest => supported (snd kv) /\ all rest
         end) attrs
  | Layout o stack_dim s =>
      supported o /\
      from_dict_without_sizes C stack_dim = stack_dim /\
      layout_shape C o stack_dim = Ok s
  | _ => True
  end.

End Supported.

(* ------------------------------------------------------------------------- *)
(** ** Trees of the same structure *)

Section SameStructure.
Variable C : Collaborators.
Variable attr_type : Obj -> list string.

(** How the tensors at the same place of two trees are related. *)
Variable R : Obj -> Obj -> Prop.

(** The tensor that [disassemble_tree] makes of an array. *)
Definition wrapped (n : Native) : Obj :=
  let shape_ := default_dims 0 (staticshape C n) in
  NativeTensor n shape_ shape_.

(** Two trees of the same structure: the same containers with the same
    number of items in the same order, dicts with the same keys in the same
    order of insertion, objects of the same class that declare the same
    attributes and agree on all other state, layouts along the same stack
    dimensions, and equal leaves that hold no tensor.  A [NativeTensor] or
    [TensorStack] in one tree faces one in the other tree, and an array
    faces an array; these are the leaves that are listed, and [R] relates
    them. *)
Fixpoint same_structure (x y : Obj) {struct x} : Prop :=
  match x, y with
  | PyNone, PyNone => True
  | PyStr s, PyStr s' => s = s'
  | PyOpaque id, PyOpaque id' => id = id'
  | PyShapeDict s, PyShapeDict s' => s = s'
  | PyRaw n, PyRaw n' => R (wrapped n) (wrapped n')
  | PyList items, PyList items' | PyTuple items, PyTuple items' =>
      (fix all (l l' : list Obj) {struct l} : Prop :=
         match l, l' with
         | [], [] => True
         | a :: rest, b :: rest' => same_structure a b /\ all rest rest'
         | _, _ => False
         end) items items'
  | PyDict items, PyDict items' =>
      (fix all (l l' : list (string * Obj)) {struct l} : Prop :=
         match l, l' with
         | [], [] => True
         | a :: rest, b :: rest' =>
             fst a = fst b /\ same_structure (snd a) (snd b) /\ all rest rest'
         | _, _ => False
         end) items items'
  | PyNode cls dataclass attrs, PyNode cls' dataclass' attrs' =>
      cls = cls' /\ dataclass = dataclass' /\ attr_type x = attr_type y /\
      (fix all (l l' : list (string * Obj)) {struct l} : Prop :=
         match l, l' with
         | [], [] => True
         | a :: rest, b :: rest' =>
             fst a = fst b /\
             (if mem_name (fst a) (attr_type x)
              then same_structure (snd a) (snd b)
              else snd a = snd b) /\
             all rest rest'
         | _, _ => False
         end) attrs attrs'
  | NativeTensor _ _ _, _ | TensorStack _ _ _ _, _ =>
      is_NativeTensor y || is_TensorStack y = true /\ R x y
  | Layout o stack_dim _, Layout o' stack_dim' _ =>
      stack_dim = stack_dim' /\ same_structure o o'
  | _, _ => False
  end.

End SameStructure.

(* ------------------------------------------------------------------------- *)
(** ** Tensors as the constructors build them *)

Section Constructed.
Variable C : Collaborators.

(** A [NativeTensor], or a [TensorStack] that [TensorStack.__init__] returns
    for components that are such tensors again. *)
Fixpoint constructed (t : Obj) : Prop :=
  match t with
  | NativeTensor _ _ _ => True
  | TensorStack tensors stack_dim varying s =>
      (fix all (l : list Obj) : Prop :=
         match l with
         | [] => True
         | y :: rest => constructed y /\ all rest
         end) tensors /\
      exists stack_dim0,
        TensorStack_init C tensors stack_dim0 = Ok (TensorStack tensors stack_dim varying s)
  | _ => False
  end.

End Constructed.

(* ------------------------------------------------------------------------- *)
(** ** Auxiliary definitions

    The loops inside [assemble_tree] and [disassemble_tree] under names of
    their own, and the notions in which the properties are stated. *)

Section Auxiliary.
Variable C : Collaborators.
Variable attr_type : Obj -> list string.

Definition assemble_list (f : Obj -> list Obj -> Result (Obj * list Obj))
    : list Obj -> list Obj -> Result (list Obj * list Obj) :=
  fix go (items : list Obj) (values : list Obj) : Result (list Obj * list Obj) :=
    match items with
    | [] => Ok ([], values)
    | item :: rest =>
        '(x, values) <- f item values ;;
        '(xs, values) <- go rest values ;;
        Ok (x :: xs, values)
    end.

Definition assemble_dict (f : Obj -> list Obj -> Result (Obj * list Obj))
    : list (string * Obj) -> list Obj -> Result (list (string * Obj) * list Obj) :=
  fix go (items : list (string * Obj)) (values : list Obj)
    : Result (list (string * Obj) * list Obj) :=
    match items with
    | [] => Ok ([], values)
    | (name, val) :: rest =>
        '(x, values) <- f val values ;;
        '(xs, values) <- go rest values ;;
        Ok ((name, x) :: xs, values)
    end.

Definition disassemble_dict (f : Obj -> Result (Obj * list Obj))
    : list (string * Obj) -> Result (list (string * Obj) * list Obj) :=
  fix go (items : list (string * Obj)) : Result (list (string * Obj) * list Obj) :=
    match items with
    | [] => Ok ([], [])
    | (name, item) :: rest =>
        '(key, value) <- f item ;;
        '(keys, values) <- go rest ;;
        Ok ((name, key) :: keys, value ++ values)
    end.

(** What the round trip gives for one object. *)
Definition round_trips (x : Obj) : Prop :=
  exists k vs,
    disassemble_tree C attr_type false x = Ok (k, vs) /\
    forall rest, assemble_tree C attr_type k (vs ++ rest) = Ok (x, rest).

(** The value of [_varying_shapes] that [TensorStack.__init__] sets. *)
Definition varying_of (shapes : list Shape) : Result bool :=
  match merge_shapes C shapes with
  | Ok _ => Ok false
  | Raise IncompatibleShapes => Ok true
  | Raise e => Raise e
  end.

(** A tensor of one of the two classes that hold arrays. *)
Definition dense_variant (x : Obj) : Prop :=
  is_NativeTensor x = true \/ is_TensorStack x = true.

End Auxiliary.

(* ------------------------------------------------------------------------- *)
(** ** Paths of the tensors in a tree

    [save] names every tensor of a tree by its path, and [load] computes the
    paths again from the stored skeleton. *)

(** [f'{root}[{i}]'] *)
Definition index_path (root : string) (i : nat) : string :=
  String.append root (String.append "[" (String.append (string_of_nat i) "]")).

(** [f'{root}[{name}]'] *)
Definition key_path (root name : string) : string :=
  String.append root (String.append "[" (String.append name "]")).

(** [f'{root}.{attr}'] *)
Definition attribute_path (root attr : string) : string :=
  String.append root (String.append "." attr).

(** The attribute loop of [attr_paths].  [parts] holds, for every attribute
    of the object, the paths below its value as a function of the root. *)
Fixpoint attr_paths_attributes (parts : list (string * (string -> Result (list string))))
    (attributes : list string) (root : string) : Result (list string) :=
  match attributes with
  | [] => Ok []
  | a :: rest =>
      match lookup a parts with
      | None => Raise AttributeError
      | Some part =>
          path <- part (attribute_path root a) ;;
          paths <- attr_paths_attributes parts rest root ;;
          Ok (path ++ paths)
      end
  end.

(** [attr_paths(obj, attr_type, root)].  An object that is none of the
    containers is asked for its backend: an array has a path, an object that
    only the object backend or no backend takes has none. *)
Fixpoint attr_paths (attr_type : Obj -> list string) (obj : Obj) (root : string)
    {struct obj} : Result (list string) :=
  match obj with
  | PyNone => Ok []
  | Layout o _ _ => attr_paths attr_type o (String.append root "._obj")
  | NativeTensor _ _ _ | TensorStack _ _ _ _ => Ok [root]
  | PyTuple items | PyList items =>
      (fix go (i : nat) (items : list Obj) : Result (list string) :=
         match items with
         | [] => Ok []
         | item :: rest =>
             path <- attr_paths attr_type item (index_path root i) ;;
             paths <- go (S i) rest ;;
             Ok (path ++ paths)
         end) 0 items
  | PyDict items =>
      (fix go (items : list (string * Obj)) : Result (list string) :=
         match items with
         | [] => Ok []
         | (name, item) :: rest =>
             path <- attr_paths attr_type item (key_path root name) ;;
             paths <- go rest ;;
             Ok (path ++ paths)
         end) items
  | PyNode _ _ attrs =>
      attr_paths_attributes
        (map (fun kv => (fst kv, attr_paths attr_type (snd kv))) attrs)
        (attr_type obj) root
  | PyRaw _ => Ok [root]
  | PyStr _ | PyOpaque _ | PyShapeDict _ => Ok []
  end.

(** Exceptions that the functions below raise next to those listed at the
    top. *)
Inductive Error : Type :=
| Builtin (e : Exception)
| RuntimeError (msg : string)
| SyntaxError (msg : string).

Inductive Attempt (A : Type) : Type :=
| Success (a : A)
| Failed (e : Error).

Arguments Success {A} a.
Arguments Failed {A} e.

Definition attempt_bind {A B : Type} (r : Attempt A) (k : A -> Attempt B) : Attempt B :=
  match r with
  | Success a => k a
  | Failed e => Failed e
  end.

Notation "x <~ e ;; k" := (attempt_bind e (fun x => k))
  (at level 61, e at next level, right associativity).

(** A result of the functions above among the wider exceptions. *)
Definition attempt {A : Type} (r : Result A) : Attempt A :=
  match r with
  | Ok a => Success a
  | Raise e => Failed (Builtin e)
  end.

(** The attribute loop of [attr_paths_from_container]. *)
Fixpoint container_attributes (parts : list (string * (string -> Attempt (list string))))
    (attributes : list string) (root : string) : Attempt (list string) :=
  match attributes with
  | [] => Success []
  | k :: rest =>
      match lookup k parts with
      | None => Failed (Builtin AttributeError)
      | Some part =>
          path <~ part (attribute_path root k) ;;
          paths <~ container_attributes parts rest root ;;
          Success (path ++ paths)
      end
  end.

(** [attr_paths_from_container(obj, attr_type, root)], where [obj] is a
    skeleton that [disassemble_tree] returned.  As in [assemble_tree], the
    container of a dataclass is walked along the declared attributes. *)
Fixpoint attr_paths_from_container (attr_type : Obj -> list string) (obj : Obj)
    (root : string) {struct obj} : Attempt (list string) :=
  match obj with
  | PyStr s =>
      if String.eqb s MISSING_TENSOR then Success []
      else if String.eqb s NATIVE_TENSOR then Success [root]
      else Success []
  | PyNone => Success [root]
  | PyTuple items | PyList items =>
      (fix go (i : nat) (items : list Obj) : Attempt (list string) :=
         match items with
         | [] => Success []
         | v :: rest =>
             path <~ attr_paths_from_container attr_type v (index_path root i) ;;
             paths <~ go (S i) rest ;;
             Success (path ++ paths)
         end) 0 items
  | PyDict items =>
      if has_key "__layout__" items then
        match
          (fix find (items : list (string * Obj)) : option (string -> Attempt (list string)) :=
             match items with
             | [] => None
             | (k, v) :: rest =>
                 if String.eqb k "obj" then Some (attr_paths_from_container attr_type v)
                 else find rest
             end) items
        with
        | None => Failed (Builtin (KeyError "obj"))
        | Some paths_of => paths_of (String.append root "._obj")
        end
      else
        (fix go (items : list (string * Obj)) : Attempt (list string) :=
           match items with
           | [] => Success []
           | (k, v) :: rest =>
               path <~ attr_paths_from_container attr_type v (key_path root k) ;;
               paths <~ go rest ;;
               Success (path ++ paths)
           end) items
  | NativeTensor _ _ _ | TensorStack _ _ _ _ | Layout _ _ _ =>
      Failed (RuntimeError
        "Tensor found in container. This should have been set to None by disassemble_tree()")
  | PyNode _ _ attrs =>
      container_attributes
        (map (fun kv => (fst kv, attr_paths_from_container attr_type (snd kv))) attrs)
        (attr_type obj) root
  | PyRaw _ | PyOpaque _ | PyShapeDict _ => Success []
  end.

(* ------------------------------------------------------------------------- *)
(** ** Auxiliary definitions for the paths

    The loops inside [attr_paths] and [attr_paths_from_container] under names
    of their own, and the notions in which their properties are stated. *)

Definition attr_paths_items (f : Obj -> string -> Result (list string)) (root : string)
    : nat -> list Obj -> Result (list string) :=
  fix go (i : nat) (items : list Obj) : Result (list string) :=
    match items with
    | [] => Ok []
    | item :: rest =>
        path <- f item (index_path root i) ;;
        paths <- go (S i) rest ;;
        Ok (path ++ paths)
    end.

Definition attr_paths_dict (f : Obj -> string -> Result (list string)) (root : string)
    : list (string * Obj) -> Result (list string) :=
  fix go (items : list (string * Obj)) : Result (list string) :=
    match items with
    | [] => Ok []
    | (name, item) :: rest =>
        path <- f item (key_path root name) ;;
        paths <- go rest ;;
        Ok (path ++ paths)
    end.

Definition container_items (f : Obj -> string -> Attempt (list string)) (root : string)
    : nat -> list Obj -> Attempt (list string) :=
  fix go (i : nat) (items : list Obj) : Attempt (list string) :=
    match items with
    | [] => Success []
    | v :: rest =>
        path <~ f v (index_path root i) ;;
        paths <~ go (S i) rest ;;
        Success (path ++ paths)
    end.

Definition container_dict (f : Obj -> string -> Attempt (list string)) (root : string)
    : list (string * Obj) -> Attempt (list string) :=
  fix go (items : list (string * Obj)) : Attempt (list string) :=
    match items with
    | [] => Success []
    | (k, v) :: rest =>
        path <~ f v (key_path root k) ;;
        paths <~ go rest ;;
        Success (path ++ paths)
    end.

(** The flattening and the paths fail together, with the same exception, or
    give as many paths as tensors. *)
Definition same_count {K : Type} (flat : Result (K * list Obj)) (paths : Result (list string))
    : Prop :=
  match flat, paths with
  | Ok (_, values), Ok ps => List.length ps = List.length values
  | Raise e, Raise e' => e = e'
  | _, _ => False
  end.

(** The trees whose skeleton tells where the tensors were: no string is one
    of the two markers, no dict has the key ['__layout__'] or is the dict
    form of a shape, which belongs to skeletons only, and an object declares
    the same attributes after its attribute values were replaced. *)
Fixpoint unambiguous (attr_type : Obj -> list string) (x : Obj) : Prop :=
  match x with
  | PyStr s => s <> MISSING_TENSOR /\ s <> NATIVE_TENSOR
  | PyShapeDict _ => False
  | PyList items | PyTuple items =>
      (fix all (l : list Obj) : Prop :=
         match l with
         | [] => True
         | y :: rest => unambiguous attr_type y /\ all rest
         end) items
  | PyDict items =>
      has_key "__layout__" items = false /\
      (fix all (l : list (string * Obj)) : Prop :=
         match l with
         | [] => True
         | kv :: rest => unambiguous attr_type (snd kv) /\ all rest
         end) items
  | PyNode cls dataclass attrs =>
      (forall attrs', map fst attrs' = map fst attrs ->
                      attr_type (PyNode cls dataclass attrs') = attr_type x) /\
      (fix all (l : list (string * Obj)) : Prop :=
         match l with
         | [] => True
         | kv :: rest => unambiguous attr_type (snd kv) /\ all rest
         end) attrs
  | Layout o _ _ => unambiguous attr_type o
  | _ => True
  end.

(** The skeleton of [x] tells the paths of [x]. *)
Definition paths_agree (C : Collaborators) (attr_type : Obj -> list string) (x : Obj) : Prop :=
  forall root skeleton values,
    unambiguous attr_type x ->
    disassemble_tree C attr_type false x = Ok (skeleton, values) ->
    exists paths,
      attr_paths attr_type x root = Ok paths /\
      attr_paths_from_container attr_type skeleton root = Success paths.

(* ------------------------------------------------------------------------- *)
(** ** Specs of tensors

    [t._spec_dict()] describes a tensor without its arrays: a dict that names
    the class under ['type'] and holds the shapes, and for a stack the specs
    of the components.  [t._natives()] lists the arrays.  The values of such
    dicts are classes, shapes, lists and dicts; serialization puts strings in
    the place of classes; [specs_equal] handles tensors too. *)

Inductive TensorClass : Type :=
| NativeTensor_class
| TensorStack_class
| CompressedSparseMatrix_class
| SparseCoordinateTensor_class
| CompactSparseTensor_class
| Other_class (name : string).          (* any other class object *)

#[warnings="-register-all"]
Inductive SpecValue : Type :=
| SpecType (cls : TensorClass)
| SpecStr (s : string)
| SpecShape (s : Shape)
| SpecTensor (t : Obj)
| SpecList (items : list SpecValue)
| SpecDict (items : list (string * SpecValue)).

(** [t._spec_dict()] *)
Fixpoint _spec_dict (t : Obj) : Result SpecValue :=
  match t with
  | NativeTensor _ native_shape shape_ =>
      Ok (SpecDict [("type", SpecType NativeTensor_class);
                    ("native_shape", SpecShape native_shape);
                    ("shape", SpecShape shape_)])
  | TensorStack tensors stack_dim _ _ =>
      specs <- (fix go (ts : list Obj) : Result (list SpecValue) :=
                  match ts with
                  | [] => Ok []
                  | c :: rest =>
                      s <- _spec_dict c ;;
                      ss <- go rest ;;
                      Ok (s :: ss)
                  end) tensors ;;
      Ok (SpecDict [("type", SpecType TensorStack_class);
                    ("stack_dim", SpecShape stack_dim);
                    ("tensors", SpecList specs)])
  | Layout _ _ _ => Raise (NotImplementedError "<class 'phiml.math._tensors.Layout'>")
  | _ => Raise AttributeError
  end.

(** [spec[key]] *)
Definition spec_item (key : string) (items : list (string * SpecValue)) : Result SpecValue :=
  match lookup key items with
  | Some v => Ok v
  | None => Raise (KeyError key)
  end.

(** [natives.pop(0)] *)
Definition pop_native (natives : list Native) : Result (Native * list Native) :=
  match natives with
  | [] => Raise IndexError
  | n :: rest => Ok (n, rest)
  end.

(** Modelled from the spec: [shape.with_sizes(sizes)] for a tuple of integers,
    one for every dimension. *)
Definition with_sizes_tuple (s : Shape) (ns : list nat) : Result Shape :=
  _ <- py_assert (Nat.eqb (List.length ns) (rank s)) "" ;;
  Ok (with_sizes s ns).

(** Modelled from the spec: [shape.with_sizes(other)] for a shape [other]:
    a dimension that [other] has takes its size and item names from there. *)
Definition with_sizes_of (s other : Shape) : Shape :=
  map (fun d =>
         match find (fun e => String.eqb (dim_name e) (dim_name d)) other with
         | Some e => mkDim (dim_name d) (dim_type d) (dim_size e) (dim_item_names e)
         | None => d
         end) s.

Section Specs.
Variable C : Collaborators.

(** [NativeTensor._from_spec_and_natives(spec, natives)].  The list of
    arrays is consumed from the front; the rest is returned with the
    tensor. *)
Definition NativeTensor_from_spec_and_natives (spec : list (string * SpecValue))
    (natives : list Native) : Result (Obj * list Native) :=
  native_shape <- spec_item "native_shape" spec ;;
  expanded_shape <- spec_item "shape" spec ;;
  '(native, natives) <- pop_native natives ;;
  match native_shape, expanded_shape with
  | SpecShape native_shape, SpecShape expanded_shape =>
      (* --- update sizes in case JIT compilation gave None or outdated size --- *)
      native_shape <- with_sizes_tuple native_shape (staticshape C native) ;;
      let expanded_shape := with_sizes_of expanded_shape native_shape in
      Ok (NativeTensor native native_shape expanded_shape, natives)
  | _, _ => Raise AttributeError
  end.

(** [spec['type']._from_spec_and_natives(spec, natives)] for the two dense
    classes, on a spec that is a dict whose entry ['tensors'] is a list.
    The sparse classes and their constructors are not part of the module. *)
Fixpoint _from_spec_and_natives (spec : SpecValue) (natives : list Native)
    {struct spec} : Result (Obj * list Native) :=
  match spec with
  | SpecDict items =>
      cls <- spec_item "type" items ;;
      match cls with
      | SpecType NativeTensor_class => NativeTensor_from_spec_and_natives items natives
      | SpecType TensorStack_class =>
          match
            (fix find (items : list (string * SpecValue))
               : option (list Native -> Result (list Obj * list Native)) :=
               match items with
               | [] => None
               | (k, v) :: rest =>
                   if String.eqb k "tensors" then
                     match v with
                     | SpecList specs =>
                         Some ((fix go (specs : list SpecValue) (natives : list Native)
                                  : Result (list Obj * list Native) :=
                                  match specs with
                                  | [] => Ok ([], natives)
                                  | t :: rest =>
                                      '(x, natives) <- _from_spec_and_natives t natives ;;
                                      '(xs, natives) <- go rest natives ;;
                                      Ok (x :: xs, natives)
                                  end) specs)
                     | _ => Some (fun _ => Raise TypeError)
                     end
                   else find rest
               end) items
          with
          | None => Raise (KeyError "tensors")
          | Some build =>
              '(tensors, natives) <- build natives ;;
              stack_dim <- spec_item "stack_dim" items ;;
              match stack_dim with
              | SpecShape stack_dim =>
                  t <- TensorStack_init C tensors stack_dim ;;
                  Ok (t, natives)
              | _ => Raise (AssertionError
                       "stack_dim must be a single-dimension Shape object")
              end
          end
      | SpecType _ => Raise (NotImplementedError "sparse")
      | _ => Raise AttributeError
      end
  | _ => Raise TypeError
  end.

(** [assemble_tensors(natives, specs)] *)
Fixpoint assemble_tensors_from (natives : list Native) (specs : list SpecValue)
    : Result (list Obj * list Native) :=
  match specs with
  | [] => Ok ([], natives)
  | spec :: rest =>
      '(t, natives) <- _from_spec_and_natives spec natives ;;
      '(result, natives) <- assemble_tensors_from natives rest ;;
      Ok (t :: result, natives)
  end.

Definition assemble_tensors (natives : list Native) (specs : list SpecValue)
    : Result (list Obj) :=
  '(result, _) <- assemble_tensors_from natives specs ;;
  Ok result.

(** [disassemble_tensors(tensors, expand)] *)
Definition disassemble_tensors (tensors : list Obj) (expand_ : bool)
    : Result (list Native * list Shape * list SpecValue) :=
  tensors <- mapM (fun t => if is_TensorStack t || expand_ then cached C t else Ok t)
               tensors ;;
  natives <- mapM (_natives) tensors ;;
  shapes <- mapM shape tensors ;;
  specs <- mapM _spec_dict tensors ;;
  Ok (List.concat natives, shapes, specs).

End Specs.

(** The names under which [serialize_spec] stores the classes. *)
Definition type_names : list (TensorClass * string) :=
  [(NativeTensor_class, "dense"); (TensorStack_class, "stack");
   (CompressedSparseMatrix_class, "compressed"); (SparseCoordinateTensor_class, "coo");
   (CompactSparseTensor_class, "compact")].

Definition TensorClass_eqb (a b : TensorClass) : bool :=
  match a, b with
  | NativeTensor_class, NativeTensor_class
  | TensorStack_class, TensorStack_class
  | CompressedSparseMatrix_class, CompressedSparseMatrix_class
  | SparseCoordinateTensor_class, SparseCoordinateTensor_class
  | CompactSparseTensor_class, CompactSparseTensor_class => true
  | Other_class n, Other_class m => String.eqb n m
  | _, _ => false
  end.

(** [cls.__name__] *)
Definition class_name (cls : TensorClass) : string :=
  match cls with
  | NativeTensor_class => "NativeTensor"
  | TensorStack_class => "TensorStack"
  | CompressedSparseMatrix_class => "CompressedSparseMatrix"
  | SparseCoordinateTensor_class => "SparseCoordinateTensor"
  | CompactSparseTensor_class => "CompactSparseTensor"
  | Other_class name => name
  end.

(** [type_names[v]]: a key that is not in the dict raises [KeyError], a key
    that cannot be hashed (a list, a dict, a tensor) raises [TypeError]. *)
Definition type_name_of (v : SpecValue) : Result string :=
  match v with
  | SpecType cls =>
      match find (fun entry => TensorClass_eqb (fst entry) cls) type_names with
      | Some entry => Ok (snd entry)
      | None => Raise (KeyError (class_name cls))
      end
  | SpecStr s => Raise (KeyError s)
  | SpecShape _ => Raise (KeyError "Shape")
  | SpecTensor _ | SpecList _ | SpecDict _ => Raise TypeError
  end.

(** [lookup[v]] for [lookup = {v: k for k, v in type_names.items()}] *)
Definition class_of_name (v : SpecValue) : Result TensorClass :=
  match v with
  | SpecStr name =>
      match find (fun entry => String.eqb (snd entry) name) type_names with
      | Some entry => Ok (fst entry)
      | None => Raise (KeyError name)
      end
  | SpecType cls => Raise (KeyError (class_name cls))
  | SpecShape _ => Raise (KeyError "Shape")
  | SpecTensor _ | SpecList _ | SpecDict _ => Raise TypeError
  end.

(** [serialize_spec(spec)].  The argument is a dict; on another value
    [spec.items()] raises. *)
Fixpoint serialize_spec (spec : SpecValue) : Result SpecValue :=
  match spec with
  | SpecDict items =>
      result <-
        (fix go (items : list (string * SpecValue)) : Result (list (string * SpecValue)) :=
           match items with
           | [] => Ok []
           | (k, v) :: rest =>
               x <- (if String.eqb k "type" then
                       name <- type_name_of v ;; Ok (SpecStr name)
                     else
                       match v with
                       | SpecDict _ => serialize_spec v
                       | SpecType _ => Raise (AssertionError "")
                       | _ => Ok v
                       end) ;;
               xs <- go rest ;;
               Ok ((k, x) :: xs)
           end) items ;;
      Ok (SpecDict result)
  | _ => Raise AttributeError
  end.

(** [unserialize_spec(spec)].  The argument is a dict; on another value
    [spec.items()] raises. *)
Fixpoint unserialize_spec (spec : SpecValue) : Result SpecValue :=
  match spec with
  | SpecDict items =>
      result <-
        (fix go (items : list (string * SpecValue)) : Result (list (string * SpecValue)) :=
           match items with
           | [] => Ok []
           | (k, v) :: rest =>
               x <- (if String.eqb k "type" then
                       cls <- class_of_name v ;; Ok (SpecType cls)
                     else
                       match v with
                       | SpecDict _ => unserialize_spec v
                       | _ => Ok v
                       end) ;;
               xs <- go rest ;;
               Ok ((k, x) :: xs)
           end) items ;;
      Ok (SpecDict result)
  | _ => Raise AttributeError
  end.

(** Whether a spec value holds a class object somewhere. *)
Fixpoint mentions_class (v : SpecValue) : bool :=
  match v with
  | SpecType _ => true
  | SpecList items => existsb mentions_class items
  | SpecDict items => existsb (fun kv => mentions_class (snd kv)) items
  | _ => false
  end.

(** The stored sizes are those of the arrays: the static shape of the backing
    array of every [NativeTensor] gives the sizes of its native shape, and
    the dimensions of the native shape are in the shape with these sizes. *)
Fixpoint up_to_date (C : Collaborators) (t : Obj) : Prop :=
  match t with
  | NativeTensor native native_shape shape_ =>
      with_sizes_tuple native_shape (staticshape C native) = Ok native_shape /\
      with_sizes_of shape_ native_shape = shape_
  | TensorStack tensors _ _ _ =>
      (fix all (l : list Obj) : Prop :=
         match l with
         | [] => True
         | y :: rest => up_to_date C y /\ all rest
         end) tensors
  | _ => True
  end.

(** A tensor of the two dense classes as [disassemble_tensors] leaves it: built
    by the constructors, with sizes up to date, and, if a stack, cached. *)
Definition settled (C : Collaborators) (t : Obj) : Prop :=
  constructed C t /\ up_to_date C t /\ (is_TensorStack t = true -> cached C t = Ok t).

(** The loop of [TensorStack._from_spec_and_natives] over the specs of the
    components, under a name of its own. *)
Definition from_specs (f : SpecValue -> list Native -> Result (Obj * list Native))
    : list SpecValue -> list Native -> Result (list Obj * list Native) :=
  fix go (specs : list SpecValue) (natives : list Native) : Result (list Obj * list Native) :=
    match specs with
    | [] => Ok ([], natives)
    | t :: rest =>
        '(x, natives) <- f t natives ;;
        '(xs, natives) <- go rest natives ;;
        Ok (x :: xs, natives)
    end.

(* ------------------------------------------------------------------------- *)
(** ** Layouts *)

Section Layouts.
Variable C : Collaborators.

(** [iter(obj)] on an object that is none of the built-in containers: a
    tensor, an array, an object with an iterator of its own. *)
Variable iter_object : Obj -> Result (list Obj).

(** The items that [for n in obj] visits.  A dict yields its keys. *)
Definition iterate (obj : Obj) : Result (list Obj) :=
  match obj with
  | PyList items | PyTuple items => Ok items
  | PyDict items => Ok (map (fun kv => PyStr (fst kv)) items)
  | PyStr s => Ok (chars s)
  | PyNone => Raise TypeError
  | _ => iter_object obj
  end.

(** The items that [Layout] visits at one level of nesting:
    [tuple(native.values()) if isinstance(native, dict) else native],
    iterated. *)
Definition level_items (native : Obj) : Result (list Obj) :=
  match native with
  | PyDict items => Ok (map snd items)
  | _ => iterate native
  end.

(** [Layout._as_list_recursive(native, dims, result)].  The leaves are
    appended to the list [result], which is returned. *)
Fixpoint Layout_as_list_recursive (dims : nat) (native : Obj) (result : list Obj)
    {struct dims} : Result (list Obj) :=
  match dims with
  | 0 => Ok (result ++ [native])
  | S dims' =>
      items <- level_items native ;;
      (fix go (items : list Obj) (result : list Obj) : Result (list Obj) :=
         match items with
         | [] => Ok result
         | n :: rest =>
             result <- Layout_as_list_recursive dims' n result ;;
             go rest result
         end) items result
  end.

(** [Layout._as_list()] *)
Definition Layout_as_list (self : Obj) : Result (list Obj) :=
  match self with
  | Layout obj stack_dim _ => Layout_as_list_recursive (rank stack_dim) obj []
  | _ => Raise AttributeError
  end.

(** [Layout._recursive_op1(obj, shape, native_function)] *)
Fixpoint Layout_recursive_op1 (native_function : Obj -> Result Obj) (obj : Obj)
    (shape_ : Shape) {struct obj} : Result Obj :=
  match shape_ with
  | _ :: inner =>
      match obj with
      | PyTuple items =>
          r <- (fix go (items : list Obj) : Result (list Obj) :=
                  match items with
                  | [] => Ok []
                  | i :: rest =>
                      x <- Layout_recursive_op1 native_function i inner ;;
                      xs <- go rest ;;
                      Ok (x :: xs)
                  end) items ;;
          Ok (PyTuple r)
      | PyList items =>
          r <- (fix go (items : list Obj) : Result (list Obj) :=
                  match items with
                  | [] => Ok []
                  | i :: rest =>
                      x <- Layout_recursive_op1 native_function i inner ;;
                      xs <- go rest ;;
                      Ok (x :: xs)
                  end) items ;;
          Ok (PyList r)
      | PyDict items =>
          r <- (fix go (items : list (string * Obj)) : Result (list (string * Obj)) :=
                  match items with
                  | [] => Ok []
                  | (k, v) :: rest =>
                      x <- Layout_recursive_op1 native_function v inner ;;
                      xs <- go rest ;;
                      Ok ((k, x) :: xs)
                  end) items ;;
          Ok (PyDict r)
      | _ => Raise (ValueError "obj")
      end
  | [] => native_function obj
  end.

(** [Layout._op1(native_function)] *)
Definition Layout_op1 (self : Obj) (native_function : Obj -> Result Obj) : Result Obj :=
  match self with
  | Layout obj stack_dim _ =>
      r <- Layout_recursive_op1 native_function obj stack_dim ;;
      Layout_init C r stack_dim
  | _ => Raise AttributeError
  end.

(** [[obj] * dim.size] for the dimensions from the last to the first, the
    loop of [Layout.__expand__]. *)
Fixpoint repeat_along (new_stack_dims : Shape) (obj : Obj) : Result Obj :=
  match new_stack_dims with
  | [] => Ok obj
  | dim :: rest =>
      obj <- repeat_along rest obj ;;
      match dim_size dim with
      | SizeInt n => Ok (PyList (repeat obj n))
      | _ => Raise (AssertionError "Can only expand layouts by integer-sized dimensions")
      end
  end.

(** [Layout.__expand__(dims)] *)
Definition Layout___expand__ (self : Obj) (dims : Shape) : Result Obj :=
  match self with
  | Layout obj stack_dim _ =>
      let new_stack_dims := without dims (names stack_dim) in
      if Nat.eqb (rank new_stack_dims) 0 then Ok self
      else
        obj <- repeat_along new_stack_dims obj ;;
        Layout_init C obj (concat_shapes new_stack_dims stack_dim)
  | _ => Raise AttributeError
  end.

(** [v.native(order)] where the result is used as a Python object: the
    wrapped object of a [Layout], the array of another tensor. *)
Definition native_object (v : Obj) (order : Order) : Result Obj :=
  match v with
  | Layout obj stack_dim _ => Layout_native C obj stack_dim order
  | _ => n <- Tensor_native C v order true false ;; Ok (PyRaw n)
  end.

(** [Layout.__stack__(values, dim)] *)
Definition Layout___stack__ (self : Obj) (values : list Obj) (dim : Shape) : Result Obj :=
  match self with
  | Layout _ stack_dim _ =>
      obj <- mapM (fun v => native_object v (OrderShape stack_dim)) values ;;
      let new_stack_dim := concat_shapes dim stack_dim in
      Layout_init C (PyList obj) new_stack_dim
  | _ => Raise AttributeError
  end.

(** [Layout.__iter__()], as the list of the items that the iterator
    yields. *)
Definition Layout___iter__ (self : Obj) : Result (list Obj) :=
  match self with
  | Layout obj stack_dim s =>
      if Nat.eqb (rank s) 1 then iterate obj
      else if Nat.eqb (rank s) 0 then Ok [obj]
      else Layout_as_list self
  | _ => Raise AttributeError
  end.

End Layouts.

(** The loops inside the functions on layouts under names of their own. *)
Definition as_list_items (f : Obj -> list Obj -> Result (list Obj))
    : list Obj -> list Obj -> Result (list Obj) :=
  fix go (items : list Obj) (result : list Obj) : Result (list Obj) :=
    match items with
    | [] => Ok result
    | n :: rest =>
        result <- f n result ;;
        go rest result
    end.

Definition op1_items (f : Obj -> Result Obj) : list Obj -> Result (list Obj) :=
  fix go (items : list Obj) : Result (list Obj) :=
    match items with
    | [] => Ok []
    | i :: rest =>
        x <- f i ;;
        xs <- go rest ;;
        Ok (x :: xs)
    end.

Definition op1_dict (f : Obj -> Result Obj) : list (string * Obj) -> Result (list (string * Obj)) :=
  fix go (items : list (string * Obj)) : Result (list (string * Obj)) :=
    match items with
    | [] => Ok []
    | (k, v) :: rest =>
        x <- f v ;;
        xs <- go rest ;;
        Ok ((k, x) :: xs)
    end.

(** The leaves of [obj] as [Layout._as_list] lists them for [dims] levels of
    nesting, relative to what has been collected before. *)
Definition leaves_are (iter_object : Obj -> Result (list Obj))
    (dims : nat) (obj : Obj) (leaves : list Obj) : Prop :=
  forall result, Layout_as_list_recursive iter_object dims obj result = Ok (result ++ leaves).

(** The objects that [Layout.wrap] puts into a [Layout]: no tensor, no number,
    and no [Shapable] other than a tuple, list or dict. *)
Definition kept_as_layout (C : Collaborators) (native : Obj) : bool :=
  negb (is_Tensor native) &&
  match native with
  | PyNone | PyTuple _ | PyList _ | PyDict _ => true
  | PyRaw (NNumber _) => false
  | _ => negb (is_Shapable C native)
  end.

(** [math.prod(sizes)] *)
Definition product (sizes_ : list nat) : nat := fold_right Nat.mul 1 sizes_.

(** What [_recursive_op1] does to the leaves of one object. *)
Definition op1_maps (iter_object : Obj -> Result (list Obj)) (f : Obj -> Result Obj)
    (obj : Obj) : Prop :=
  forall shape_ r,
    Layout_recursive_op1 f obj shape_ = Ok r ->
    exists leaves leaves',
      leaves_are iter_object (rank shape_) obj leaves /\
      mapM f leaves = Ok leaves' /\
      leaves_are iter_object (rank shape_) r leaves'.

(** The loops of [Layout._recursive_op2] over the items and the operands
    that go with them, under names of their own. *)
Definition op2_items (f : Obj -> Obj -> Result Obj) : list Obj -> list Obj -> Result (list Obj) :=
  fix go (items : list Obj) (others : list Obj) : Result (list Obj) :=
    match items, others with
    | i :: items', o :: others' =>
        x <- f i o ;;
        xs <- go items' others' ;;
        Ok (x :: xs)
    | _, _ => Ok []
    end.

Definition op2_dict (f : Obj -> Obj -> Result Obj)
    : list (string * Obj) -> list Obj -> Result (list (string * Obj)) :=
  fix go (items : list (string * Obj)) (others : list Obj) : Result (list (string * Obj)) :=
    match items, others with
    | (k, v) :: items', o :: others' =>
        x <- f v o ;;
        xs <- go items' others' ;;
        Ok ((k, x) :: xs)
    | _, _ => Ok []
    end.

(* ------------------------------------------------------------------------- *)
(** ** Auxiliary definitions for stacks and equality *)

(** The length of the shortest of the lists, [0] where there is none. *)
Definition min_length {A : Type} (lists : list (list A)) : nat :=
  match lists with
  | [] => 0
  | first :: rest => fold_right (fun l m => Nat.min (List.length l) m) (List.length first) rest
  end.

(** The loop of [TensorStack._unstack] over the components, under a name of
    its own. *)
Definition unstack_components (f : Obj -> Result (list Obj))
    : list Obj -> Result (list (list Obj)) :=
  fix go (ts : list Obj) : Result (list (list Obj)) :=
    match ts with
    | [] => Ok []
    | c :: rest =>
        u <- f c ;;
        us <- go rest ;;
        Ok (u :: us)
    end.

(** Two results that are Python bools of which one negates the other, or
    the same exception. *)
Definition negated (eq_ ne_ : Result Op2Result) : Prop :=
  match eq_, ne_ with
  | Ok (Handled a), Ok (Handled b) =>
      exists x, a = wrap_bool x /\ b = wrap_bool (negb x)
  | Raise e, Raise e' => e = e'
  | _, _ => False
  end.

(** The tensors of a tree are cached already: [cached] returns each as it
    is. *)
Fixpoint leaves_cached (C : Collaborators) (x : Obj) : Prop :=
  match x with
  | NativeTensor _ _ _ | TensorStack _ _ _ _ => cached C x = Ok x
  | Layout o _ _ => leaves_cached C o
  | PyList items | PyTuple items =>
      (fix all (l : list Obj) : Prop :=
         match l with
         | [] => True
         | y :: rest => leaves_cached C y /\ all rest
         end) items
  | PyDict items | PyNode _ _ items =>
      (fix all (l : list (string * Obj)) : Prop :=
         match l with
         | [] => True
         | kv :: rest => leaves_cached C (snd kv) /\ all rest
         end) items
  | _ => True
  end.

(* ------------------------------------------------------------------------- *)
(** ** Tensors from backend arrays *)

(** [channel('vector')], the default of [default_list_dim] *)
Definition default_list_dim : Shape := [mkDim "vector" (Some CHANNEL_DIM) SizeNone None].

(** [shape.undefined]: the dimensions whose size is [None] *)
Definition undefined (s : Shape) : Shape :=
  filter (fun d => match dim_size d with SizeNone => true | _ => false end) s.

(** Modelled from the spec: [shape.with_sizes(n)] for one integer [n], the
    size of every dimension. *)
Definition with_size_everywhere (s : Shape) (n : nat) : Shape :=
  map (fun d => mkDim (dim_name d) (dim_type d) (SizeInt n) (dim_item_names d)) s.

Section TensorFromArray.
Variable C : Collaborators.

(** [backend.is_sparse(data)] and [from_sparse_native] of [_sparse.py] *)
Variable is_sparse_native : Native -> bool.
Variable from_sparse_native : Native -> Shape -> Result Obj.

(** The loop that checks the given sizes against the array:
    [if s is not None: assert s == size].  A size that is a tensor has
    dimensions, and the truth value of the comparison is refused. *)
Fixpoint check_sizes (sizes_ : list nat) (given : list Size) : Result unit :=
  match sizes_, given with
  | size :: sizes', s :: given' =>
      _ <- match s with
           | SizeNone => Ok tt
           | SizeInt n =>
               py_assert (Nat.eqb n size)
                 "Given shape does not match data. Consider leaving the sizes undefined."
           | SizeTensor _ =>
               Raise (AssertionError "Cannot convert tensor with non-empty shape to bool.")
           end ;;
      check_sizes sizes' given'
  | _, _ => Ok tt
  end.

(** [0 in sizes] *)
Definition has_zero (sizes_ : list nat) : bool := existsb (Nat.eqb 0) sizes_.

(** The last part of [tensor(data, shape, convert=False)], which [wrap]
    calls: [data] is an array that a backend takes, [shape] is [None] or the
    concatenation of the shapes given. *)
Definition tensor_of_array (data : Native) (shape_ : option Shape) : Result Obj :=
  let sizes_ := staticshape C data in
  shape_ <-
    match shape_ with
    | None =>
        _ <- py_assert (Nat.leb (List.length sizes_) 1)
               "Specify dimension names for tensors with more than 1 dimension" ;;
        with_sizes_tuple
          (if Nat.eqb (List.length sizes_) 1 then default_list_dim else EMPTY_SHAPE) sizes_
    | Some shape_ =>
        if negb (has_zero sizes_) then
          (* fill in sizes or check them *)
          if negb (Nat.eqb (List.length sizes_) (rank shape_)) then Raise IncompatibleShapes
          else
            _ <- check_sizes sizes_ (sizes shape_) ;;
            with_sizes_tuple shape_ sizes_
        else Ok shape_
    end ;;
  if is_sparse_native data then from_sparse_native data shape_
  else if has_zero sizes_ then
    present_shape <- with_sizes_tuple (firstn (List.length sizes_) shape_) sizes_ ;;
    Ok (NativeTensor data present_shape
          (with_sizes_of (with_sizes_of shape_ (with_size_everywhere (undefined shape_) 0))
             present_shape))
  else Ok (NativeTensor data shape_ shape_).

End TensorFromArray.

(* ------------------------------------------------------------------------- *)
(** ** Comparing specs *)

(** [a == b] on two values of which the first is a class, a string or a
    shape.  Modelled from the spec where a shape is compared: shapes are
    equal when their dimensions are, and a shape equals nothing else. *)
Definition leaf_eq (a b : SpecValue) : bool :=
  match a, b with
  | SpecType c, SpecType c' => TensorClass_eqb c c'
  | SpecStr s, SpecStr s' => String.eqb s s'
  | SpecShape s, SpecShape s' => Shape_eqb s s'
  | _, _ => false
  end.

(** The one-character strings of a string, [list(s)] *)
Fixpoint characters (s : string) : list string :=
  match s with
  | EmptyString => []
  | String c rest => String c EmptyString :: characters rest
  end.

(** [iter(v)] on a spec value: a dict yields its keys, a shape its
    dimensions, a class cannot be iterated. *)
Definition spec_elements (v : SpecValue) : Result (list SpecValue) :=
  match v with
  | SpecDict items => Ok (map (fun kv => SpecStr (fst kv)) items)
  | SpecList items => Ok items
  | SpecStr s => Ok (map SpecStr (characters s))
  | SpecShape s => Ok (map (fun d => SpecShape [d]) s)
  | SpecType _ | SpecTensor _ => Raise TypeError
  end.

(** Whether a value can be put into a set: lists, dicts and tensors have no
    hash. *)
Definition spec_hashable (v : SpecValue) : bool :=
  match v with
  | SpecType _ | SpecStr _ | SpecShape _ => true
  | SpecTensor _ | SpecList _ | SpecDict _ => false
  end.

(** [set(v)], as the list of its elements *)
Definition spec_set (v : SpecValue) : Result (list SpecValue) :=
  elements <- spec_elements v ;;
  if forallb spec_hashable elements then Ok elements else Raise TypeError.

(** [set(a) == set(b)] *)
Definition same_elements (a b : list SpecValue) : bool :=
  forallb (fun x => existsb (leaf_eq x) b) a && forallb (fun y => existsb (leaf_eq y) a) b.

(** [key in s] for two strings *)
Fixpoint is_prefix (key s : string) : bool :=
  match key, s with
  | EmptyString, _ => true
  | String c key', String d s' => Ascii.eqb c d && is_prefix key' s'
  | String _ _, EmptyString => false
  end.

Fixpoint is_substring (key s : string) : bool :=
  is_prefix key s ||
  match s with
  | EmptyString => false
  | String _ s' => is_substring key s'
  end.

(** [key in v] for a string [key] *)
Definition spec_contains (v : SpecValue) (key : string) : Result bool :=
  match v with
  | SpecDict items => Ok (has_key key items)
  | SpecList items => Ok (existsb (fun x => leaf_eq (SpecStr key) x) items)
  | SpecStr s => Ok (is_substring key s)
  | SpecShape s => Ok (has_dim key s)
  | SpecType _ | SpecTensor _ => Raise TypeError
  end.

(** [v[key]] for a string [key]: lists and strings take integers only. *)
Definition spec_getitem (v : SpecValue) (key : string) : Result SpecValue :=
  match v with
  | SpecDict items => spec_item key items
  | SpecShape s => Ok (SpecShape (dim_named s key))
  | SpecList _ | SpecStr _ | SpecType _ | SpecTensor _ => Raise TypeError
  end.

(** [len(v)] *)
Definition spec_len (v : SpecValue) : Result nat :=
  match v with
  | SpecDict items => Ok (List.length items)
  | SpecList items => Ok (List.length items)
  | SpecStr s => Ok (String.length s)
  | SpecShape s => Ok (rank s)
  | SpecType _ | SpecTensor _ => Raise TypeError
  end.

(** [all(results)] *)
Definition py_all (results : list bool) : bool := forallb (fun b => b) results.

Section SpecsEqual.
Variable C : Collaborators.

(** [equal(a, b, equal_nan=True)] of [_ops.py] *)
Variable equal : Obj -> Obj -> Result bool.

(** [specs_equal(spec1, spec2)].  The comprehensions are lists: every entry
    is evaluated before [all] looks at them. *)
Fixpoint specs_equal (spec1 spec2 : SpecValue) {struct spec1} : Result bool :=
  match spec1, spec2 with
  | SpecTensor t1, SpecTensor t2 =>
      s1 <- shape t1 ;;
      s2 <- shape t2 ;;
      if negb (is_compatible C s1 s2) then Ok false
      else equal t1 t2
  | SpecTensor _, _ | _, SpecTensor _ => Ok false
  | SpecDict items1, _ =>
      keys2 <- spec_set spec2 ;;
      if negb (same_elements (map (fun kv => SpecStr (fst kv)) items1) keys2) then Ok false
      else
        results <-
          (fix go (items : list (string * SpecValue)) : Result (list bool) :=
             match items with
             | [] => Ok []
             | (key, v1) :: rest =>
                 r <- (present <- spec_contains spec2 key ;;
                       if present then
                         v2 <- spec_getitem spec2 key ;;
                         specs_equal v1 v2
                       else Ok false) ;;
                 rs <- go rest ;;
                 Ok (r :: rs)
             end) items1 ;;
        Ok (py_all results)
  | SpecList items1, _ =>
      n <- spec_len spec2 ;;
      if negb (Nat.eqb (List.length items1) n) then Ok false
      else
        items2 <- spec_elements spec2 ;;
        results <-
          (fix go (items1 items2 : list SpecValue) : Result (list bool) :=
             match items1, items2 with
             | s1 :: rest1, s2 :: rest2 =>
                 r <- specs_equal s1 s2 ;;
                 rs <- go rest1 rest2 ;;
                 Ok (r :: rs)
             | _, _ => Ok []
             end) items1 items2 ;;
        Ok (py_all results)
  | _, _ => Ok (leaf_eq spec1 spec2)
  end.

End SpecsEqual.

(** The loops of [specs_equal] under names of their own. *)
Definition specs_equal_entries (f : SpecValue -> SpecValue -> Result bool) (spec2 : SpecValue)
    : list (string * SpecValue) -> Result (list bool) :=
  fix go (items : list (string * SpecValue)) : Result (list bool) :=
    match items with
    | [] => Ok []
    | (key, v1) :: rest =>
        r <- (present <- spec_contains spec2 key ;;
              if present then
                v2 <- spec_getitem spec2 key ;;
                f v1 v2
              else Ok false) ;;
        rs <- go rest ;;
        Ok (r :: rs)
    end.

Definition specs_equal_items (f : SpecValue -> SpecValue -> Result bool)
    : list SpecValue -> list SpecValue -> Result (list bool) :=
  fix go (items1 items2 : list SpecValue) : Result (list bool) :=
    match items1, items2 with
    | s1 :: rest1, s2 :: rest2 =>
        r <- f s1 s2 ;;
        rs <- go rest1 rest2 ;;
        Ok (r :: rs)
    | _, _ => Ok []
    end.

(** A spec of classes, strings, shapes, lists and dicts, in which no dict has
    a key twice. *)
Fixpoint plain_spec (v : SpecValue) : Prop :=
  match v with
  | SpecTensor _ => False
  | SpecList items =>
      (fix all (l : list SpecValue) : Prop :=
         match l with
         | [] => True
         | y :: rest => plain_spec y /\ all rest
         end) items
  | SpecDict items =>
      NoDup (map fst items) /\
      (fix all (l : list (string * SpecValue)) : Prop :=
         match l with
         | [] => True
         | kv :: rest => plain_spec (snd kv) /\ all rest
         end) items
  | _ => True
  end.

(* ------------------------------------------------------------------------- *)
(** ** The broadcast formatter

    [BROADCAST_FORMATTER] is one object of class [BroadcastFormatter]; its
    state is the attribute [values], which is [None] or a list of tensors.
    [-f] starts a formatting, the [__format__] of the tensors registers them,
    and [f - string] maps the formatting over them. *)

Definition BroadcastFormatter : Type := option (list Obj).

(** The double quote, as a string *)
Definition double_quote : string := String (Ascii.ascii_of_nat 34) EmptyString.

(** [BroadcastFormatter.__init__] *)
Definition BroadcastFormatter_init : BroadcastFormatter := None.

(** [BroadcastFormatter.__neg__()]: the new state and the result. *)
Definition BroadcastFormatter___neg__ (values : BroadcastFormatter)
    : BroadcastFormatter * Attempt unit :=
  match values with
  | Some _ => (values, Failed (SyntaxError "-f called twice without formatting string."))
  | None => (Some [], Success tt)
  end.

(** [BroadcastFormatter.register_formatted(value, format_spec)] *)
Definition register_formatted (values : BroadcastFormatter) (value : Obj) (format_spec : string)
    : BroadcastFormatter * Attempt string :=
  match values with
  | None => (values, Failed (Builtin AttributeError))
  | Some vs =>
      let vs := vs ++ [value] in
      (Some vs,
       Success (String.append "{"
                 (String.append (String.append (string_of_nat (List.length vs - 1))
                                   (String.append ":" format_spec))
                    "}")))
  end.

Section BroadcastFormatting.
(** [map_(other.format, *values)] of [_functional.py] *)
Variable map_format : string -> list Obj -> Result Obj.

(** [format_tensor(self, PrintOptions(...))] for the options that the
    format spec gives *)
Variable format_tensor : Obj -> string -> Result string.

(** [BroadcastFormatter.format(other)] for a string [other], which is also
    [BroadcastFormatter.__sub__(other)] *)
Definition BroadcastFormatter_format (values : BroadcastFormatter) (other : string)
    : BroadcastFormatter * Attempt Obj :=
  match values with
  | None =>
      (values,
       Failed (SyntaxError
                 (String.append "Use the syntax -f-f"
                    (String.append double_quote
                       (String.append "{tensor}"
                          (String.append double_quote ". Leading '-' is missing."))))))
  | Some vs =>
      match map_format other vs with
      | Ok result => (None, Success result)
      | Raise e => (values, Failed (Builtin e))
      end
  end.

(** [Tensor.__format__(format_spec)] *)
Definition Tensor___format__ (values : BroadcastFormatter) (self : Obj) (format_spec : string)
    : BroadcastFormatter * Attempt string :=
  match values with
  | Some _ => register_formatted values self format_spec
  | None => (values, attempt (format_tensor self format_spec))
  end.

(** [repr(obj)] *)
Variable repr : Obj -> Result string.

(** [Layout.__format__(format_spec)], which overrides [Tensor.__format__] *)
Definition Layout___format__ (values : BroadcastFormatter) (self : Obj) (format_spec : string)
    : BroadcastFormatter * Attempt string :=
  match values with
  | Some _ => register_formatted values self format_spec
  | None =>
      match self with
      | Layout obj _ _ => (values, attempt (repr obj))
      | _ => (values, Failed (Builtin AttributeError))
      end
  end.

(** [format(value, format_spec)] on a value that is no tensor *)
Variable format_object : Obj -> string -> Result string.

(** One field [{value:format_spec}] of an f-string: the [__format__] of the
    class of the value. *)
Definition format_field (values : BroadcastFormatter) (value : Obj) (format_spec : string)
    : BroadcastFormatter * Attempt string :=
  match value with
  | Layout _ _ _ => Layout___format__ values value format_spec
  | _ =>
      if is_Tensor value then Tensor___format__ values value format_spec
      else (values, attempt (format_object value format_spec))
  end.

(** The fields of an f-string, formatted from left to right: the state
    after the last, and the texts. *)
Fixpoint format_fields (values : BroadcastFormatter) (fields : list (Obj * string))
    : BroadcastFormatter * Attempt (list string) :=
  match fields with
  | [] => (values, Success [])
  | (t, format_spec) :: rest =>
      match format_field values t format_spec with
      | (values, Success text) =>
          match format_fields values rest with
          | (values, Success texts) => (values, Success (text :: texts))
          | (values, Failed e) => (values, Failed e)
          end
      | (values, Failed e) => (values, Failed e)
      end
  end.

End BroadcastFormatting.

(** [["{0:spec0}", "{1:spec1}", ...]] from [i] on *)
Fixpoint placeholders (i : nat) (format_specs : list string) : list string :=
  match format_specs with
  | [] => []
  | format_spec :: rest =>
      String.append "{"
        (String.append (String.append (string_of_nat i) (String.append ":" format_spec)) "}")
      :: placeholders (S i) rest
  end.

(* ------------------------------------------------------------------------- *)
(** ** Packing the dimensions of a layout *)

Section LayoutPacking.
Variable C : Collaborators.
Variable iter_object : Obj -> Result (list Obj).

(** The second branch of [Layout.__pack_dims__], for dimensions other than
    all stack dimensions: the layout is sliced at every index of a meshgrid
    of [_shape.py]. *)
Variable pack_slices : Obj -> list string -> Shape -> Result Obj.

(** [Layout.__pack_dims__(dims, packed_dim, pos)] *)
Definition Layout___pack_dims__ (self : Obj) (dims : list string) (packed_dim : Shape)
    : Result Obj :=
  match self with
  | Layout _ stack_dim _ =>
      if list_eqb String.eqb dims (names stack_dim) then
        native <- Layout_as_list iter_object self ;;
        Layout_init C (PyList native) (with_sizes packed_dim [List.length native])
      else pack_slices self dims packed_dim
  | _ => Raise AttributeError
  end.

End LayoutPacking.

(* ------------------------------------------------------------------------- *)
(** ** Further example values *)

Module MoreExamples.
Import Reference.
Import Examples.

(** The static shapes of the arrays of [t1] and [t2]; the other arrays of
    the examples have rank zero. *)
Definition static_sizes (native : Native) : list nat :=
  match native with
  | NArray 1 => [2]
  | NArray 2 => [3]
  | _ => []
  end.

(** The collaborators of [Reference], with these static shapes. *)
Definition sized : Collaborators := {|
  merge_shapes := merge_shapes collaborators;
  shape_stack := shape_stack collaborators;
  is_sparse := is_sparse collaborators;
  dense := dense collaborators;
  dtype_precision := dtype_precision collaborators;
  get_precision := get_precision collaborators;
  parse_dim_order := parse_dim_order collaborators;
  reshaped_native_packed := reshaped_native_packed collaborators;
  contiguous_non_uniform := contiguous_non_uniform collaborators;
  non_uniform_transposed_native := non_uniform_transposed_native collaborators;
  iterate_object := iterate_object collaborators;
  object_as_native := object_as_native collaborators;
  contiguous_unstack := contiguous_unstack collaborators;
  kernel_on_objects := kernel_on_objects collaborators;
  layout_shape := layout_shape collaborators;
  is_Shapable := is_Shapable collaborators;
  stack := stack collaborators;
  expand := expand collaborators;
  getitem := getitem collaborators;
  as_tensor := as_tensor collaborators;
  staticshape := static_sizes;
  wrap_with_shape := wrap_with_shape collaborators;
  tensor_of_data := tensor_of_data collaborators;
  shape_of := shape_of collaborators;
  is_compatible := is_compatible collaborators;
  close := close collaborators;
  py_eq := py_eq collaborators;
  py_ne := py_ne collaborators;
  from_dict_without_sizes := from_dict_without_sizes collaborators;
  is_ndarray := is_ndarray collaborators;
  variable_attributes := variable_attributes collaborators
|}.

(** No object other than the built-in containers can be iterated. *)
Definition no_iteration (obj : Obj) : Result (list Obj) := Raise TypeError.

(** [lambda n: n + 1] and [lambda a, b: a + b] on Python ints *)
Definition increment (leaf : Obj) : Result Obj :=
  match leaf with
  | PyRaw (NNumber (PyInt n)) => Ok (PyRaw (NNumber (PyInt (n + 1))))
  | _ => Raise TypeError
  end.

Definition plus_objects (a b : Obj) : Result Obj :=
  match a, b with
  | PyRaw (NNumber (PyInt n)), PyRaw (NNumber (PyInt m)) =>
      Ok (PyRaw (NNumber (PyInt (n + m))))
  | _, _ => Raise TypeError
  end.

Definition plus : Operation := {|
  operator := add_operator;
  native_function := {| on_arrays := fun a b => Ok (NApply "add" a b);
                        on_objects := plus_objects |};
  op_name := "add";
  op_symbol := "+"
|}.

Definition one : Obj := PyRaw (NNumber (PyInt 1)).
Definition two : Obj := PyRaw (NNumber (PyInt 2)).
Definition ten : Obj := PyRaw (NNumber (PyInt 10)).

(** A layout of a dict with two entries along [a], and two layouts of lists
    of strings along [a]. *)
Definition by_key : Obj := Layout (PyDict [("k", one); ("l", two)]) a2 a2.
Definition words : Obj := Layout (PyList [PyStr "a"; PyStr "b"]) a2 a2.
Definition more_words : Obj := Layout (PyList [PyStr "c"; PyStr "d"]) a2 a2.

(** The tree [[t1, {'k': u1}]], without [None]. *)
Definition tensors_only : Obj := PyList [t1; PyDict [("k", u1)]].

(** A spec of two entries, and the same entries in the other order. *)
Definition two_entries : list (string * SpecValue) :=
  [("type", SpecType NativeTensor_class); ("names", SpecList [SpecStr "x"; SpecStr "y"])].
Definition two_entries_swapped : list (string * SpecValue) :=
  [("names", SpecList [SpecStr "x"; SpecStr "y"]); ("type", SpecType NativeTensor_class)].

(** Stand-ins for [map_] with the formatting function, one that returns
    and one that raises, and for [format_tensor]. *)
Definition joined (other : string) (values : list Obj) : Result Obj := Ok (PyStr other).
Definition failing (other : string) (values : list Obj) : Result Obj := Raise TypeError.
Definition plain_text (t : Obj) (format_spec : string) : Result string := Ok "tensor".
Definition shown (obj : Obj) : Result string := Ok "object".

(** The stack of [t1] and [t2] along [c], and an operator whose result has
    the dimensions of both operands. *)
Definition ragged_c : Obj :=
  TensorStack [t1; t2] [dim "c" BATCH_DIM 2] true
    [dim "c" BATCH_DIM 2; mkDim "x" (Some SPATIAL_DIM) (SizeTensor 0) None].

Definition broadcast_operator (x y : Obj) : Result Obj :=
  sx <- shape x ;;
  sy <- shape y ;;
  s <- merge [sx; sy] ;;
  Ok (NativeTensor (NArray 10) s s).

Definition broadcast : Operation := {|
  operator := broadcast_operator;
  native_function := add_native;
  op_name := "add";
  op_symbol := "+"
|}.

(** A layout of two lists of two strings along [b] and [a]. *)
Definition grid : Obj :=
  Layout (PyList [PyList [PyStr "a"; PyStr "b"]; PyList [PyStr "c"; PyStr "d"]])
    [dim "b" BATCH_DIM 2; dim "a" CHANNEL_DIM 2] [dim "b" BATCH_DIM 2; dim "a" CHANNEL_DIM 2].

Definition no_slices (self : Obj) (dims : list string) (packed_dim : Shape) : Result Obj :=
  Raise (NotImplementedError "meshgrid").

(** No array is sparse. *)
Definition all_dense (native : Native) : bool := false.
Definition no_sparse (native : Native) (s : Shape) : Result Obj :=
  Raise (NotImplementedError "sparse").

End MoreExamples.

(* ========================================================================= *)
(** * Properties *)

(* ------------------------------------------------------------------------- *)
(** ** Construction of a [TensorStack] *)

Section TensorStackInvariant.
Variable C : Collaborators.

Lemma check_components_ok stack_dim components :
  check_components stack_dim components = Ok tt ->
  Forall (fun t => is_Tensor t = true /\
                   exists s, shape t = Ok s /\ has_dim (single_name stack_dim) s = false)
         components.
Proof.
  induction components as [|t rest IH]; simpl; intros H; [constructor|].
  destruct (is_Tensor t) eqn:Ht; simpl in H; [|discriminate].
  destruct (shape t) as [s|e] eqn:Hs; simpl in H; [|discriminate].
  destruct (has_dim (single_name stack_dim) s) eqn:Hd; simpl in H; [discriminate|].
  constructor; [|auto].
  split; [assumption|]. exists s. auto.
Qed.

Lemma check_components_clash stack_dim components t s :
  In t components -> shape t = Ok s -> has_dim (single_name stack_dim) s = true ->
  exists msg, check_components stack_dim components = Raise (AssertionError msg).
Proof.
  intros Hin Hs Hd.
  induction components as [|c rest IH]; simpl; [destruct Hin|].
  destruct (is_Tensor c) eqn:Hc; simpl; [|eauto].
  destruct (shape c) as [sc|e] eqn:Hsc; simpl.
  - destruct (has_dim (single_name stack_dim) sc) eqn:Hdc; simpl; [eauto|].
    destruct Hin as [->|Hin]; [congruence|auto].
  - destruct c; simpl in *; discriminate.
Qed.

Lemma with_sizes_single stack_dim n :
  rank stack_dim = 1 ->
  single_size (with_sizes stack_dim [n]) = SizeInt n /\
  single_name (with_sizes stack_dim [n]) = single_name stack_dim /\
  rank (with_sizes stack_dim [n]) = 1.
Proof.
  destruct stack_dim as [|d [|d' rest]]; simpl; try discriminate.
  intros _. auto.
Qed.

(** C6.  Constructing a [TensorStack] whose [stack_dim] name occurs in the
    shape of a component fails; a [TensorStack] that was constructed holds
    the given components, [stack_dim.name] is in no component's shape, and
    [stack_dim.size] is the number of components. *)
Theorem TensorStack_init_invariant (components : list Obj) (stack_dim : Shape) :
  (forall t s, In t components -> shape t = Ok s ->
               has_dim (single_name stack_dim) s = true ->
               exists e, TensorStack_init C components stack_dim = Raise e) /\
  (forall r, TensorStack_init C components stack_dim = Ok r ->
     exists sd varying s,
       r = TensorStack components sd varying s /\
       rank sd = 1 /\
       single_name sd = single_name stack_dim /\
       single_size sd = SizeInt (List.length components) /\
       Forall (fun t => exists st, shape t = Ok st /\ has_dim (single_name sd) st = false)
              components).
Proof.
  split.
  - intros t s Hin Hs Hd. unfold TensorStack_init.
    destruct (Nat.eqb (rank stack_dim) 1); simpl; [|eauto].
    destruct (check_components_clash stack_dim components t Hin Hs Hd) as [msg ->].
    simpl. eauto.
  - intros r. unfold TensorStack_init.
    destruct (Nat.eqb (rank stack_dim) 1) eqn:Hr; simpl; [|discriminate].
    apply Nat.eqb_eq in Hr.
    destruct (check_components stack_dim components) as [[]|e] eqn:Hc; simpl; [|discriminate].
    destruct (mapM shape components) as [shapes|e]; simpl; [|discriminate].
    destruct (with_sizes_single stack_dim (List.length components) Hr) as (Hsz & Hn & Hrk).
    intros H.
    assert (exists v s, r = TensorStack components
              (with_sizes stack_dim [List.length components]) v s) as (v & s & ->).
    { destruct (merge_shapes C shapes) as [m|[]]; simpl in H;
        try discriminate;
        destruct (shape_stack C _ shapes); simpl in H; try discriminate;
        inversion H; eauto. }
    exists (with_sizes stack_dim [List.length components]), v, s.
    repeat split; auto.
    rewrite Hn.
    eapply Forall_impl; [|apply check_components_ok; exact Hc].
    simpl. intros a (_ & st & H1 & H2). eauto.
Qed.

End TensorStackInvariant.

(* ------------------------------------------------------------------------- *)
(** ** The equality-mode stack *)

Lemma pop_last_app {A : Type} (l : list A) (x : A) : pop_last (l ++ [x]) = Some (l, x).
Proof.
  induction l as [|y l IH]; simpl; [reflexivity|].
  rewrite IH. reflexivity.
Qed.

Lemma pop_last_length {A : Type} (l rest : list A) (x : A) :
  pop_last l = Some (rest, x) -> l = rest ++ [x].
Proof.
  revert rest x. induction l as [|y l IH]; simpl; intros rest x H; [discriminate|].
  destruct (pop_last l) as [[rest' z]|] eqn:E.
  - inversion H; subst. simpl. f_equal. apply IH. reflexivity.
  - inversion H; subst. destruct l; [reflexivity|].
    simpl in E. destruct (pop_last l) as [[? ?]|]; discriminate.
Qed.

Lemma PyFloat_same_refl x : PyFloat_same x x = true.
Proof. destruct x; simpl; [reflexivity|]. now rewrite !Z.eqb_refl. Qed.

Lemma Frame_eqb_refl f : Frame_eqb f f = true.
Proof.
  destruct f; simpl; try reflexivity.
  now rewrite !PyFloat_same_refl, Bool.eqb_reflx.
Qed.

Lemma with_frame_restores {A : Type} (frame : Frame) (body : Region A) (stack : EqualityStack) :
  fst (body (stack ++ [frame])) = stack ++ [frame] ->
  with_frame frame body stack = (stack, snd (body (stack ++ [frame]))).
Proof.
  unfold with_frame. destruct (body (stack ++ [frame])) as [stack' outcome]; simpl.
  intros ->. rewrite pop_last_app, Frame_eqb_refl. reflexivity.
Qed.

Lemma PyFloat_same_eq x y : PyFloat_same x y = true -> x = y.
Proof.
  destruct x, y; simpl; try discriminate; [reflexivity|].
  intros H. apply andb_true_iff in H. destruct H as [H1 H2].
  apply Z.eqb_eq in H1. apply Z.eqb_eq in H2. now subst.
Qed.

Lemma Frame_eqb_eq f g : Frame_eqb f g = true -> f = g.
Proof.
  destruct f, g; simpl; try discriminate; try reflexivity.
  intros H. apply andb_true_iff in H. destruct H as [H H3].
  apply andb_true_iff in H. destruct H as [H1 H2].
  apply PyFloat_same_eq in H1. apply PyFloat_same_eq in H2.
  apply Bool.eqb_prop in H3. now subst.
Qed.

Lemma Frame_eqb_neq f g : f <> g -> Frame_eqb f g = false.
Proof.
  intros H. destruct (Frame_eqb f g) eqn:E; [|reflexivity].
  now apply Frame_eqb_eq in E.
Qed.

(** C8.  The body of [equality_by_ref] and of [equality_by_shape_and_value]
    runs with exactly one more frame on the list, the frame of the mode.
    Leaving removes exactly the last frame of the list.  When the body hands
    the list back as it received it, which a body made of complete [with]
    blocks does, leaving restores the list of before the block, the assertion
    holds, and the body's result or exception is passed on unchanged.  When
    the frame that is removed differs from the one that was pushed, the block
    ends in an [AssertionError], which replaces the result or the exception
    of the body, and the frame stays removed; when the body has emptied the
    list, the block ends in the [IndexError] of [pop]. *)
Theorem equality_mode_stack_lifo (A : Type) (frame : Frame) (body : Region A)
    (stack : EqualityStack) :
  (frame = ByRef \/ exists r a n, frame = ShapeAndValue r a n) ->
  let block :=
    match frame with
    | ShapeAndValue r a n => equality_by_shape_and_value r a n body
    | _ => equality_by_ref body
    end in
  let inside := body (stack ++ [frame]) in
  active_frame (stack ++ [frame]) = Ok frame /\
  (forall top rest, pop_last (fst inside) = Some (rest, top) ->
     fst (block stack) = rest /\ fst inside = fst (block stack) ++ [top]) /\
  (fst inside = stack ++ [frame] -> block stack = (stack, snd inside)) /\
  ((forall s, fst (body s) = s) -> forall s, fst (block s) = s) /\
  (forall top rest, fst inside = rest ++ [top] -> top <> frame ->
     block stack = (rest, Raised (AssertionError ""))) /\
  (fst inside = [] -> block stack = ([], Raised IndexError)).
Proof.
  intros Hframe block inside.
  assert (Hblock : block = with_frame frame body).
  { subst block. destruct Hframe as [->|(r & a & n & ->)]; reflexivity. }
  rewrite Hblock. clear Hblock block.
  repeat split.
  - unfold active_frame. now rewrite pop_last_app.
  - unfold with_frame. subst inside.
    destruct (body (stack ++ [frame])) as [stack' outcome]; simpl in *.
    rewrite H. destruct (Frame_eqb top frame); reflexivity.
  - unfold with_frame. subst inside.
    destruct (body (stack ++ [frame])) as [stack' outcome]; simpl in *.
    rewrite H. apply pop_last_length in H.
    destruct (Frame_eqb top frame); simpl; exact H.
  - apply with_frame_restores.
  - intros Hbody s. rewrite with_frame_restores; [reflexivity|apply Hbody].
  - intros top rest Hinside Hneq. unfold with_frame. subst inside.
    destruct (body (stack ++ [frame])) as [stack' outcome]; simpl in *.
    rewrite Hinside, pop_last_app, (Frame_eqb_neq Hneq). reflexivity.
  - intros Hinside. unfold with_frame. subst inside.
    destruct (body (stack ++ [frame])) as [stack' outcome]; simpl in *.
    rewrite Hinside. reflexivity.
Qed.

(* ------------------------------------------------------------------------- *)
(** ** The native array of a [NativeTensor] *)

Lemma list_eqb_refl {A : Type} (eqb : A -> A -> bool) (l : list A) :
  (forall x, eqb x x = true) -> list_eqb eqb l l = true.
Proof.
  intros H. induction l as [|x l IH]; simpl; [reflexivity|].
  now rewrite H, IH.
Qed.

Lemma list_eqb_eq {A : Type} (eqb : A -> A -> bool) (l l' : list A) :
  (forall x y, eqb x y = true -> x = y) -> list_eqb eqb l l' = true -> l = l'.
Proof.
  intros H. revert l'. induction l as [|x l IH]; destruct l' as [|y l']; simpl;
    try discriminate; auto.
  intros E. apply andb_true_iff in E as [E1 E2]. f_equal; auto.
Qed.

Lemma list_eqb_string_eq (a b : list string) : list_eqb String.eqb a b = true -> a = b.
Proof.
  revert b. induction a as [|x a IH]; destruct b as [|y b]; simpl; try discriminate; auto.
  intros H. apply andb_true_iff in H as [H1 H2].
  apply String.eqb_eq in H1. f_equal; auto.
Qed.

Lemma mem_name_In n ns : mem_name n ns = true <-> In n ns.
Proof.
  unfold mem_name. rewrite existsb_exists. split.
  - intros (x & Hin & Hx). apply String.eqb_eq in Hx. now subst.
  - intros H. exists n. split; [assumption|apply String.eqb_refl].
Qed.

Lemma index_ok s n : has_dim n s = true -> exists i, index s n = Ok i.
Proof.
  unfold has_dim, names. induction s as [|d s IH]; simpl; [discriminate|].
  rewrite (String.eqb_sym n). destruct (String.eqb (dim_name d) n); simpl; eauto.
  intros H. destruct (IH H) as [i ->]. simpl. eauto.
Qed.

Lemma get_size_ok s n : has_dim n s = true -> exists z, get_size s n = Ok z.
Proof.
  unfold has_dim, names. induction s as [|d s IH]; simpl; [discriminate|].
  rewrite (String.eqb_sym n). destruct (String.eqb (dim_name d) n); simpl; eauto.
Qed.

Lemma mapM_ok {A B : Type} (f : A -> Result B) (P : A -> B -> Prop) (l : list A) :
  (forall x, In x l -> exists y, f x = Ok y /\ P x y) ->
  exists ys, mapM f l = Ok ys /\ Forall2 P l ys.
Proof.
  induction l as [|x l IH]; simpl; intros H; [eauto|].
  destruct (H x (or_introl eq_refl)) as (y & -> & Hy). simpl.
  destruct IH as (ys & -> & Hys); [auto|]. simpl. eauto.
Qed.

Lemma Forall2_length_eq {A B : Type} (P : A -> B -> Prop) l l' :
  Forall2 P l l' -> List.length l = List.length l'.
Proof. induction 1; simpl; auto. Qed.

Lemma filter_length_lt {A : Type} (f : A -> bool) (l : list A) (x : A) :
  In x l -> f x = false -> List.length (filter f l) < List.length l.
Proof.
  induction l as [|y l IH]; simpl; [tauto|].
  intros [->|Hin] Hx.
  - rewrite Hx. pose proof (filter_length_le f l). lia.
  - specialize (IH Hin Hx). destruct (f y); simpl; lia.
Qed.

Lemma mapM_Forall2 {A B : Type} (f : A -> Result B) (l : list A) (ys : list B) :
  mapM f l = Ok ys -> Forall2 (fun x y => f x = Ok y) l ys.
Proof.
  revert ys. induction l as [|x l IH]; simpl; intros ys H.
  - inversion H. constructor.
  - destruct (f x) as [y|e] eqn:Hx; simpl in H; [|discriminate].
    destruct (mapM f l) as [ys'|e]; simpl in H; [|discriminate].
    inversion H; subst. constructor; auto.
Qed.

Lemma index_names s n i :
  index s n = Ok i -> nth i (names s) "" = n /\ i < rank s.
Proof.
  revert i. induction s as [|d s IH]; simpl; intros i; [discriminate|].
  destruct (String.eqb (dim_name d) n) eqn:E.
  - apply String.eqb_eq in E. intros H. inversion H; subst. split; [reflexivity|lia].
  - destruct (index s n) as [j|e]; simpl; [|discriminate].
    intros H. inversion H; subst. destruct (IH j eq_refl). split; [assumption|lia].
Qed.

Lemma index_behind d s (l : list string) :
  ~ In (dim_name d) l ->
  mapM (index (d :: s)) l = (r <- mapM (index s) l ;; Ok (map S r)).
Proof.
  induction l as [|n l IH]; intros Hd; [reflexivity|].
  cbn [mapM]. rewrite IH by (intros Hin; apply Hd; now right).
  cbn [index].
  destruct (String.eqb (dim_name d) n) eqn:E.
  - apply String.eqb_eq in E. exfalso. apply Hd. now left.
  - destruct (index s n) as [i|e]; cbn [bind]; [|reflexivity].
    destruct (mapM (index s) l) as [r|e]; reflexivity.
Qed.

Lemma index_own_names s :
  NoDup (names s) -> mapM (index s) (names s) = Ok (range (rank s)).
Proof.
  unfold range, rank. induction s as [|d s IH]; intros Hnd; [reflexivity|].
  inversion Hnd as [|? ? Hd Hnd']; subst.
  cbn [names map mapM]. fold (names s).
  rewrite (index_behind d s (names s) Hd), (IH Hnd').
  cbn [index]. rewrite String.eqb_refl. cbn [bind List.length seq].
  now rewrite seq_shift.
Qed.

Lemma Forall2_In_l {A B : Type} (P : A -> B -> Prop) l l' x :
  Forall2 P l l' -> In x l -> exists y, In y l' /\ P x y.
Proof.
  induction 1 as [|a b l l' Hab _ IH]; simpl; [tauto|].
  intros [->|Hin]; [eauto|]. destruct (IH Hin) as (y & Hy & HP). eauto.
Qed.

Lemma Forall2_In_r {A B : Type} (P : A -> B -> Prop) l l' y :
  Forall2 P l l' -> In y l' -> exists x, In x l /\ P x y.
Proof.
  induction 1 as [|a b l l' Hab _ IH]; simpl; [tauto|].
  intros [->|Hin]; [eauto|]. destruct (IH Hin) as (x & Hx & HP). eauto.
Qed.

Lemma range_is_permutation n : is_permutation (range n) = true.
Proof.
  unfold is_permutation, range. rewrite length_seq.
  apply forallb_forall. intros axis Hin. apply existsb_exists.
  exists axis. split; [assumption|apply Nat.eqb_refl].
Qed.

(** The axes that [NativeTensor._transposed_native] computes for an order
    that lists every dimension of the backing array, none of them twice, are
    a permutation of the axes of the array. *)
Lemma transposed_perm_is_permutation (native_shape : Shape) (order : list string) perm :
  NoDup (names native_shape) ->
  NoDup order ->
  (forall n, In n (names native_shape) -> In n order) ->
  mapM (index native_shape) (only_reorder_names native_shape order) = Ok perm ->
  is_permutation perm = true /\ List.length perm = rank native_shape.
Proof.
  intros Hnd Hndo Hall Hperm.
  pose proof (mapM_Forall2 _ _ Hperm) as HF.
  assert (Hin : forall n, In n (only_reorder_names native_shape order)
                          <-> In n (names native_shape)).
  { intros n. unfold only_reorder_names. rewrite filter_In. unfold has_dim.
    rewrite mem_name_In. split; [tauto|]. intros H. split; auto. }
  assert (Hlen : List.length perm = rank native_shape).
  { rewrite <- (Forall2_length_eq HF). unfold rank.
    rewrite <- (length_map dim_name native_shape). fold (names native_shape).
    apply Nat.le_antisymm; apply NoDup_incl_length; auto.
    - unfold only_reorder_names. now apply NoDup_filter.
    - intros n Hn. now apply Hin.
    - intros n Hn. now apply Hin. }
  split; [|exact Hlen].
  unfold is_permutation. apply forallb_forall. intros axis Haxis.
  rewrite Hlen in Haxis.
  pose proof (mapM_Forall2 _ _ (@index_own_names native_shape Hnd)) as HF'.
  destruct (Forall2_In_r axis HF' Haxis) as (n & Hn & Hi).
  apply Hin in Hn. destruct (Forall2_In_l n HF Hn) as (i & Hi' & Hi'').
  apply existsb_exists. exists i. split; [assumption|].
  apply Nat.eqb_eq. congruence.
Qed.

Lemma mapM_assertion_fails {A B : Type} (f : A -> Result B) (l : list A) (x : A) :
  (forall y, In y l -> (exists b, f y = Ok b) \/ exists msg, f y = Raise (AssertionError msg)) ->
  In x l -> (exists msg, f x = Raise (AssertionError msg)) ->
  exists msg, mapM f l = Raise (AssertionError msg).
Proof.
  induction l as [|y l IH]; simpl; [tauto|].
  intros Hall Hin Hx.
  destruct (Hall y (or_introl eq_refl)) as [(b & Hy)|(msg & Hy)]; rewrite Hy; simpl;
    [|eauto].
  destruct Hin as [->|Hin].
  - destruct Hx as (msg & Hx). congruence.
  - destruct IH as (msg & ->); auto. simpl. eauto.
Qed.

Lemma mapM_map {A B D : Type} (f : B -> Result D) (g : A -> B) (l : list A) :
  mapM f (map g l) = mapM (fun x => f (g x)) l.
Proof. induction l as [|x l IH]; simpl; [reflexivity|]. now rewrite IH. Qed.

Lemma mapM_pure {A B : Type} (f : A -> Result B) (g : A -> B) (l : list A) :
  (forall x, In x l -> f x = Ok (g x)) -> mapM f l = Ok (map g l).
Proof.
  induction l as [|x l IH]; simpl; intros H; [reflexivity|].
  rewrite (H x (or_introl eq_refl)). simpl. rewrite IH by auto. reflexivity.
Qed.

Section TransposedNative.
Variable C : Collaborators.

Lemma transposed_native_perm (native_shape : Shape) (order : list string) :
  exists perm,
    mapM (index native_shape) (only_reorder_names native_shape order) = Ok perm /\
    List.length perm = List.length (only_reorder_names native_shape order).
Proof.
  destruct (mapM_ok (index native_shape) (fun _ _ => True)
              (only_reorder_names native_shape order)) as (perm & Hp & HF).
  - intros x Hx. unfold only_reorder_names in Hx. apply filter_In in Hx as [_ Hx].
    destruct (index_ok _ _ Hx) as [i Hi]. eauto.
  - exists perm. split; [assumption|]. symmetry. eapply Forall2_length_eq; eauto.
Qed.

(** The number of times that each axis is repeated by [tile]: the size
    that the shape of the tensor declares for a name that the backing array
    lacks, and one for every other axis. *)
Lemma transposed_native_multiples (native_shape shape_ : Shape) (order : list string) :
  exists multiples,
    mapM (fun dim => if has_dim dim shape_ && negb (has_dim dim native_shape)
                     then get_size shape_ dim else Ok (SizeInt 1)) order
    = Ok multiples /\
    Forall2 (fun dim m =>
               if has_dim dim shape_ && negb (has_dim dim native_shape)
               then get_size shape_ dim = Ok m
               else m = SizeInt 1) order multiples.
Proof.
  apply mapM_ok. intros x _.
  destruct (has_dim x shape_) eqn:Hx; simpl.
  - destruct (negb (has_dim x native_shape)).
    + destruct (get_size_ok _ _ Hx) as [z ->]. exists z. split; reflexivity.
    + eexists. split; reflexivity.
  - eexists. split; reflexivity.
Qed.

Lemma process_group_outcome (value_shape : Shape) (g : string) :
  (exists names_, process_group C value_shape g = Ok names_) \/
  exists msg, process_group C value_shape g = Raise (AssertionError msg).
Proof.
  unfold process_group.
  destruct (Nat.ltb 1 (List.length (parse_dim_order C g))); simpl; [|eauto].
  destruct (forallb (fun name => has_dim name value_shape) (parse_dim_order C g));
    simpl; eauto.
Qed.

Lemma get_size_integer (s : Shape) (dim : string) :
  Forall (fun d => is_integer (dim_size d) = true) s ->
  has_dim dim s = true -> exists k, get_size s dim = Ok (SizeInt k).
Proof.
  unfold has_dim, names. induction 1 as [|d s Hd _ IH]; simpl; [discriminate|].
  rewrite (String.eqb_sym dim). destruct (String.eqb (dim_name d) dim); simpl.
  - intros _. destruct (dim_size d); try discriminate. eauto.
  - exact IH.
Qed.

(** The array is returned for an order without repetitions that lists
    every dimension of the backing array, when the names of the backing
    array differ from each other and the sizes to tile by are integers. *)
Lemma transposed_native_returns
    (array : Native) (native_shape shape_ : Shape)
    (order : list string) (order_is_tuple force_expand : bool) :
  (forall n, In n (names native_shape) -> In n order) ->
  NoDup (names native_shape) ->
  NoDup order ->
  Forall (fun d => is_integer (dim_size d) = true) shape_ ->
  exists a, NativeTensor_transposed_native C array native_shape shape_
              order order_is_tuple force_expand = Ok a.
Proof.
  intros Hall Hnd Hndo Hint. unfold NativeTensor_transposed_native.
  destruct (transposed_native_perm native_shape order) as (perm & Hperm & Hlen).
  destruct (@transposed_perm_is_permutation native_shape order perm Hnd Hndo Hall Hperm)
    as [Hp _].
  destruct (mapM_ok (fun dim => if has_dim dim shape_ && negb (has_dim dim native_shape)
                                then get_size shape_ dim else Ok (SizeInt 1))
              (fun _ m => is_integer m = true) order) as (multiples & Hmult & HF).
  { intros x _. destruct (has_dim x shape_) eqn:Hx; simpl.
    - destruct (negb (has_dim x native_shape)).
      + destruct (get_size_integer x Hint Hx) as [k ->]. eauto.
      + eauto.
    - eauto. }
  replace (forallb (fun n0 => mem_name n0 order) (names native_shape)) with true.
  2:{ symmetry. apply forallb_forall. intros x Hx. apply mem_name_In. auto. }
  cbn [py_assert bind].
  destruct (order_is_tuple && list_eqb String.eqb order (names native_shape)).
  - destruct (dtype_precision C array) as [p|]; [|eauto].
    destruct (Nat.eqb p (get_precision C)); eauto.
  - rewrite Hperm. cbn [bind]. unfold backend_transpose. rewrite Hp.
    destruct (negb (list_eqb Nat.eqb perm (range (List.length perm)))); cbn [bind];
      (destruct (Nat.eqb (List.length order) (List.length perm)); [eauto|]);
      (destruct force_expand; [|eauto]);
      rewrite Hmult; cbn [bind]; unfold backend_tile;
      (replace (forallb is_integer multiples) with true; [eauto|]);
      symmetry; apply forallb_forall; intros m Hm;
      destruct (Forall2_In_r m HF Hm) as (x & _ & Hx); exact Hx.
Qed.

(** C7, as the code has it.

    [NativeTensor._transposed_native] fails with an assertion error when a
    dimension of the backing array ([_native_shape]) is missing from the
    requested order.  A requested name that is absent from the backing
    array is no failure: for an order without repetitions that lists the
    dimensions of the backing array (whose names differ from each other),
    the axes handed to the backend are a permutation, the array is
    transposed by it ([as_tensor] when it is the identity), every requested
    name that the backing array lacks becomes a new axis ([None] in the
    index), and under [force_expand] the result is tiled: by the size that
    the shape of the tensor declares for a new axis that the shape has, and
    once for every other axis, so that an axis absent from the shape too
    stays a singleton.  The tiling fails with the [TypeError] of the
    backend when such a size is no integer.  Axes that are no permutation,
    which a repeated name gives, make the transposition fail with the
    [ValueError] of the backend.

    [Tensor.native] of a [NativeTensor] passes a string (parsed), a [Shape]
    (its names) or [None] (the names of the shape, asserting a rank of at
    most one) on to this method as a tuple.  A list or tuple goes to
    [reshaped_native]: an entry that parses to several names fails with an
    assertion error when the shape of the tensor lacks one of them; when
    every entry parses to at most one name, an entry whose name the shape
    lacks is renamed to [new] followed by its position, and the method is
    called with the resulting names as a list. *)
Theorem transposed_native_fails_on_missing_native_dim
    (array : Native) (native_shape shape_ : Shape)
    (order : list string) (order_is_tuple force_expand : bool) :
  let method := fun order order_is_tuple =>
    NativeTensor_transposed_native C array native_shape shape_
      order order_is_tuple force_expand in
  let result := method order order_is_tuple in
  let t := NativeTensor array native_shape shape_ in
  ((exists n, In n (names native_shape) /\ ~ In n order) ->
     exists msg, result = Raise (AssertionError msg)) /\
  ((forall n, In n (names native_shape) -> In n order) ->
   exists perm multiples,
     mapM (index native_shape) (only_reorder_names native_shape order) = Ok perm /\
     Forall2 (fun dim m =>
                if has_dim dim shape_ && negb (has_dim dim native_shape)
                then get_size shape_ dim = Ok m
                else m = SizeInt 1) order multiples /\
     (NoDup (names native_shape) -> NoDup order -> is_permutation perm = true) /\
     let transposed :=
       if list_eqb Nat.eqb perm (range (List.length perm))
       then NAsTensor array else NTranspose array perm in
     let expanded := NGetitem transposed (map (fun dim => has_dim dim native_shape) order) in
     (order_is_tuple && list_eqb String.eqb order (names native_shape) = false ->
      is_permutation perm = false ->
        result = Raise (ValueError "axes don't match array")) /\
     (is_permutation perm = true ->
      (forall n, In n order -> has_dim n native_shape = true) ->
        result = Ok transposed \/
        (order_is_tuple = true /\ order = names native_shape /\
         (result = Ok array \/ result = Ok (NCast array (get_precision C))))) /\
     (is_permutation perm = true ->
      forall new, In new order -> has_dim new native_shape = false ->
        (force_expand = false -> result = Ok expanded) /\
        (force_expand = true -> forallb is_integer multiples = true ->
           result = Ok (NTile expanded multiples)) /\
        (force_expand = true -> forallb is_integer multiples = false ->
           result = Raise TypeError))) /\
  (forall to_numpy,
     (forall o, native C t (OrderStr o) force_expand to_numpy
                = (a <- method (parse_dim_order C o) true ;; Ok (to_numpy_if to_numpy a))) /\
     (forall o, native C t (OrderShape o) force_expand to_numpy
                = (a <- method (names o) true ;; Ok (to_numpy_if to_numpy a))) /\
     (rank shape_ <= 1 ->
        native C t OrderNone force_expand to_numpy
        = (a <- method (names shape_) true ;; Ok (to_numpy_if to_numpy a))) /\
     (1 < rank shape_ ->
        exists msg, native C t OrderNone force_expand to_numpy
                    = Raise (AssertionError msg)) /\
     (is_sparse C t = false ->
      forall is_tuple groups,
        let parsed := map (parse_dim_order C) groups in
        ((exists g n, In g parsed /\ 1 < List.length g /\ In n g /\ has_dim n shape_ = false) ->
           exists msg, native C t (OrderSeq is_tuple groups) force_expand to_numpy
                       = Raise (AssertionError msg)) /\
        (Forall (fun g => List.length g <= 1) parsed ->
           native C t (OrderSeq is_tuple groups) force_expand to_numpy
           = (a <- method (group_names 0 (map (only_reorder_names shape_) parsed)) false ;;
              Ok (to_numpy_if to_numpy a))))).
Proof.
  intros method result t. subst method result t.
  split; [|split].
  - (* a dimension of the array is missing *)
    intros (n & Hn & Hno). unfold NativeTensor_transposed_native.
    replace (forallb (fun n0 => mem_name n0 order) (names native_shape)) with false.
    + simpl. eauto.
    + symmetry. apply not_true_is_false. intros H.
      rewrite forallb_forall in H. apply Hno. apply mem_name_In. auto.
  - (* every dimension of the array is requested *)
    intros Hall.
    destruct (transposed_native_perm native_shape order) as (perm & Hperm & Hlen).
    destruct (transposed_native_multiples native_shape shape_ order)
      as (multiples & Hmult & HF).
    exists perm, multiples.
    split; [exact Hperm|]. split; [exact HF|].
    split; [intros Hnd Hndo; exact (proj1 (@transposed_perm_is_permutation native_shape order perm Hnd Hndo Hall Hperm))|].
    assert (Hassert : forallb (fun n => mem_name n order) (names native_shape) = true).
    { apply forallb_forall. intros x Hx. apply mem_name_In. auto. }
    cbv zeta. unfold NativeTensor_transposed_native. rewrite Hassert.
    cbn [py_assert bind]. rewrite Hperm. cbn [bind].
    split; [|split].
    + intros -> Hnp.
      replace (list_eqb Nat.eqb perm (range (List.length perm))) with false.
      2:{ symmetry. apply not_true_is_false. intros E.
          apply list_eqb_eq in E; [|intros x y; apply Nat.eqb_eq].
          rewrite E, range_is_permutation in Hnp. discriminate. }
      cbn [negb]. unfold backend_transpose. rewrite Hnp. reflexivity.
    + intros Hp Hold.
      assert (Hfilter : only_reorder_names native_shape order = order).
      { unfold only_reorder_names. apply forallb_filter_id.
        apply forallb_forall. exact Hold. }
      rewrite Hfilter in Hlen. rewrite Hlen, Nat.eqb_refl.
      destruct (order_is_tuple && list_eqb String.eqb order (names native_shape)) eqn:E.
      * right. apply andb_true_iff in E. destruct E as [-> E].
        apply list_eqb_string_eq in E. repeat split; auto.
        destruct (dtype_precision C array) as [p|]; [|now left].
        destruct (Nat.eqb p (get_precision C)); [now left|now right].
      * left. unfold backend_transpose. rewrite Hp.
        destruct (list_eqb Nat.eqb perm (range (List.length order))); reflexivity.
    + intros Hp new Hin Hnew.
      assert (Hneq : list_eqb String.eqb order (names native_shape) = false).
      { apply not_true_is_false. intros H. apply list_eqb_string_eq in H.
        rewrite H in Hin. apply mem_name_In in Hin. unfold has_dim in Hnew. congruence. }
      rewrite Hneq, andb_false_r.
      assert (Hlt : List.length perm < List.length order).
      { rewrite Hlen. unfold only_reorder_names.
        eapply filter_length_lt; eauto. }
      replace (Nat.eqb (List.length order) (List.length perm)) with false.
      2:{ symmetry. apply Nat.eqb_neq. lia. }
      unfold backend_transpose. rewrite Hp.
      assert (Ht : (if negb (list_eqb Nat.eqb perm (range (List.length perm)))
                    then Ok (NTranspose array perm) else Ok (NAsTensor array))
                   = Ok (if list_eqb Nat.eqb perm (range (List.length perm))
                         then NAsTensor array else NTranspose array perm)).
      { destruct (list_eqb Nat.eqb perm (range (List.length perm))); reflexivity. }
      rewrite Ht. cbn [bind].
      repeat split.
      * intros ->. reflexivity.
      * intros -> Hint. rewrite Hmult. cbn [bind]. unfold backend_tile.
        now rewrite Hint.
      * intros -> Hint. rewrite Hmult. cbn [bind]. unfold backend_tile.
        now rewrite Hint.
  - (* [Tensor.native] *)
    intros to_numpy. split; [|split; [|split; [|split]]].
    + intros o. reflexivity.
    + intros o. reflexivity.
    + intros Hrank. unfold native, Tensor_native. cbn [shape bind].
      apply Nat.leb_le in Hrank. rewrite Hrank. reflexivity.
    + intros Hrank. unfold native, Tensor_native. cbn [shape bind].
      replace (Nat.leb (rank shape_) 1) with false.
      2:{ symmetry. apply Nat.leb_gt. exact Hrank. }
      cbn [py_assert bind]. eauto.
    + intros Hsparse is_tuple groups parsed.
      unfold native, Tensor_native, reshaped_native.
      cbn [is_Tensor _is_tracer negb py_assert bind]. rewrite Hsparse. cbn [bind shape].
      split.
      * intros (g & n & Hg & Hlen & Hn & Hno).
        subst parsed. apply in_map_iff in Hg. destruct Hg as (g0 & <- & Hg0).
        assert (Hfail : exists msg, process_group C shape_ g0 = Raise (AssertionError msg)).
        { unfold process_group.
          replace (Nat.ltb 1 (List.length (parse_dim_order C g0))) with true.
          2:{ symmetry. apply Nat.ltb_lt. exact Hlen. }
          replace (forallb (fun name => has_dim name shape_) (parse_dim_order C g0))
            with false.
          2:{ symmetry. apply not_true_is_false. intros H.
              rewrite forallb_forall in H. rewrite (H n Hn) in Hno. discriminate. }
          cbn [py_assert bind]. eauto. }
        destruct (@mapM_assertion_fails _ _ (process_group C shape_) groups g0
                    (fun y _ => process_group_outcome shape_ y) Hg0 Hfail)
          as (msg & ->).
        cbn [bind]. eauto.
      * intros Hsingle.
        assert (Hgroups : mapM (process_group C shape_) groups
                          = Ok (map (only_reorder_names shape_) parsed)).
        { subst parsed. rewrite map_map. apply mapM_pure. intros g Hg.
          unfold process_group.
          replace (Nat.ltb 1 (List.length (parse_dim_order C g))) with false;
            [reflexivity|].
          symmetry. apply Nat.ltb_ge.
          rewrite Forall_forall in Hsingle. apply Hsingle.
          apply in_map_iff. eauto. }
        rewrite Hgroups. cbn [bind].
        replace (forallb (fun g => Nat.leb (List.length g) 1)
                   (map (only_reorder_names shape_) parsed)) with true; [reflexivity|].
        symmetry. apply forallb_forall. intros g Hg.
        apply in_map_iff in Hg. destruct Hg as (g0 & <- & Hg0).
        apply Nat.leb_le. rewrite Forall_forall in Hsingle.
        specialize (Hsingle g0 Hg0). unfold only_reorder_names.
        pose proof (filter_length_le (fun n => has_dim n shape_) g0). lia.
Qed.

End TransposedNative.

(* ------------------------------------------------------------------------- *)
(** ** Dispatch of binary operations *)

Section Dispatch.
Variable C : Collaborators.
Variable op2_method : Obj -> Obj -> Operation -> Result Op2Result.


End Dispatch.

(* ------------------------------------------------------------------------- *)
(** ** [NativeTensor._op2] *)

Section NativeOp2.
Variable C : Collaborators.

Lemma _tensor_of_Tensor self other :
  is_Tensor other = true -> _tensor C self other = Ok other.
Proof. unfold _tensor. intros ->. reflexivity. Qed.

(** C4, as the code has it.  [NativeTensor._op2] converts the other operand
    with [_tensor].  It returns [NotImplemented] when no backend is found
    for the other operand and when the other operand is a [Tensor] of
    another class.  An operand that was no [Tensor] and whose conversion is
    no [NativeTensor] is not handed back: the conversion gives its array in
    the order of its own shape ([native(shape)], whose failure is the
    failure of [_op2]), the array is wrapped in a [NativeTensor] that has
    this shape as its native shape and as its shape, and [_op2] goes on as
    it does for this [NativeTensor]; the result is never
    [NotImplemented].  With two [NativeTensor]s the native shape of the
    result is the merge of the two native shapes and its shape the merge of
    the two shapes; an operand of rank above zero gives its array with
    [order=broadcast_shape, force_expand=False], an operand of rank zero
    with a plain [native()]; the kernel receives the arrays in the order
    self, other, reversed under [switch_args]; and [_op2] returns this
    result whenever the two merges, the two arrays and the kernel are
    there, and raises what the first of them raises otherwise. *)
Theorem NativeTensor_op2_both_native
    (self_native : Native) (native_shape shape_ : Shape) (other : Obj)
    (op : Operation) (switch_args : bool) :
  let self := NativeTensor self_native native_shape shape_ in
  let result := NativeTensor_op2 C self other op switch_args in
  (_tensor C self other = Raise NoBackendFound -> result = Ok NotImplemented) /\
  (is_Tensor other = true -> is_NativeTensor other = false -> result = Ok NotImplemented) /\
  (is_Tensor other = false ->
   forall converted, _tensor C self other = Ok converted ->
     is_NativeTensor converted = false ->
     result = (s <- shape converted ;;
               n <- native C converted (OrderShape s) true false ;;
               NativeTensor_op2 C self (NativeTensor n s s) op switch_args) /\
     result <> Ok NotImplemented) /\
  (forall o_native o_native_shape o_shape,
     _tensor C self other = Ok (NativeTensor o_native o_native_shape o_shape) ->
     forall r, result = Ok r ->
       exists broadcast_shape expanded native1 native2 result_tensor,
         and_shapes C native_shape o_native_shape = Ok broadcast_shape /\
         and_shapes C shape_ o_shape = Ok expanded /\
         broadcast_native C broadcast_shape self = Ok native1 /\
         broadcast_native C broadcast_shape (NativeTensor o_native o_native_shape o_shape)
           = Ok native2 /\
         (if switch_args
          then on_arrays (native_function op) native2 native1
          else on_arrays (native_function op) native1 native2) = Ok result_tensor /\
         r = Handled (NativeTensor result_tensor broadcast_shape expanded)) /\
  (forall broadcast_shape t n ns s, t = NativeTensor n ns s ->
     (0 < rank s ->
        broadcast_native C broadcast_shape t
        = NativeTensor_transposed_native C n ns s (names broadcast_shape) true false) /\
     (rank s = 0 ->
        broadcast_native C broadcast_shape t
        = NativeTensor_transposed_native C n ns s [] true true)) /\
  (forall o_native o_native_shape o_shape,
     _tensor C self other = Ok (NativeTensor o_native o_native_shape o_shape) ->
     result =
     (broadcast_shape <- and_shapes C native_shape o_native_shape ;;
      native1 <- broadcast_native C broadcast_shape self ;;
      native2 <- broadcast_native C broadcast_shape
                   (NativeTensor o_native o_native_shape o_shape) ;;
      result_tensor <-
        (if switch_args then on_arrays (native_function op) native2 native1
         else on_arrays (native_function op) native1 native2) ;;
      expanded <- and_shapes C shape_ o_shape ;;
      Ok (Handled (NativeTensor result_tensor broadcast_shape expanded)))).
Proof.
  intros self result. subst result. unfold NativeTensor_op2. simpl.
  split; [|split; [|split; [|split; [|split]]]].
  - intros ->. reflexivity.
  - intros Ht Hn. rewrite (_tensor_of_Tensor self other Ht).
    rewrite Hn, Ht. reflexivity.
  - intros Ht converted Hc Hn. rewrite Hc, Hn, Ht. simpl. split.
    { destruct (shape converted) as [s|e]; simpl; [|reflexivity].
      destruct (native C converted (OrderShape s) true false) as [n|e]; simpl;
        reflexivity. }
    destruct (shape converted) as [s|e]; simpl; [|discriminate].
    destruct (native C converted (OrderShape s) true false) as [n|e]; simpl; [|discriminate].
    destruct (and_shapes C native_shape s) as [bs|e]; simpl; [|discriminate].
    destruct (broadcast_native C bs self) as [n1|e]; simpl; [|discriminate].
    destruct (broadcast_native C bs (NativeTensor n s s)) as [n2|e]; simpl; [|discriminate].
    destruct (if switch_args then _ else _) as [rt|e]; simpl; [|discriminate].
    destruct (and_shapes C shape_ s) as [es|e]; simpl; discriminate.
  - intros o_native o_native_shape o_shape Hc r. rewrite Hc. simpl.
    replace (negb (is_Tensor other) || true) with true by (destruct (is_Tensor other); reflexivity).
    destruct (negb (negb (is_Tensor other))) eqn:Hneg;
      simpl;
      destruct (and_shapes C native_shape o_native_shape) as [bs|e] eqn:Hbs;
      simpl; try discriminate;
      destruct (broadcast_native C bs self) as [n1|e] eqn:Hn1; simpl; try discriminate;
      destruct (broadcast_native C bs (NativeTensor o_native o_native_shape o_shape))
        as [n2|e] eqn:Hn2; simpl; try discriminate;
      destruct (if switch_args then _ else _) as [rt|e] eqn:Hf; simpl; try discriminate;
      destruct (and_shapes C shape_ o_shape) as [es|e] eqn:Hes; simpl; try discriminate;
      intros H; inversion H; subst;
      exists bs, es, n1, n2, rt; repeat split; auto.
  - intros broadcast_shape t n ns s ->. unfold broadcast_native. simpl.
    split; intros Hr.
    + replace (Nat.ltb 0 (rank s)) with true by (symmetry; apply Nat.ltb_lt; exact Hr).
      unfold native, Tensor_native. simpl.
      destruct (NativeTensor_transposed_native C n ns s (names broadcast_shape) true false);
        reflexivity.
    + unfold rank in Hr. apply length_zero_iff_nil in Hr. subst s. simpl.
      destruct (NativeTensor_transposed_native C n ns [] [] true true); reflexivity.
  - intros o_native o_native_shape o_shape Hc. rewrite Hc. cbn [is_NativeTensor negb andb].
    reflexivity.
Qed.

End NativeOp2.

(* ------------------------------------------------------------------------- *)
(** ** [TensorStack._op2] *)

Section StackOp2.
Variable C : Collaborators.

(** What [TensorStack._op2] does on a stack that requires broadcasting:
    it pairs the components with the slices of the other operand by [zip]
    when the other operand has the stack dimension, and combines every
    component with the whole other operand when it has not. *)
Lemma TensorStack_op2_requires_broadcast
    (tensors : list Obj) (stack_dim : Shape) (varying : bool) (shape_ : Shape)
    (other other' : Obj) (other_shape : Shape) (op : Operation) :
  let self := TensorStack tensors stack_dim varying shape_ in
  _tensor C self other = Ok other' ->
  requires_broadcast C self = Ok true ->
  shape other' = Ok other_shape ->
  TensorStack_op2 C self other op =
    (components <-
       (if has_dim (single_name stack_dim) other_shape then
          other_slices <- _unstack C other' (single_name stack_dim) ;;
          mapM (fun p => operator op (fst p) (snd p)) (zip tensors other_slices)
        else mapM (fun t => operator op t other') tensors) ;;
     r <- TensorStack_init C components stack_dim ;;
     Ok (Handled r)).
Proof.
  intros self Ht Hrb Hs. unfold TensorStack_op2. subst self.
  rewrite Ht. cbn [bind]. rewrite Hrb. cbn [bind].
  rewrite Hs. reflexivity.
Qed.

End StackOp2.

(** C5, the code at a failing input.  A stack of two components that
    requires broadcasting is combined with a tensor that has the stack
    dimension [b] with size three.  [zip] drops the third slice: the
    operation succeeds with a stack of two components and no error about the
    sizes is raised. *)
Theorem TensorStack_op2_size_mismatch_not_rejected :
  TensorStack_init Reference.collaborators [Examples.t1; Examples.t2] Examples.b_dim
    = Ok Examples.ragged /\
  TensorStack_init Reference.collaborators [Examples.u1; Examples.u2; Examples.u3] Examples.b_dim
    = Ok Examples.three /\
  requires_broadcast Reference.collaborators Examples.ragged = Ok true /\
  (s <- shape Examples.ragged ;; get_size s "b") = Ok (SizeInt 2) /\
  (s <- shape Examples.three ;; get_size s "b") = Ok (SizeInt 3) /\
  TensorStack_op2 Reference.collaborators Examples.ragged Examples.three Examples.add
    = Ok (Handled
            (TensorStack
               [NativeTensor (NApply "add" (NArray 1) (NArray 3)) Examples.x2 Examples.x2;
                NativeTensor (NApply "add" (NArray 2) (NArray 4)) Examples.x3 Examples.x3]
               [Reference.dim "b" BATCH_DIM 2] true
               [Reference.dim "b" BATCH_DIM 2;
                mkDim "x" (Some SPATIAL_DIM) (SizeTensor 0) None])).
Proof. repeat split; vm_compute; reflexivity. Qed.

(* ------------------------------------------------------------------------- *)
(** ** Equality of tensors *)

Section EqualityProperties.
Variable C : Collaborators.

(** C9, as the code has it.  For a [NativeTensor] or a [TensorStack],
    [t == t] on the identical object is [expand(True, t.shape)] whatever
    [_EQUALITY_REDUCE] holds; no [_op2] and no [close] is reached.  A
    [Layout] has its own [__eq__]: it gives the same answer only while the
    active mode is not elementwise. *)
Theorem eq_identical_object (stack_ : EqualityStack) (t : Obj) :
  let all_true := s <- shape t ;;
                  r <- expand C (PyRaw (NNumber (PyBool true))) s ;;
                  Ok (Handled r) in
  (is_NativeTensor t = true \/ is_TensorStack t = true ->
     __eq__ C stack_ true t t = all_true) /\
  (is_Layout t = true ->
     forall frame, active_frame stack_ = Ok frame -> frame <> Elementwise ->
     __eq__ C stack_ true t t = all_true).
Proof.
  intros all_true. subst all_true. split.
  - intros [H|H]; destruct t; try discriminate; reflexivity.
  - intros H frame Hf Hne. destruct t; try discriminate.
    unfold __eq__, Layout___eq__. rewrite Hf. simpl.
    destruct frame; [congruence| |]; reflexivity.
Qed.

(** C10, as the code has it.  Under the elementwise mode, for a
    [NativeTensor] or a [TensorStack] [t] and another object whose shape is
    not compatible with the shape of [t], [t == other] is [wrap(False)] and
    [t != other] is [wrap(True)], and nothing is raised.  An operand [None]
    is replaced by NaN before anything else is done with it. *)
Theorem eq_incompatible_shape (stack_ : EqualityStack) (t other : Obj) (s other_shape : Shape) :
  is_NativeTensor t = true \/ is_TensorStack t = true ->
  active_frame stack_ = Ok Elementwise ->
  shape t = Ok s ->
  (shape_fn C other = Ok other_shape -> other <> PyNone ->
   is_compatible C s other_shape = false ->
     __eq__ C stack_ false t other = Ok (Handled (wrap_bool false)) /\
     __ne__ C stack_ false t other = Ok (Handled (wrap_bool true))) /\
  __eq__ C stack_ false t PyNone = __eq__ C stack_ false t nan /\
  __ne__ C stack_ false t PyNone = __ne__ C stack_ false t nan.
Proof.
  intros Ht Hf Hs.
  assert (Heq : forall o, __eq__ C stack_ false t o = Tensor___eq__ C stack_ false t o).
  { intros o. destruct Ht as [H|H]; destruct t; try discriminate; reflexivity. }
  assert (Hne : forall o, __ne__ C stack_ false t o = Tensor___ne__ C stack_ false t o).
  { intros o. destruct Ht as [H|H]; destruct t; try discriminate; reflexivity. }
  rewrite !Heq, !Hne. unfold Tensor___eq__, Tensor___ne__. rewrite Hf. simpl.
  split; [|split; reflexivity].
  intros Ho Hnone Hc. rewrite Hs. simpl.
  destruct other; try congruence; rewrite Ho; simpl; rewrite Hc; split; reflexivity.
Qed.

End EqualityProperties.

(* ------------------------------------------------------------------------- *)
(** ** Induction on Python objects *)

Section ObjInduction.
Variable P : Obj -> Prop.
Hypothesis HNone : P PyNone.
Hypothesis HStr : forall s, P (PyStr s).
Hypothesis HOpaque : forall id, P (PyOpaque id).
Hypothesis HRaw : forall n, P (PyRaw n).
Hypothesis HShapeDict : forall s, P (PyShapeDict s).
Hypothesis HList : forall items, Forall P items -> P (PyList items).
Hypothesis HTuple : forall items, Forall P items -> P (PyTuple items).
Hypothesis HDict : forall items, Forall (fun kv => P (snd kv)) items -> P (PyDict items).
Hypothesis HNode : forall cls dataclass attrs,
    Forall (fun kv => P (snd kv)) attrs -> P (PyNode cls dataclass attrs).
Hypothesis HNative : forall n native_shape s, P (NativeTensor n native_shape s).
Hypothesis HStack : forall tensors stack_dim varying s,
    Forall P tensors -> P (TensorStack tensors stack_dim varying s).
Hypothesis HLayout : forall o stack_dim s, P o -> P (Layout o stack_dim s).

Lemma Obj_nested_ind (o : Obj) : P o.
Proof.
  revert o. fix IH 1. intros [ | s | id | n | s | items | items | items
                             | cls dataclass attrs | n native_shape s
                             | tensors stack_dim varying s | o' stack_dim s ].
  - exact HNone.
  - apply HStr.
  - apply HOpaque.
  - apply HRaw.
  - apply HShapeDict.
  - apply HList. induction items as [|x rest IHrest]; constructor; [apply IH|exact IHrest].
  - apply HTuple. induction items as [|x rest IHrest]; constructor; [apply IH|exact IHrest].
  - apply HDict. induction items as [|x rest IHrest]; constructor; [apply IH|exact IHrest].
  - apply HNode. induction attrs as [|x rest IHrest]; constructor; [apply IH|exact IHrest].
  - apply HNative.
  - apply HStack. induction tensors as [|x rest IHrest]; constructor; [apply IH|exact IHrest].
  - apply HLayout. apply IH.
Qed.

End ObjInduction.

(* ------------------------------------------------------------------------- *)
(** ** Flattening and rebuilding *)

Section RoundTrip.
Variable C : Collaborators.
Variable attr_type : Obj -> list string.

Local Abbreviation D := (disassemble_tree C attr_type false).
Local Abbreviation A := (assemble_tree C attr_type).

Lemma disassemble_items_cons (f : Obj -> Result (Obj * list Obj)) x items :
  disassemble_items f (x :: items) =
  ('(key, value) <- f x ;;
   '(keys, values) <- disassemble_items f items ;;
   Ok (key :: keys, value ++ values)).
Proof. reflexivity. Qed.

Lemma assemble_list_cons f x items values :
  assemble_list f (x :: items) values =
  ('(y, values) <- f x values ;;
   '(ys, values) <- assemble_list f items values ;;
   Ok (y :: ys, values)).
Proof. reflexivity. Qed.

Lemma assemble_dict_cons f name x items values :
  assemble_dict f ((name, x) :: items) values =
  ('(y, values) <- f x values ;;
   '(ys, values) <- assemble_dict f items values ;;
   Ok ((name, y) :: ys, values)).
Proof. reflexivity. Qed.

Lemma disassemble_dict_cons f name x items :
  disassemble_dict f ((name, x) :: items) =
  ('(key, value) <- f x ;;
   '(keys, values) <- disassemble_dict f items ;;
   Ok ((name, key) :: keys, value ++ values)).
Proof. reflexivity. Qed.

Lemma A_list items values :
  A (PyList items) values =
  ('(xs, values) <- assemble_list A items values ;; Ok (PyList xs, values)).
Proof. reflexivity. Qed.

Lemma A_tuple items values :
  A (PyTuple items) values =
  ('(xs, values) <- assemble_list A items values ;; Ok (PyTuple xs, values)).
Proof. reflexivity. Qed.

Lemma A_dict items values :
  has_key "__layout__" items = false ->
  A (PyDict items) values =
  ('(xs, values) <- assemble_dict A items values ;; Ok (PyDict xs, values)).
Proof. intros H. simpl. rewrite H. reflexivity. Qed.

Lemma D_list items :
  D (PyList items) =
  ('(keys, values) <- disassemble_items D items ;; Ok (PyList keys, values)).
Proof. reflexivity. Qed.

Lemma D_tuple items :
  D (PyTuple items) =
  ('(keys, values) <- disassemble_items D items ;; Ok (PyTuple keys, values)).
Proof. reflexivity. Qed.

Lemma D_dict items :
  D (PyDict items) =
  ('(keys, values) <- disassemble_dict D items ;; Ok (PyDict keys, values)).
Proof. reflexivity. Qed.

Lemma supported_list items :
  supported C attr_type (PyList items) <-> Forall (supported C attr_type) items.
Proof.
  simpl. induction items as [|x items IH]; simpl.
  - split; auto.
  - rewrite IH. split.
    + intros [H1 H2]. constructor; auto.
    + intros H. inversion H; auto.
Qed.

Lemma supported_values (items : list (string * Obj)) :
  (fix all (l : list (string * Obj)) : Prop :=
     match l with
     | [] => True
     | kv :: rest => supported C attr_type (snd kv) /\ all rest
     end) items
  <-> Forall (fun kv => supported C attr_type (snd kv)) items.
Proof.
  induction items as [|x items IH]; simpl.
  - split; auto.
  - rewrite IH. split.
    + intros [H1 H2]. constructor; auto.
    + intros H. inversion H; auto.
Qed.

Lemma round_trips_items items :
  Forall (fun x => supported C attr_type x -> round_trips C attr_type x) items ->
  Forall (supported C attr_type) items ->
  exists keys vs,
    disassemble_items D items = Ok (keys, vs) /\
    forall rest, assemble_list A keys (vs ++ rest) = Ok (items, rest).
Proof.
  induction items as [|x items IH]; intros HP HS.
  - exists [], []. split; reflexivity.
  - inversion HP as [|? ? Hx HP']; subst. inversion HS as [|? ? Sx HS']; subst.
    destruct (Hx Sx) as (k & vs & HD & HA).
    destruct (IH HP' HS') as (keys & vss & HDs & HAs).
    exists (k :: keys), (vs ++ vss). split.
    + rewrite disassemble_items_cons, HD. cbn [bind]. rewrite HDs. reflexivity.
    + intros rest. rewrite assemble_list_cons, <- app_assoc, HA. cbn [bind].
      rewrite HAs. reflexivity.
Qed.

Lemma round_trips_dict items :
  Forall (fun kv => supported C attr_type (snd kv) -> round_trips C attr_type (snd kv)) items ->
  Forall (fun kv => supported C attr_type (snd kv)) items ->
  exists keys vs,
    disassemble_dict D items = Ok (keys, vs) /\
    map fst keys = map fst items /\
    forall rest, assemble_dict A keys (vs ++ rest) = Ok (items, rest).
Proof.
  induction items as [|[name x] items IH]; intros HP HS.
  - exists [], []. repeat split; reflexivity.
  - inversion HP as [|? ? Hx HP']; subst. inversion HS as [|? ? Sx HS']; subst.
    simpl in Hx, Sx.
    destruct (Hx Sx) as (k & vs & HD & HA).
    destruct (IH HP' HS') as (keys & vss & HDs & Hk & HAs).
    exists ((name, k) :: keys), (vs ++ vss). split; [|split].
    + rewrite disassemble_dict_cons, HD. cbn [bind]. rewrite HDs. reflexivity.
    + simpl. f_equal. exact Hk.
    + intros rest. rewrite assemble_dict_cons, <- app_assoc, HA. cbn [bind].
      rewrite HAs. reflexivity.
Qed.

Lemma has_key_names {A B : Type} (key : string) (l : list (string * A)) (l' : list (string * B)) :
  map fst l = map fst l' -> has_key key l = has_key key l'.
Proof.
  revert l'. unfold has_key.
  induction l as [|[k v] l IH]; destruct l' as [|[k' v'] l']; simpl; try discriminate; auto.
  intros H. inversion H; subst.
  destruct (String.eqb k' key); auto.
Qed.

Lemma lookup_map_values {X Y : Type} (f : X -> Y) a (l : list (string * X)) :
  lookup a (map (fun kv => (fst kv, f (snd kv))) l) = option_map f (lookup a l).
Proof.
  induction l as [|[k v] l IH]; simpl; [reflexivity|].
  destruct (String.eqb k a); auto.
Qed.

Lemma lookup_None {X : Type} a (l : list (string * X)) :
  lookup a l = None <-> ~ In a (map fst l).
Proof.
  induction l as [|[k v] l IH]; simpl.
  - tauto.
  - destruct (String.eqb k a) eqn:E.
    + apply String.eqb_eq in E. split; [discriminate|]. intros H. exfalso. auto.
    + apply String.eqb_neq in E. rewrite IH. tauto.
Qed.

Lemma lookup_In {X : Type} a (v : X) (l : list (string * X)) :
  lookup a l = Some v -> In (a, v) l.
Proof.
  induction l as [|[k w] l IH]; simpl; [discriminate|].
  destruct (String.eqb k a) eqn:E.
  - apply String.eqb_eq in E. intros H. inversion H; subst. auto.
  - auto.
Qed.

Lemma lookup_NoDup {X : Type} a (v : X) (l : list (string * X)) :
  NoDup (map fst l) -> In (a, v) l -> lookup a l = Some v.
Proof.
  induction l as [|[k w] l IH]; simpl; [tauto|].
  intros Hnd [Hin|Hin].
  - inversion Hin; subst. now rewrite String.eqb_refl.
  - inversion Hnd as [|? ? Hk Hnd']; subst.
    destruct (String.eqb k a) eqn:E.
    + apply String.eqb_eq in E. subst. exfalso. apply Hk.
      change a with (fst (a, v)). now apply in_map.
    + auto.
Qed.

Lemma has_key_lookup {X : Type} a (l : list (string * X)) :
  has_key a l = true -> exists v, lookup a l = Some v.
Proof. unfold has_key. destruct (lookup a l); [eauto|discriminate]. Qed.

Lemma has_key_false {X : Type} a (l : list (string * X)) :
  ~ In a (map fst l) -> has_key a l = false.
Proof. intros H. apply lookup_None in H. unfold has_key. now rewrite H. Qed.

Lemma copy_with_names attrs updates : map fst (copy_with attrs updates) = map fst attrs.
Proof.
  unfold copy_with. rewrite map_map. apply map_ext.
  intros [k v]. simpl. destruct (lookup k updates); reflexivity.
Qed.

Lemma lookup_copy_with a k attrs keys :
  has_key a attrs = true -> lookup a keys = Some k ->
  lookup a (copy_with attrs keys) = Some k.
Proof.
  unfold has_key. induction attrs as [|[n v] attrs IH]; simpl; [discriminate|].
  intros H Hk. destruct (String.eqb n a) eqn:E.
  - apply String.eqb_eq in E. subst. rewrite Hk. simpl. now rewrite String.eqb_refl.
  - destruct (lookup n keys); simpl; rewrite E; auto.
Qed.

Lemma copy_with_restores attrs keys updates :
  NoDup (map fst attrs) ->
  map fst keys = map fst updates ->
  (forall a, In a (map fst updates) -> lookup a updates = lookup a attrs) ->
  copy_with (copy_with attrs keys) updates = attrs.
Proof.
  intros Hnd Hnames Hup. unfold copy_with. rewrite map_map.
  rewrite <- (map_id attrs) at 2. apply map_ext_in.
  intros [n v] Hin. simpl.
  assert (Hl : lookup n attrs = Some v) by (apply lookup_NoDup; auto).
  destruct (lookup n keys) as [k|] eqn:Ek; simpl.
  - assert (Hn : In n (map fst updates)).
    { rewrite <- Hnames. change n with (fst (n, k)). apply in_map.
      now apply lookup_In. }
    rewrite (Hup n Hn), Hl. reflexivity.
  - assert (Hn : ~ In n (map fst updates)).
    { rewrite <- Hnames. now apply lookup_None. }
    apply lookup_None in Hn. rewrite Hn. reflexivity.
Qed.

Lemma round_trips_attributes (attrs : list (string * Obj)) (declared : list string) :
  Forall (fun kv => supported C attr_type (snd kv) -> round_trips C attr_type (snd kv)) attrs ->
  Forall (fun kv => supported C attr_type (snd kv)) attrs ->
  NoDup declared ->
  (forall a, In a declared -> has_key a attrs = true) ->
  exists keys vs,
    disassemble_attributes (map (fun kv => (fst kv, D (snd kv))) attrs) declared
      = Ok (keys, vs) /\
    map fst keys = declared /\
    forall attrs_k,
      (forall a, In a declared -> lookup a attrs_k = lookup a keys) ->
      forall rest,
      exists updates,
        assemble_attributes (map (fun kv => (fst kv, A (snd kv))) attrs_k) declared
          (vs ++ rest) = Ok (updates, rest) /\
        map fst updates = declared /\
        (forall a, In a declared -> lookup a updates = lookup a attrs).
Proof.
  intros HP HS. induction declared as [|a declared IH]; intros Hnd Hhas.
  - exists [], []. repeat split; try reflexivity.
    intros attrs_k _ rest. exists []. simpl. repeat split; tauto.
  - inversion Hnd as [|? ? Ha Hnd']; subst.
    destruct (has_key_lookup a attrs (Hhas a (or_introl eq_refl))) as [v Hv].
    pose proof (lookup_In _ _ Hv) as Hin.
    rewrite Forall_forall in HP, HS.
    destruct (HP _ Hin (HS _ Hin)) as (k & vsa & HD & HA). simpl in HD, HA.
    destruct IH as (keys & vs & HDs & Hk & HAs); [assumption|intros; apply Hhas; now right|].
    assert (Hnk : has_key a keys = false) by (apply has_key_false; now rewrite Hk).
    exists ((a, k) :: keys), (vsa ++ vs). split; [|split].
    + simpl. rewrite lookup_map_values, Hv. simpl. rewrite HD. cbn [bind].
      rewrite HDs. cbn [bind]. unfold dict_entry. rewrite Hnk. reflexivity.
    + simpl. now rewrite Hk.
    + intros attrs_k Hlk rest.
      destruct (HAs attrs_k) with (rest := rest) as (updates & HU & Hun & Hul).
      { intros a' Ha'. rewrite Hlk by now right. simpl.
        destruct (String.eqb a a') eqn:E; [|reflexivity].
        apply String.eqb_eq in E. subst. contradiction. }
      assert (Hnu : has_key a updates = false) by (apply has_key_false; now rewrite Hun).
      exists ((a, v) :: updates). split; [|split].
      * simpl. rewrite lookup_map_values.
        rewrite (Hlk a (or_introl eq_refl)). simpl. rewrite String.eqb_refl. simpl.
        rewrite <- app_assoc, HA. cbn [bind]. rewrite HU. cbn [bind].
        unfold dict_entry. rewrite Hnu. reflexivity.
      * simpl. now rewrite Hun.
      * intros a' [->|Ha'].
        -- simpl. rewrite String.eqb_refl. now rewrite Hv.
        -- simpl. destruct (String.eqb a a') eqn:E.
           ++ apply String.eqb_eq in E. subst. contradiction.
           ++ now apply Hul.
Qed.

Lemma round_trips_supported (x : Obj) : supported C attr_type x -> round_trips C attr_type x.
Proof.
  induction x using Obj_nested_ind; intros HS.
  - exists (PyStr MISSING_TENSOR), []. split; reflexivity.
  - destruct HS as [H1 H2]. exists (PyStr s), []. split; [reflexivity|].
    intros rest. simpl.
    apply String.eqb_neq in H1, H2. rewrite H1, H2. reflexivity.
  - exists (PyOpaque id), []. split; reflexivity.
  - eexists (PyStr NATIVE_TENSOR), [_]. split; [reflexivity|].
    intros rest. simpl in *.
    replace (Shape_eqb (default_dims 0 (staticshape C n)) EMPTY_SHAPE)
      with (Nat.eqb (List.length (staticshape C n)) 0)
      by (destruct (staticshape C n); reflexivity).
    rewrite HS. reflexivity.
  - exists (PyShapeDict s), []. split; reflexivity.
  - apply supported_list in HS.
    destruct (round_trips_items H HS) as (keys & vs & HD & HA).
    exists (PyList keys), vs. split.
    + rewrite D_list, HD. reflexivity.
    + intros rest. rewrite A_list, HA. reflexivity.
  - apply supported_list in HS.
    destruct (round_trips_items H HS) as (keys & vs & HD & HA).
    exists (PyTuple keys), vs. split.
    + rewrite D_tuple, HD. reflexivity.
    + intros rest. rewrite A_tuple, HA. reflexivity.
  - destruct HS as [Hlayout HS]. apply supported_values in HS.
    destruct (round_trips_dict H HS) as (keys & vs & HD & Hk & HA).
    exists (PyDict keys), vs. split.
    + rewrite D_dict, HD. reflexivity.
    + intros rest. rewrite A_dict, HA; [reflexivity|].
      rewrite (has_key_names "__layout__" keys items Hk). exact Hlayout.
  - destruct HS as (Hnd & Hdecl & Hhas & Hstable & HS). apply supported_values in HS.
    destruct (round_trips_attributes H HS Hdecl Hhas) as (keys & vs & HD & Hk & HA).
    exists (PyNode cls dataclass (copy_with attrs keys)), vs. split.
    + simpl. simpl in HD. rewrite HD. reflexivity.
    + intros rest.
      destruct (HA (copy_with attrs keys)) with (rest := rest) as (updates & HU & Hun & Hul).
      { intros a Ha. destruct (lookup a keys) as [k|] eqn:Ek.
        - apply lookup_copy_with; auto.
        - exfalso. apply lookup_None in Ek. rewrite Hk in Ek. contradiction. }
      simpl. rewrite (Hstable _ (copy_with_names attrs keys)).
      simpl in HU. rewrite HU. cbn [bind].
      rewrite copy_with_restores; auto.
      * congruence.
      * intros a Ha. apply Hul. now rewrite <- Hun.
  - eexists PyNone, [_]. split; reflexivity.
  - eexists PyNone, [_]. split; reflexivity.
  - destruct HS as (HS & Hsd & Hshape).
    destruct (IHx HS) as (k & vs & HD & HA).
    eexists _, vs. split.
    + simpl. rewrite HD. reflexivity.
    + intros rest. simpl. rewrite HA. cbn [bind]. rewrite Hsd.
      unfold Layout_init. rewrite Hshape. reflexivity.
Qed.

(** *** Trees of the same structure *)

Section Alike.
Variable R : Obj -> Obj -> Prop.

Local Abbreviation same := (same_structure C attr_type R).

(** The flattening of [x] carries over to every tree of the same
    structure: the same skeleton, and leaves that are related one by
    one. *)
Local Abbreviation carries_over x :=
  (forall y, same x y ->
   forall k vs, D x = Ok (k, vs) ->
   exists vs', D y = Ok (k, vs') /\ Forall2 R vs vs').

Lemma carries_over_items items :
  Forall (fun x => carries_over x) items ->
  forall items', same (PyList items) (PyList items') ->
  forall keys vs, disassemble_items D items = Ok (keys, vs) ->
  exists vs', disassemble_items D items' = Ok (keys, vs') /\ Forall2 R vs vs'.
Proof.
  induction 1 as [|x items Hx _ IH]; intros [|y items'] HS keys vs HD;
    try contradiction.
  - inversion HD; subst. exists []. split; [reflexivity|constructor].
  - destruct HS as [Hxy HS].
    rewrite disassemble_items_cons in HD.
    destruct (D x) as [[k v]|e] eqn:Ex; cbn [bind] in HD; [|discriminate].
    destruct (disassemble_items D items) as [[ks vs0]|e] eqn:Es; cbn [bind] in HD;
      [|discriminate].
    inversion HD; subst. clear HD.
    destruct (Hx y Hxy k v eq_refl) as (v' & Hy & Hv).
    destruct (IH items' HS ks vs0 eq_refl) as (vs' & Hys & Hvs).
    exists (v' ++ vs'). split.
    + rewrite disassemble_items_cons, Hy. cbn [bind]. rewrite Hys. reflexivity.
    + now apply Forall2_app.
Qed.

Lemma carries_over_dict items :
  Forall (fun kv => carries_over (snd kv)) items ->
  forall items', same (PyDict items) (PyDict items') ->
  forall keys vs, disassemble_dict D items = Ok (keys, vs) ->
  exists vs', disassemble_dict D items' = Ok (keys, vs') /\ Forall2 R vs vs'.
Proof.
  induction 1 as [|[n x] items Hx _ IH]; intros [|[n' y] items'] HS keys vs HD;
    try contradiction.
  - inversion HD; subst. exists []. split; [reflexivity|constructor].
  - destruct HS as (Hn & Hxy & HS). cbn [fst snd] in Hn, Hxy, Hx. subst n'.
    rewrite disassemble_dict_cons in HD.
    destruct (D x) as [[k v]|e] eqn:Ex; cbn [bind] in HD; [|discriminate].
    destruct (disassemble_dict D items) as [[ks vs0]|e] eqn:Es; cbn [bind] in HD;
      [|discriminate].
    inversion HD; subst. clear HD.
    destruct (Hx y Hxy k v eq_refl) as (v' & Hy & Hv).
    destruct (IH items' HS ks vs0 eq_refl) as (vs' & Hys & Hvs).
    exists (v' ++ vs'). split.
    + rewrite disassemble_dict_cons, Hy. cbn [bind]. rewrite Hys. reflexivity.
    + now apply Forall2_app.
Qed.

(** The attributes of two objects of the same structure, one by one:
    the same name, and values of which the declared ones flatten alike
    and the others are equal. *)
Local Abbreviation attribute_alike declared :=
  (fun a b : string * Obj =>
     fst a = fst b /\
     if mem_name (fst a) declared
     then forall k vs, D (snd a) = Ok (k, vs) ->
            exists vs', D (snd b) = Ok (k, vs') /\ Forall2 R vs vs'
     else snd a = snd b).

Lemma same_attributes declared attrs :
  Forall (fun kv => carries_over (snd kv)) attrs ->
  forall attrs',
  (fix all (l l' : list (string * Obj)) {struct l} : Prop :=
     match l, l' with
     | [], [] => True
     | a :: rest, b :: rest' =>
         fst a = fst b /\
         (if mem_name (fst a) declared
          then same (snd a) (snd b)
          else snd a = snd b) /\
         all rest rest'
     | _, _ => False
     end) attrs attrs' ->
  Forall2 (attribute_alike declared) attrs attrs'.
Proof.
  induction 1 as [|a attrs Ha _ IH]; intros [|b attrs'] HS; try contradiction.
  - constructor.
  - destruct HS as (Hn & Hab & HS). constructor; [|now apply IH].
    split; [exact Hn|].
    destruct (mem_name (fst a) declared); [|exact Hab].
    now apply Ha.
Qed.

Lemma lookup_attribute_alike declared attrs attrs' a part :
  Forall2 (attribute_alike declared) attrs attrs' ->
  mem_name a declared = true ->
  lookup a (map (fun kv => (fst kv, D (snd kv))) attrs) = Some part ->
  exists part',
    lookup a (map (fun kv => (fst kv, D (snd kv))) attrs') = Some part' /\
    forall k vs, part = Ok (k, vs) ->
      exists vs', part' = Ok (k, vs') /\ Forall2 R vs vs'.
Proof.
  intros HF Ha. induction HF as [|[n v] [n' v'] attrs attrs' [Hn Hv] _ IH];
    cbn [map lookup fst snd]; [discriminate|].
  cbn [fst snd] in Hn, Hv. subst n'.
  destruct (String.eqb n a) eqn:E.
  - apply String.eqb_eq in E. subst n. rewrite Ha in Hv.
    intros H. inversion H; subst. eauto.
  - exact IH.
Qed.

Lemma has_key_dict_entry a b key (keys : list (string * Obj)) :
  has_key a (dict_entry b key keys) = (String.eqb b a || has_key a keys)%bool.
Proof.
  unfold dict_entry. destruct (has_key b keys) eqn:Hb.
  - destruct (String.eqb b a) eqn:E; [|reflexivity].
    apply String.eqb_eq in E. subst. now rewrite Hb.
  - unfold has_key. cbn [lookup]. destruct (String.eqb b a); reflexivity.
Qed.

Lemma disassemble_attributes_keys parts attributes keys vs :
  disassemble_attributes parts attributes = Ok (keys, vs) ->
  forall a, In a attributes -> has_key a keys = true.
Proof.
  revert keys vs. induction attributes as [|b attributes IH]; intros keys vs H a Ha;
    [contradiction|].
  cbn [disassemble_attributes] in H.
  destruct (lookup b parts) as [part|]; [|discriminate].
  destruct part as [[k v]|e]; cbn [bind] in H; [|discriminate].
  destruct (disassemble_attributes parts attributes) as [[ks vs0]|e];
    cbn [bind] in H; [|discriminate].
  inversion H; subst. rewrite has_key_dict_entry.
  destruct Ha as [->|Ha].
  - now rewrite String.eqb_refl.
  - rewrite (IH ks vs0 eq_refl a Ha). apply orb_true_r.
Qed.

Lemma carries_over_attributes declared attrs attrs' attributes :
  Forall2 (attribute_alike declared) attrs attrs' ->
  (forall a, In a attributes -> mem_name a declared = true) ->
  forall keys vs,
    disassemble_attributes (map (fun kv => (fst kv, D (snd kv))) attrs) attributes
      = Ok (keys, vs) ->
    exists vs',
      disassemble_attributes (map (fun kv => (fst kv, D (snd kv))) attrs') attributes
        = Ok (keys, vs') /\
      Forall2 R vs vs'.
Proof.
  intros HF. induction attributes as [|a attributes IH]; intros Hdecl keys vs H.
  - inversion H; subst. exists []. split; [reflexivity|constructor].
  - cbn [disassemble_attributes] in H.
    destruct (lookup a (map (fun kv => (fst kv, D (snd kv))) attrs)) as [part|] eqn:El;
      [|discriminate].
    destruct (@lookup_attribute_alike declared attrs attrs' a part HF
                (Hdecl a (or_introl eq_refl)) El)
      as (part' & El' & Hpart).
    destruct part as [[k v]|e]; cbn [bind] in H; [|discriminate].
    destruct (disassemble_attributes (map (fun kv => (fst kv, D (snd kv))) attrs)
                attributes) as [[ks vs0]|e] eqn:Es; cbn [bind] in H; [|discriminate].
    inversion H; subst. clear H.
    destruct (Hpart k v eq_refl) as (v' & -> & Hv).
    destruct (IH (fun a' Ha' => Hdecl a' (or_intror Ha')) ks vs0 eq_refl)
      as (vs' & Hs' & Hvs).
    exists (v' ++ vs'). split.
    + cbn [disassemble_attributes]. rewrite El'. cbn [bind]. rewrite Hs'. reflexivity.
    + now apply Forall2_app.
Qed.

Lemma copy_with_alike declared attrs attrs' keys :
  Forall2 (attribute_alike declared) attrs attrs' ->
  (forall a, mem_name a declared = true -> has_key a keys = true) ->
  copy_with attrs keys = copy_with attrs' keys.
Proof.
  intros HF Hkeys. unfold copy_with.
  induction HF as [|[n v] [n' v'] attrs attrs' [Hn Hv] _ IH]; [reflexivity|].
  cbn [map fst snd] in *. subst n'. rewrite IH. f_equal.
  destruct (lookup n keys) as [k|] eqn:El; [reflexivity|].
  destruct (mem_name n declared) eqn:Em.
  - specialize (Hkeys n Em). unfold has_key in Hkeys. rewrite El in Hkeys.
    discriminate.
  - now subst.
Qed.

Lemma same_structure_carries_over (x : Obj) : carries_over x.
Proof.
  induction x using Obj_nested_ind; intros y HS k vs HD.
  - destruct y; try contradiction. inversion HD; subst.
    exists []. split; [reflexivity|constructor].
  - destruct y; try contradiction. cbn [same_structure] in HS. subst.
    inversion HD; subst. exists []. split; [reflexivity|constructor].
  - destruct y; try contradiction. cbn [same_structure] in HS. subst.
    inversion HD; subst. exists []. split; [reflexivity|constructor].
  - destruct y; try contradiction. cbn [same_structure] in HS.
    inversion HD; subst. eexists [_]. split; [reflexivity|].
    constructor; [exact HS|constructor].
  - destruct y; try contradiction. cbn [same_structure] in HS. subst.
    inversion HD; subst. exists []. split; [reflexivity|constructor].
  - destruct y as [ | | | | |items'| | | | | | ]; try contradiction.
    rewrite D_list in HD.
    destruct (disassemble_items D items) as [[ks vs0]|e] eqn:Es; cbn [bind] in HD;
      [|discriminate].
    inversion HD; subst.
    destruct (@carries_over_items items H items' HS _ _ Es) as (vs' & Hs' & Hvs).
    exists vs'. split; [|exact Hvs]. rewrite D_list, Hs'. reflexivity.
  - destruct y as [ | | | | | |items'| | | | | ]; try contradiction.
    rewrite D_tuple in HD.
    destruct (disassemble_items D items) as [[ks vs0]|e] eqn:Es; cbn [bind] in HD;
      [|discriminate].
    inversion HD; subst.
    destruct (@carries_over_items items H items' HS _ _ Es) as (vs' & Hs' & Hvs).
    exists vs'. split; [|exact Hvs]. rewrite D_tuple, Hs'. reflexivity.
  - destruct y as [ | | | | | | |items'| | | | ]; try contradiction.
    rewrite D_dict in HD.
    destruct (disassemble_dict D items) as [[ks vs0]|e] eqn:Es; cbn [bind] in HD;
      [|discriminate].
    inversion HD; subst.
    destruct (@carries_over_dict items H items' HS _ _ Es) as (vs' & Hs' & Hvs).
    exists vs'. split; [|exact Hvs]. rewrite D_dict, Hs'. reflexivity.
  - destruct y as [ | | | | | | | |cls' dataclass' attrs'| | | ]; try contradiction.
    cbn [same_structure] in HS. destruct HS as (<- & <- & Hattr & HS).
    apply (@same_attributes (attr_type (PyNode cls dataclass attrs)) attrs H) in HS.
    cbn [disassemble_tree] in HD.
    destruct (disassemble_attributes
                (map (fun kv => (fst kv, D (snd kv))) attrs)
                (attr_type (PyNode cls dataclass attrs)))
      as [[keys vs0]|e] eqn:Es; cbn [bind] in HD; [|discriminate].
    inversion HD; subst. clear HD.
    assert (Hdecl : forall a, In a (attr_type (PyNode cls dataclass attrs)) ->
                              mem_name a (attr_type (PyNode cls dataclass attrs)) = true)
      by (intros a Ha; now apply mem_name_In).
    destruct (@carries_over_attributes _ attrs attrs' _ HS Hdecl _ _ Es)
      as (vs' & Hs' & Hvs).
    exists vs'. split; [|exact Hvs].
    cbn [disassemble_tree]. rewrite <- Hattr, Hs'. cbn [bind].
    rewrite (@copy_with_alike _ attrs attrs' _ HS); [reflexivity|].
    intros a Ha. apply (@disassemble_attributes_keys _ _ _ _ Es). now apply mem_name_In.
  - cbn [same_structure] in HS. destruct HS as [Hy HR].
    inversion HD; subst.
    destruct y; try discriminate Hy;
      (eexists [_]; split; [reflexivity|constructor; [exact HR|constructor]]).
  - cbn [same_structure] in HS. destruct HS as [Hy HR].
    inversion HD; subst.
    destruct y; try discriminate Hy;
      (eexists [_]; split; [reflexivity|constructor; [exact HR|constructor]]).
  - destruct y as [ | | | | | | | | | | |o' stack_dim' s']; try contradiction.
    cbn [same_structure] in HS. destruct HS as [<- HS].
    cbn [disassemble_tree] in HD.
    destruct (D x) as [[keys vs0]|e] eqn:Ex; cbn [bind] in HD; [|discriminate].
    inversion HD; subst.
    destruct (IHx o' HS _ _ eq_refl) as (vs' & Ho' & Hvs).
    exists vs'. split; [|exact Hvs].
    cbn [disassemble_tree]. rewrite Ho'. reflexivity.
Qed.

End Alike.


End RoundTrip.

(* ------------------------------------------------------------------------- *)
(** ** Caching *)

Lemma Dim_eqb_refl d : Dim_eqb d d = true.
Proof.
  unfold Dim_eqb. rewrite String.eqb_refl. simpl.
  assert (H1 : option_eqb DimType_eqb (dim_type d) (dim_type d) = true).
  { destruct (dim_type d) as [[]|]; reflexivity. }
  assert (H2 : Size_eqb (dim_size d) (dim_size d) = true).
  { destruct (dim_size d); simpl; auto using Nat.eqb_refl. }
  assert (H3 : option_eqb (list_eqb String.eqb) (dim_item_names d) (dim_item_names d) = true).
  { destruct (dim_item_names d); simpl; [|reflexivity].
    apply list_eqb_refl, String.eqb_refl. }
  now rewrite H1, H2, H3.
Qed.

Lemma Shape_eqb_refl s : Shape_eqb s s = true.
Proof. apply list_eqb_refl, Dim_eqb_refl. Qed.

Lemma _is_tracer_false t : _is_tracer t = false.
Proof.
  induction t using Obj_nested_ind; try reflexivity.
  simpl. induction H as [|x l Hx Hl IH]; simpl; [reflexivity|].
  now rewrite Hx, IH.
Qed.

Lemma with_sizes_idempotent stack_dim n :
  with_sizes (with_sizes stack_dim [n]) [n] = with_sizes stack_dim [n].
Proof. destruct stack_dim as [|d [|d' rest]]; reflexivity. Qed.

Lemma check_components_name sd1 sd2 components :
  single_name sd1 = single_name sd2 ->
  check_components sd1 components = check_components sd2 components.
Proof.
  intros H. induction components as [|t rest IH]; simpl; [reflexivity|].
  rewrite H, IH. reflexivity.
Qed.

Section Caching.
Variable C : Collaborators.

Lemma TensorStack_init_eq components stack_dim :
  TensorStack_init C components stack_dim =
  (_ <- py_assert (Nat.eqb (rank stack_dim) 1)
          "stack_dim must be a single-dimension Shape object" ;;
   _ <- check_components stack_dim components ;;
   shapes <- mapM shape components ;;
   varying <- varying_of C shapes ;;
   s <- shape_stack C (with_sizes stack_dim [List.length components]) shapes ;;
   Ok (TensorStack components (with_sizes stack_dim [List.length components]) varying s)).
Proof. reflexivity. Qed.

Lemma TensorStack_init_inv components stack_dim t :
  TensorStack_init C components stack_dim = Ok t ->
  rank stack_dim = 1 /\
  check_components stack_dim components = Ok tt /\
  exists shapes varying s,
    mapM shape components = Ok shapes /\
    varying_of C shapes = Ok varying /\
    shape_stack C (with_sizes stack_dim [List.length components]) shapes = Ok s /\
    t = TensorStack components (with_sizes stack_dim [List.length components]) varying s.
Proof.
  rewrite TensorStack_init_eq.
  destruct (Nat.eqb (rank stack_dim) 1) eqn:Hr; simpl; [|discriminate].
  apply Nat.eqb_eq in Hr.
  destruct (check_components stack_dim components) as [[]|e]; simpl; [|discriminate].
  destruct (mapM shape components) as [shapes|e]; simpl; [|discriminate].
  destruct (varying_of C shapes) as [v|e] eqn:Hv; simpl; [|discriminate].
  destruct (shape_stack C _ shapes) as [s|e] eqn:Hs; simpl; [|discriminate].
  intros H. inversion H; subst. repeat split; auto. exists shapes, v, s. auto.
Qed.

(** Building a stack again from its own stack dimension and from components
    of the same shapes gives the same fields. *)
Lemma TensorStack_init_again components stack_dim0 stack_dim varying s components' :
  TensorStack_init C components stack_dim0 = Ok (TensorStack components stack_dim varying s) ->
  Forall2 (fun x y => is_Tensor y = true /\ shape y = shape x) components components' ->
  TensorStack_init C components' stack_dim = Ok (TensorStack components' stack_dim varying s).
Proof.
  intros H HF. apply TensorStack_init_inv in H
    as (Hr & Hc & shapes & v & s' & Hshapes & Hv & Hs & Heq).
  inversion Heq; subst. clear Heq.
  assert (Hlen : List.length components' = List.length components).
  { symmetry. eapply Forall2_length_eq; eauto. }
  assert (Hshapes' : mapM shape components' = Ok shapes).
  { rewrite <- Hshapes. clear -HF. induction HF as [|x y l l' [_ Hxy] _ IH].
    - reflexivity.
    - simpl. rewrite Hxy, IH. reflexivity. }
  assert (Hcheck : check_components stack_dim0 components' = Ok tt).
  { revert Hc. clear -HF. induction HF as [|x y l l' [Hy Hxy] _ IH]; simpl; intros Hc.
    - reflexivity.
    - rewrite Hy, Hxy. simpl.
      destruct (is_Tensor x); simpl in Hc; [|discriminate].
      destruct (shape x); simpl in *; [|discriminate].
      destruct (has_dim (single_name stack_dim0) a); simpl in *; [discriminate|].
      auto. }
  destruct (with_sizes_single stack_dim0 (List.length components) Hr) as (_ & Hname & Hrank).
  rewrite TensorStack_init_eq.
  rewrite Hrank. simpl.
  rewrite (check_components_name _ stack_dim0 components' Hname), Hcheck. simpl.
  rewrite Hshapes'. simpl. rewrite Hv. simpl.
  rewrite Hlen, with_sizes_idempotent, Hs. reflexivity.
Qed.

End Caching.

Lemma mapM_fixed {A : Type} (f : A -> Result A) (l : list A) :
  Forall (fun x => f x = Ok x) l -> mapM f l = Ok l.
Proof.
  induction 1 as [|x l Hx _ IH]; simpl; [reflexivity|].
  rewrite Hx, IH. reflexivity.
Qed.

(** One step through a sequence of calls that may raise. *)
Ltac bind_step :=
  match goal with
  | |- bind ?e _ = _ -> _ =>
      let H := fresh "Hstep" in
      destruct e eqn:H; cbn [bind]; [|discriminate]
  end.

Section CachedStack.
Variable C : Collaborators.

Local Abbreviation dis := (disassemble_tree C (variable_attributes C) true).
Local Abbreviation asm := (assemble_tree C (variable_attributes C)).

Lemma dense_variant_is_Tensor x : dense_variant x -> is_Tensor x = true.
Proof. intros [H|H]; destruct x; try discriminate; reflexivity. Qed.

Lemma dense_variant_is_PhiTreeNode x : dense_variant x -> is_PhiTreeNode x = true.
Proof. intros [H|H]; destruct x; try discriminate; reflexivity. Qed.

Lemma constructed_dense x : constructed C x -> dense_variant x.
Proof. destruct x; simpl; try tauto; intros _; [left|right]; reflexivity. Qed.

Lemma constructed_components tensors stack_dim varying s :
  constructed C (TensorStack tensors stack_dim varying s) ->
  Forall (constructed C) tensors.
Proof.
  simpl. intros [H _]. induction tensors as [|x l IH]; [constructor|].
  destruct H as [Hx Hl]. constructor; auto.
Qed.

Lemma constructed_stack tensors stack_dim0 stack_dim varying s :
  Forall (constructed C) tensors ->
  TensorStack_init C tensors stack_dim0 = Ok (TensorStack tensors stack_dim varying s) ->
  constructed C (TensorStack tensors stack_dim varying s).
Proof.
  intros HF Hinit. simpl. split; [clear Hinit|eauto].
  induction HF as [|x l Hx _ IH]; simpl; [exact I|split; assumption].
Qed.

Lemma dis_dense x :
  dense_variant x -> dis x = (c <- cached C x ;; Ok (PyNone, [c])).
Proof. intros [H|H]; destruct x; try discriminate; reflexivity. Qed.

Lemma disassemble_items_dense tensors :
  Forall dense_variant tensors ->
  disassemble_items dis tensors =
  (cs <- mapM (cached C) tensors ;; Ok (map (fun _ => PyNone) cs, cs)).
Proof.
  induction 1 as [|x l Hx _ IH]; [reflexivity|].
  change (disassemble_items dis (x :: l))
    with ('(key, value) <- dis x ;;
          '(keys, values) <- disassemble_items dis l ;;
          Ok (key :: keys, value ++ values)).
  rewrite (dis_dense Hx), IH. simpl.
  destruct (cached C x) as [c|e]; simpl; [|reflexivity].
  destruct (mapM (cached C) l) as [cs|e]; reflexivity.
Qed.

Lemma assemble_slots cs rest :
  Forall (fun c => is_Tensor c = true) cs ->
  asm (PyTuple (map (fun _ => PyNone) cs)) (cs ++ rest) = Ok (PyTuple cs, rest).
Proof.
  intros H.
  assert (Hl : assemble_list asm (map (fun _ => PyNone) cs) (cs ++ rest) = Ok (cs, rest)).
  { induction H as [|c l Hc _ IH]; [reflexivity|].
    assert (Hpop : asm PyNone (c :: l ++ rest) = Ok (c, l ++ rest))
      by (simpl; rewrite Hc; reflexivity).
    change (map (fun _ : Obj => PyNone) (c :: l)) with (PyNone :: map (fun _ => PyNone) l).
    change ((c :: l) ++ rest) with (c :: l ++ rest).
    rewrite assemble_list_cons, Hpop. cbn [bind]. rewrite IH. reflexivity. }
  rewrite A_tuple, Hl. reflexivity.
Qed.

(** The result of [cached] on a tensor of a dense class is of a dense
    class. *)
Lemma cached_dense_variant x c : dense_variant x -> cached C x = Ok c -> dense_variant c.
Proof.
  intros [H|H]; destruct x; try discriminate; unfold cached; simpl.
  - unfold NativeTensor_cached. destruct (Shape_eqb _ _).
    + intros E. inversion E. left. reflexivity.
    + destruct (native C _ _ _ _); simpl; [|discriminate].
      intros E. inversion E. left. reflexivity.
  - unfold cached_TensorStack.
    bind_step. bind_step. destruct a0 as [keys values].
    bind_step. destruct a0 as [inners rest].
    destruct inners; try discriminate.
    bind_step. destruct a0.
    + intros E. apply TensorStack_init_inv in E as (_ & _ & ? & ? & ? & _ & _ & _ & ->).
      right. reflexivity.
    + bind_step. bind_step.
      intros E. inversion E. left. reflexivity.
Qed.

(** [cached] on a stack of tensors of the dense classes: the components are
    cached, and the stack is rebuilt from them or collapsed into one array. *)
Lemma cached_stack_eq tensors stack_dim varying s :
  Forall dense_variant tensors ->
  cached C (TensorStack tensors stack_dim varying s) =
  (cs <- mapM (cached C) tensors ;;
   rb <- requires_broadcast C (TensorStack tensors stack_dim varying s) ;;
   if rb then TensorStack_init C cs stack_dim
   else
     natives <- mapM (fun t => st <- shape t ;;
                               native C t (OrderSeq true (names st)) true false) cs ;;
     axis <- index s (single_name stack_dim) ;;
     Ok (NativeTensor (NStack natives axis) s s)).
Proof.
  intros HF. unfold cached at 1. unfold cached_TensorStack.
  cbn [is_Tensor orb py_assert bind is_PhiTreeNode].
  replace (forallb is_PhiTreeNode tensors) with true.
  2:{ symmetry. apply forallb_forall. intros x Hx.
      rewrite Forall_forall in HF. now apply dense_variant_is_PhiTreeNode, HF. }
  cbn [bind]. rewrite (disassemble_items_dense HF).
  destruct (mapM (cached C) tensors) as [cs|e] eqn:Hcs; cbn [bind]; [|reflexivity].
  assert (Hts : Forall (fun c => is_Tensor c = true) cs).
  { apply mapM_Forall2 in Hcs. clear -Hcs HF.
    induction Hcs as [|x c l l' Hxc _ IH]; [constructor|].
    inversion HF; subst. constructor; auto.
    eapply dense_variant_is_Tensor, cached_dense_variant; eauto. }
  pose proof (assemble_slots [] Hts) as Hasm. rewrite app_nil_r in Hasm.
  rewrite Hasm. reflexivity.
Qed.

End CachedStack.

Lemma Dim_eqb_eq d d' : Dim_eqb d d' = true -> d = d'.
Proof.
  destruct d as [n t z i], d' as [n' t' z' i']. unfold Dim_eqb. simpl.
  intros E. repeat (apply andb_true_iff in E as [E ?]).
  apply String.eqb_eq in E. subst.
  assert (t = t') by (destruct t as [[]|], t' as [[]|]; simpl in *; congruence).
  assert (z = z').
  { destruct z, z'; simpl in *; try discriminate; auto;
      match goal with H : Nat.eqb _ _ = true |- _ => apply Nat.eqb_eq in H end; congruence. }
  assert (i = i').
  { destruct i as [l|], i' as [l'|]; simpl in *; try discriminate; auto.
    f_equal. apply list_eqb_string_eq. assumption. }
  congruence.
Qed.

Lemma Shape_eqb_eq s s' : Shape_eqb s s' = true -> s = s'.
Proof. apply list_eqb_eq, Dim_eqb_eq. Qed.

Section CachedIdempotent.
Variable C : Collaborators.

(** No tensor of the dense classes is a sparse tensor. *)
Hypothesis dense_not_sparse : forall t, constructed C t -> is_sparse C t = false.

Lemma requires_broadcast_same tensors cs stack_dim varying s :
  Forall2 (fun x c => shape c = shape x) tensors cs ->
  is_sparse C (TensorStack cs stack_dim varying s)
    = is_sparse C (TensorStack tensors stack_dim varying s) ->
  requires_broadcast C (TensorStack cs stack_dim varying s)
    = requires_broadcast C (TensorStack tensors stack_dim varying s).
Proof.
  intros HF Hs. unfold requires_broadcast.
  rewrite !_is_tracer_false.
  destruct (varying || negb (well_defined s) || false); [reflexivity|].
  destruct HF as [|x c l l' Hxc _]; [reflexivity|].
  rewrite Hxc, Hs. reflexivity.
Qed.

Lemma NativeTensor_cached_fixed n s :
  cached C (NativeTensor n s s) = Ok (NativeTensor n s s).
Proof.
  unfold cached, NativeTensor_cached. simpl. now rewrite Shape_eqb_refl.
Qed.

Lemma NativeTensor_cached_contiguous n native_shape s c :
  cached C (NativeTensor n native_shape s) = Ok c -> exists n', c = NativeTensor n' s s.
Proof.
  unfold cached, NativeTensor_cached. simpl.
  destruct (Shape_eqb native_shape s) eqn:E.
  - apply Shape_eqb_eq in E. subst. intros H. inversion H. eauto.
  - bind_step. intros H. inversion H. eauto.
Qed.

Lemma cached_constructed t :
  constructed C t ->
  forall c, cached C t = Ok c ->
    constructed C c /\ shape c = shape t /\ cached C c = Ok c.
Proof.
  induction t using Obj_nested_ind; try (simpl; tauto).
  - intros _ c Hc.
    destruct (NativeTensor_cached_contiguous _ _ _ Hc) as [n' ->].
    repeat split. apply NativeTensor_cached_fixed.
  - intros Hcon c Hc.
    pose proof (constructed_components Hcon) as Hcomp.
    assert (Hdense : Forall dense_variant tensors).
    { eapply Forall_impl; [|exact Hcomp]. apply constructed_dense. }
    destruct Hcon as [_ [stack_dim0 Hinit]].
    rewrite (cached_stack_eq C stack_dim varying s Hdense) in Hc.
    revert Hc. bind_step. rename a into cs.
    apply mapM_Forall2 in Hstep.
    assert (HF : Forall2 (fun x ci => constructed C ci /\ shape ci = shape x /\
                                      cached C ci = Ok ci) tensors cs).
    { clear -H Hcomp Hstep. induction Hstep as [|x ci l l' Hx _ IH]; [constructor|].
      inversion H; subst. inversion Hcomp; subst. constructor; auto. }
    assert (Hcs : Forall (constructed C) cs).
    { clear -HF. induction HF as [|x ci l l' [Hx _] _ IH]; constructor; auto. }
    assert (Hshapes : Forall2 (fun x ci => is_Tensor ci = true /\ shape ci = shape x) tensors cs).
    { clear -HF. induction HF as [|x ci l l' (Hx & Hs & _) _ IH]; constructor; auto.
      split; [|assumption]. eapply dense_variant_is_Tensor, constructed_dense; eauto. }
    assert (Hshapes' : Forall2 (fun x ci => shape ci = shape x) tensors cs).
    { clear -Hshapes. induction Hshapes as [|x ci l l' [_ Hs] _ IH]; constructor; auto. }
    assert (Hfixed : mapM (cached C) cs = Ok cs).
    { apply mapM_fixed. clear -HF.
      induction HF as [|x ci l l' (_ & _ & Hx) _ IH]; constructor; auto. }
    assert (Hinit' : TensorStack_init C cs stack_dim
                     = Ok (TensorStack cs stack_dim varying s))
      by (eapply TensorStack_init_again; eauto).
    assert (Hcon' : constructed C (TensorStack cs stack_dim varying s))
      by (eapply constructed_stack; eauto).
    assert (Hcon0 : constructed C (TensorStack tensors stack_dim varying s))
      by (eapply constructed_stack; eauto).
    assert (Hrb : requires_broadcast C (TensorStack cs stack_dim varying s)
                  = requires_broadcast C (TensorStack tensors stack_dim varying s)).
    { apply requires_broadcast_same; [assumption|].
      now rewrite !dense_not_sparse. }
    bind_step. destruct a.
    + rewrite Hinit'. intros E. inversion E; subst. clear E.
      repeat split; auto.
      * simpl. clear -Hcs. induction Hcs; simpl; auto.
      * eauto.
      * rewrite (cached_stack_eq C stack_dim varying s).
        2:{ eapply Forall_impl; [|exact Hcs]. apply constructed_dense. }
        rewrite Hfixed. cbn [bind]. rewrite Hrb. cbn [bind]. exact Hinit'.
    + bind_step. bind_step. intros E. inversion E; subst.
      repeat split. apply NativeTensor_cached_fixed.
Qed.

Lemma cached_components tensors cs :
  Forall (constructed C) tensors ->
  mapM (cached C) tensors = Ok cs ->
  Forall2 (fun x ci => is_Tensor ci = true /\ shape ci = shape x) tensors cs.
Proof.
  intros HF H. apply mapM_Forall2 in H.
  induction H as [|x ci l l' Hx _ IH]; [constructor|].
  inversion HF; subst. constructor; auto.
  destruct (cached_constructed x H1 Hx) as (Hc & Hs & _).
  split; [|assumption]. eapply dense_variant_is_Tensor, constructed_dense; eauto.
Qed.

Lemma NativeTensor_cached_expands n native_shape s :
  Shape_eqb native_shape s = false ->
  cached C (NativeTensor n native_shape s)
  = (n' <- NativeTensor_transposed_native C n native_shape s (names s) true true ;;
     Ok (NativeTensor n' s s)).
Proof.
  intros E. unfold cached, NativeTensor_cached. cbn [is_Tensor orb py_assert bind].
  rewrite E. unfold native, Tensor_native. cbn [shape bind _transposed_native].
  destruct (NativeTensor_transposed_native C n native_shape s (names s) true true);
    reflexivity.
Qed.

Lemma cached_stack_result tensors stack_dim varying s c :
  constructed C (TensorStack tensors stack_dim varying s) ->
  cached C (TensorStack tensors stack_dim varying s) = Ok c ->
  exists cs,
    Forall2 (fun x ci => cached C x = Ok ci) tensors cs /\
    (requires_broadcast C (TensorStack tensors stack_dim varying s) = Ok true ->
       c = TensorStack cs stack_dim varying s) /\
    (requires_broadcast C (TensorStack tensors stack_dim varying s) = Ok false ->
       exists natives axis,
         Forall2 (fun ci a => exists si, shape ci = Ok si /\
                                native C ci (OrderSeq true (names si)) true false = Ok a)
                 cs natives /\
         index s (single_name stack_dim) = Ok axis /\
         c = NativeTensor (NStack natives axis) s s).
Proof.
  intros Hcon Hc.
  pose proof (constructed_components Hcon) as Hcomp.
  assert (Hdense : Forall dense_variant tensors).
  { eapply Forall_impl; [|exact Hcomp]. apply constructed_dense. }
  destruct Hcon as [_ [stack_dim0 Hinit]].
  rewrite (cached_stack_eq C stack_dim varying s Hdense) in Hc.
  revert Hc. bind_step. rename a into cs.
  pose proof (cached_components Hcomp Hstep) as Hshapes.
  intros Hc. exists cs. split; [now apply mapM_Forall2|].
  revert Hc. bind_step. destruct a.
  - intros E. split; [|discriminate]. intros _.
    assert (Hinit' : TensorStack_init C cs stack_dim
                     = Ok (TensorStack cs stack_dim varying s))
      by (eapply TensorStack_init_again; eauto).
    congruence.
  - bind_step. rename a into natives. bind_step. rename a into axis.
    intros E. inversion E; subst.
    split; [discriminate|]. intros _. exists natives, axis.
    split; [|split; reflexivity].
    apply mapM_Forall2 in Hstep1. clear -Hstep1.
    induction Hstep1 as [|ci a l l' Hci _ IH]; constructor; [|exact IH].
    destruct (shape ci) as [si|e]; cbn [bind] in Hci; [|discriminate].
    eauto.
Qed.

End CachedIdempotent.


(* ========================================================================= *)
(** * The properties on concrete inputs *)

Import Examples.

(** C6 on the stack of [t1] and [t2] along [b], and on an attempt to stack
    [t1] along [x]. *)
Lemma TensorStack_init_invariant_witness :
  (exists e, TensorStack_init Reference.collaborators [t1] x2 = Raise e) /\
  exists sd varying s,
    ragged = TensorStack [t1; t2] sd varying s /\
    rank sd = 1 /\
    single_name sd = single_name b_dim /\
    single_size sd = SizeInt 2 /\
    Forall (fun t => exists st, shape t = Ok st /\ has_dim (single_name sd) st = false)
           [t1; t2].
Proof.
  split.
  - apply (proj1 (TensorStack_init_invariant Reference.collaborators [t1] x2) t1 x2).
    + left. reflexivity.
    + reflexivity.
    + reflexivity.
  - apply (proj2 (TensorStack_init_invariant Reference.collaborators [t1; t2] b_dim) ragged).
    reflexivity.
Defined.

(** C8 under [equality_by_ref] from the initial list: on a body that leaves
    the list alone, on two bodies that leave a frame of their own on the
    list, one returning and one raising [KeyError], and on a body that
    empties the list. *)
Lemma equality_mode_stack_lifo_witness :
  active_frame (_EQUALITY_REDUCE ++ [ByRef]) = Ok ByRef /\
  equality_by_ref quiet_body _EQUALITY_REDUCE = (_EQUALITY_REDUCE, Returned tt) /\
  equality_by_ref appending_body _EQUALITY_REDUCE
    = ([Elementwise; ByRef], Raised (AssertionError "")) /\
  equality_by_ref appending_raising_body _EQUALITY_REDUCE
    = ([Elementwise; ByRef], Raised (AssertionError "")) /\
  equality_by_ref clearing_body _EQUALITY_REDUCE = ([], Raised IndexError).
Proof.
  pose proof (@equality_mode_stack_lifo unit ByRef quiet_body _EQUALITY_REDUCE
                (or_introl eq_refl)) as H.
  destruct H as (H1 & _ & H3 & _).
  split; [exact H1|].
  split; [exact (H3 eq_refl)|].
  split; [|split].
  - pose proof (@equality_mode_stack_lifo unit ByRef appending_body _EQUALITY_REDUCE
                  (or_introl eq_refl)) as H.
    destruct H as (_ & _ & _ & _ & H5 & _).
    apply (H5 Elementwise [Elementwise; ByRef] eq_refl). discriminate.
  - pose proof (@equality_mode_stack_lifo unit ByRef appending_raising_body
                  _EQUALITY_REDUCE (or_introl eq_refl)) as H.
    destruct H as (_ & _ & _ & _ & H5 & _).
    apply (H5 Elementwise [Elementwise; ByRef] eq_refl). discriminate.
  - pose proof (@equality_mode_stack_lifo unit ByRef clearing_body _EQUALITY_REDUCE
                  (or_introl eq_refl)) as H.
    destruct H as (_ & _ & _ & _ & _ & H6).
    exact (H6 eq_refl).
Defined.

(** C7 on an array with the dimension [x]: asked for in the order [y], which
    lacks [x]; asked for in the order [b, x] by a tensor whose shape has [b]
    of size two, which gives a new axis tiled twice; asked for in the order
    [x, x], whose axes are no permutation; asked for by [native] with the
    list of the one entry [x,z], which fails because the shape lacks [z]; and
    with the list of the two entries [x] and [z], where [z] becomes the new
    axis [new1]. *)
Lemma transposed_native_fails_on_missing_native_dim_witness :
  (exists msg,
     NativeTensor_transposed_native Reference.collaborators (NArray 1) x2 x2 ["y"] true true
     = Raise (AssertionError msg)) /\
  NativeTensor_transposed_native Reference.collaborators (NArray 8) x2
    [Reference.dim "b" BATCH_DIM 2; Reference.dim "x" SPATIAL_DIM 2] ["b"; "x"] true true
  = Ok (NTile (NGetitem (NAsTensor (NArray 8)) [false; true]) [SizeInt 2; SizeInt 1]) /\
  NativeTensor_transposed_native Reference.collaborators (NArray 1) x2 x2 ["x"; "x"] true true
  = Raise (ValueError "axes don't match array") /\
  (exists msg,
     native Reference.collaborators t1 (OrderSeq false ["x,z"]) true false
     = Raise (AssertionError msg)) /\
  native Reference.collaborators t1 (OrderSeq false ["x"; "z"]) true false
  = Ok (NTile (NGetitem (NAsTensor (NArray 1)) [true; false]) [SizeInt 1; SizeInt 1]).
Proof.
  split; [|split; [|split; [|split]]].
  - apply (proj1 (transposed_native_fails_on_missing_native_dim
                    Reference.collaborators (NArray 1) x2 x2 ["y"] true true)).
    exists "x". split.
    + left. reflexivity.
    + intros [H|[]]. discriminate H.
  - destruct (proj1 (proj2 (transposed_native_fails_on_missing_native_dim
                              Reference.collaborators (NArray 8) x2
                              [Reference.dim "b" BATCH_DIM 2; Reference.dim "x" SPATIAL_DIM 2]
                              ["b"; "x"] true true)))
      as (perm & multiples & Hperm & HF & _ & _ & _ & Hnew).
    { simpl. tauto. }
    vm_compute in Hperm. injection Hperm as <-.
    inversion HF as [|? m1 ? ? H1 HF1]; subst.
    inversion HF1 as [|? m2 ? ? H2 HF2]; subst.
    inversion HF2; subst.
    vm_compute in H1. injection H1 as <-.
    vm_compute in H2. subst m2.
    destruct (Hnew eq_refl "b" (or_introl eq_refl) eq_refl) as (_ & Htile & _).
    exact (Htile eq_refl eq_refl).
  - destruct (proj1 (proj2 (transposed_native_fails_on_missing_native_dim
                              Reference.collaborators (NArray 1) x2 x2
                              ["x"; "x"] true true)))
      as (perm & multiples & Hperm & _ & _ & Hbad & _).
    { simpl. tauto. }
    vm_compute in Hperm. injection Hperm as <-.
    exact (Hbad eq_refl eq_refl).
  - apply (proj1 (proj2 (proj2 (proj2 (proj2
             (proj2 (proj2 (transposed_native_fails_on_missing_native_dim
                              Reference.collaborators (NArray 1) x2 x2 [] true true))
                false))))
             eq_refl false ["x,z"])).
    exists ["x"; "z"], "z". repeat split.
    + left. reflexivity.
    + simpl. lia.
    + right. left. reflexivity.
  - unfold t1.
    rewrite (proj2 (proj2 (proj2 (proj2 (proj2
               (proj2 (proj2 (transposed_native_fails_on_missing_native_dim
                                Reference.collaborators (NArray 1) x2 x2 [] true true))
                  false))))
               eq_refl false ["x"; "z"])).
    + reflexivity.
    + repeat constructor.
Defined.

(** C7, the counterexample: the order names [z], which neither the backing
    array nor the shape of the tensor has.  The array is returned with a new
    axis for [z]; nothing fails. *)
Lemma transposed_native_absent_name_counterexample :
  has_dim "z" x2 = false /\
  NativeTensor_transposed_native Reference.collaborators (NArray 1) x2 x2 ["x"; "z"] true true
    = Ok (NTile (NGetitem (NAsTensor (NArray 1)) [true; false]) [SizeInt 1; SizeInt 1]) /\
  native Reference.collaborators t1 (OrderStr "x,z") true false
    = Ok (NTile (NGetitem (NAsTensor (NArray 1)) [true; false]) [SizeInt 1; SizeInt 1]) /\
  ~ (forall order name,
       In name order -> has_dim name x2 = false ->
       is_ok (NativeTensor_transposed_native Reference.collaborators (NArray 1) x2 x2
                order true true) = false).
Proof.
  repeat split; try reflexivity.
  intros H. specialize (H ["x"; "z"] "z" (or_intror (or_introl eq_refl)) eq_refl).
  discriminate H.
Qed.


(** C4 on a vector: a [TensorStack] as the other operand is not handled, a
    list of two scalars is stacked, materialised and added like the
    [NativeTensor] of the stacked arrays, and a tensor with the dimension [x]
    is combined into a tensor over the merged dimensions. *)
Lemma NativeTensor_op2_both_native_witness :
  NativeTensor_op2 Reference.collaborators v three add false = Ok NotImplemented /\
  NativeTensor_op2 Reference.collaborators v pair_of_scalars add false
    = NativeTensor_op2 Reference.collaborators v
        (NativeTensor (NStack [NAsTensor (NArray 3); NAsTensor (NArray 4)] 0) vector2 vector2)
        add false /\
  exists broadcast_shape expanded native1 native2 result_tensor,
    and_shapes Reference.collaborators vector2 x3 = Ok broadcast_shape /\
    and_shapes Reference.collaborators vector2 x3 = Ok expanded /\
    broadcast_native Reference.collaborators broadcast_shape v = Ok native1 /\
    broadcast_native Reference.collaborators broadcast_shape w = Ok native2 /\
    Ok (NApply "add" native1 native2) = Ok result_tensor /\
    Handled (NativeTensor
               (NApply "add" (NGetitem (NAsTensor (NArray 0)) [true; false])
                             (NGetitem (NAsTensor (NArray 6)) [false; true]))
               [Reference.dim "vector" CHANNEL_DIM 2; Reference.dim "x" SPATIAL_DIM 3]
               [Reference.dim "vector" CHANNEL_DIM 2; Reference.dim "x" SPATIAL_DIM 3])
    = Handled (NativeTensor result_tensor broadcast_shape expanded).
Proof.
  split; [|split].
  - apply (proj1 (proj2 (NativeTensor_op2_both_native Reference.collaborators
                           (NArray 0) vector2 vector2 three add false)));
      reflexivity.
  - exact (proj1 (proj1 (proj2 (proj2 (NativeTensor_op2_both_native
                                         Reference.collaborators
                                         (NArray 0) vector2 vector2 pair_of_scalars
                                         add false)))
                    eq_refl (TensorStack [u1; u2] vector2 false vector2)
                    eq_refl eq_refl)).
  - apply (proj1 (proj2 (proj2 (proj2 (NativeTensor_op2_both_native Reference.collaborators
                                         (NArray 0) vector2 vector2 w add false))))
             (NArray 6) x3 x3 eq_refl).
    reflexivity.
Defined.

(** C4, the counterexample: the other operand is a list of two tensors.
    [_tensor] stacks them into a [TensorStack], which is no [NativeTensor];
    the operation is carried out all the same and [NotImplemented] is not
    returned.  Next to it: an operand of rank zero hands out its array by a
    plain [native()], which differs from the array in the order of the
    broadcast shape, and [switch_args] swaps the arrays. *)
Lemma NativeTensor_op2_converted_operand_counterexample :
  is_Tensor pair_of_scalars = false /\
  _tensor Reference.collaborators v pair_of_scalars
    = Ok (TensorStack [u1; u2] vector2 false vector2) /\
  NativeTensor_op2 Reference.collaborators v pair_of_scalars add false
    = Ok (Handled (NativeTensor
                     (NApply "add" (NArray 0)
                        (NStack [NAsTensor (NArray 3); NAsTensor (NArray 4)] 0))
                     vector2 vector2)) /\
  native Reference.collaborators (TensorStack [u1; u2] vector2 false vector2)
    (OrderShape vector2) true false
    = Ok (NStack [NAsTensor (NArray 3); NAsTensor (NArray 4)] 0) /\
  NativeTensor_op2 Reference.collaborators v pair_of_scalars add false <> Ok NotImplemented /\
  broadcast_native Reference.collaborators vector2 u1 = Ok (NArray 3) /\
  native Reference.collaborators u1 (OrderShape vector2) false false
    = Ok (NGetitem (NAsTensor (NArray 3)) [false]) /\
  NativeTensor_op2 Reference.collaborators v u1 add false
    = Ok (Handled (NativeTensor (NApply "add" (NArray 0) (NArray 3)) vector2 vector2)) /\
  NativeTensor_op2 Reference.collaborators v u1 add true
    = Ok (Handled (NativeTensor (NApply "add" (NArray 3) (NArray 0)) vector2 vector2)).
Proof.
  repeat split; try reflexivity. discriminate.
Qed.

(** C9 on a [NativeTensor] compared with itself under each of the modes. *)
Lemma eq_identical_object_witness :
  __eq__ Reference.collaborators [Elementwise] true t1 t1
    = Ok (Handled (NativeTensor (NNumber (PyBool true)) EMPTY_SHAPE x2)) /\
  __eq__ Reference.collaborators [Elementwise; ByRef] true t1 t1
    = Ok (Handled (NativeTensor (NNumber (PyBool true)) EMPTY_SHAPE x2)) /\
  __eq__ Reference.collaborators [Elementwise; ByRef] true nan_layout nan_layout
    = Ok (Handled (NativeTensor (NNumber (PyBool true)) EMPTY_SHAPE EMPTY_SHAPE)).
Proof.
  split; [|split].
  - rewrite (proj1 (eq_identical_object Reference.collaborators [Elementwise] t1)
               (or_introl eq_refl)).
    reflexivity.
  - rewrite (proj1 (eq_identical_object Reference.collaborators [Elementwise; ByRef] t1)
               (or_introl eq_refl)).
    reflexivity.
  - rewrite (proj2 (eq_identical_object Reference.collaborators [Elementwise; ByRef]
                      nan_layout) eq_refl ByRef eq_refl).
    + reflexivity.
    + discriminate.
Defined.

(** C9, the counterexample: a [Layout] that holds NaN, compared with itself
    under the elementwise mode.  [Layout.__eq__] compares the wrapped
    objects; the answer is a layout that holds [False], not the all-true
    tensor. *)
Lemma eq_identical_layout_counterexample :
  __eq__ Reference.collaborators _EQUALITY_REDUCE true nan_layout nan_layout
    = Ok (Handled (Layout (PyRaw (NNumber (PyBool false))) [] [])) /\
  __eq__ Reference.collaborators _EQUALITY_REDUCE true nan_layout nan_layout
    <> (s <- shape nan_layout ;;
        r <- expand Reference.collaborators (PyRaw (NNumber (PyBool true))) s ;;
        Ok (Handled r)).
Proof.
  split; [reflexivity|discriminate].
Qed.

(** C10 on a tensor over [x] of size two and one over [x] of size three,
    and on [None]. *)
Lemma eq_incompatible_shape_witness :
  __eq__ Reference.collaborators _EQUALITY_REDUCE false t1 w = Ok (Handled (wrap_bool false)) /\
  __ne__ Reference.collaborators _EQUALITY_REDUCE false t1 w = Ok (Handled (wrap_bool true)) /\
  __eq__ Reference.collaborators _EQUALITY_REDUCE false t1 PyNone
    = __eq__ Reference.collaborators _EQUALITY_REDUCE false t1 nan.
Proof.
  pose proof (@eq_incompatible_shape Reference.collaborators _EQUALITY_REDUCE t1 w x2 x3
                (or_introl eq_refl) eq_refl eq_refl) as (H1 & H2 & _).
  assert (Hw : w <> PyNone) by discriminate.
  destruct (H1 eq_refl Hw eq_refl) as [Heq Hne].
  split; [exact Heq|split; [exact Hne|]].
  exact (proj1 (proj2 (@eq_incompatible_shape Reference.collaborators _EQUALITY_REDUCE
                         t1 w x2 x3 (or_introl eq_refl) eq_refl eq_refl))).
Defined.

(** C10, the counterexample: a [Layout] of two items along [a], compared
    under the elementwise mode with a tensor that has [a] with size three.
    The shapes are not compatible and the comparison raises. *)
Lemma eq_incompatible_layout_counterexample :
  is_compatible Reference.collaborators a2 a3 = false /\
  __eq__ Reference.collaborators _EQUALITY_REDUCE false two_numbers three_along_a
    = Raise (AssertionError "Shape mismatch during the operation") /\
  __ne__ Reference.collaborators _EQUALITY_REDUCE false two_numbers three_along_a
    = Raise (AssertionError "Shape mismatch during the operation") /\
  __eq__ Reference.collaborators _EQUALITY_REDUCE false two_numbers three_along_a
    <> Ok (Handled (wrap_bool false)).
Proof.
  split; [reflexivity|split; [reflexivity|split; [reflexivity|discriminate]]].
Qed.




(* ========================================================================= *)
(** * Further properties *)

(* ------------------------------------------------------------------------- *)
(** ** Paths of the tensors in a tree *)

Section PathProperties.
Variable C : Collaborators.
Variable attr_type : Obj -> list string.

Local Abbreviation D := (disassemble_tree C attr_type false).
Local Abbreviation P := (attr_paths attr_type).
Local Abbreviation F := (attr_paths_from_container attr_type).

Lemma P_list items root :
  P (PyList items) root = attr_paths_items P root 0 items.
Proof. reflexivity. Qed.

Lemma P_tuple items root :
  P (PyTuple items) root = attr_paths_items P root 0 items.
Proof. reflexivity. Qed.

Lemma P_dict items root :
  P (PyDict items) root = attr_paths_dict P root items.
Proof. reflexivity. Qed.

Lemma same_count_items items :
  Forall (fun x => forall root, same_count (D x) (P x root)) items ->
  forall root i,
    same_count (disassemble_items D items) (attr_paths_items P root i items).
Proof.
  induction 1 as [|x items Hx _ IH]; intros root i; [reflexivity|].
  specialize (Hx (index_path root i)). specialize (IH root (S i)).
  cbn [attr_paths_items]. rewrite disassemble_items_cons.
  fold (attr_paths_items P root).
  destruct (D x) as [[k vs]|e], (P x (index_path root i)) as [ps|e'];
    cbn [bind same_count] in *; try contradiction; [|assumption].
  destruct (disassemble_items D items) as [[ks vss]|e],
           (attr_paths_items P root (S i) items) as [pss|e'];
    cbn [bind same_count] in *; try contradiction; [|assumption].
  rewrite !length_app. congruence.
Qed.

Lemma same_count_dict items :
  Forall (fun kv => forall root, same_count (D (snd kv)) (P (snd kv) root)) items ->
  forall root, same_count (disassemble_dict D items) (attr_paths_dict P root items).
Proof.
  induction 1 as [|[name x] items Hx _ IH]; intros root; [reflexivity|].
  simpl in Hx. specialize (Hx (key_path root name)). specialize (IH root).
  cbn [attr_paths_dict]. rewrite disassemble_dict_cons.
  fold (attr_paths_dict P root).
  destruct (D x) as [[k vs]|e], (P x (key_path root name)) as [ps|e'];
    cbn [bind same_count] in *; try contradiction; [|assumption].
  destruct (disassemble_dict D items) as [[ks vss]|e],
           (attr_paths_dict P root items) as [pss|e'];
    cbn [bind same_count] in *; try contradiction; [|assumption].
  rewrite !length_app. congruence.
Qed.

Lemma same_count_attributes (attrs : list (string * Obj)) (declared : list string) :
  Forall (fun kv => forall root, same_count (D (snd kv)) (P (snd kv) root)) attrs ->
  forall root,
    same_count
      (disassemble_attributes (map (fun kv => (fst kv, D (snd kv))) attrs) declared)
      (attr_paths_attributes (map (fun kv => (fst kv, P (snd kv))) attrs) declared root).
Proof.
  intros HP root. induction declared as [|a declared IH]; [reflexivity|].
  cbn [disassemble_attributes attr_paths_attributes].
  rewrite !lookup_map_values.
  destruct (lookup a attrs) as [v|] eqn:Hv; cbn [option_map]; [|reflexivity].
  apply lookup_In in Hv. rewrite Forall_forall in HP.
  specialize (HP _ Hv (attribute_path root a)). cbn [snd] in HP.
  destruct (D v) as [[k vs]|e], (P v (attribute_path root a)) as [ps|e'];
    cbn [bind same_count] in *; try contradiction; [|assumption].
  destruct (disassemble_attributes _ declared) as [[ks vss]|e],
           (attr_paths_attributes _ declared root) as [pss|e'];
    cbn [bind same_count] in *; try contradiction; [|assumption].
  rewrite !length_app. congruence.
Qed.

Lemma same_count_tree (x : Obj) (root : string) :
  same_count (disassemble_tree C attr_type false x) (attr_paths attr_type x root).
Proof.
  revert root. induction x using Obj_nested_ind; intros root; try reflexivity.
  - rewrite D_list, P_list.
    pose proof (same_count_items H root 0) as HI.
    destruct (disassemble_items D items) as [[ks vs]|e],
             (attr_paths_items P root 0 items) as [ps|e']; exact HI.
  - rewrite D_tuple, P_tuple.
    pose proof (same_count_items H root 0) as HI.
    destruct (disassemble_items D items) as [[ks vs]|e],
             (attr_paths_items P root 0 items) as [ps|e']; exact HI.
  - rewrite D_dict, P_dict.
    pose proof (same_count_dict H root) as HI.
    destruct (disassemble_dict D items) as [[ks vs]|e],
             (attr_paths_dict P root items) as [ps|e']; exact HI.
  - pose proof (same_count_attributes
                  (attr_type (PyNode cls dataclass attrs)) H root) as HI.
    cbn [disassemble_tree attr_paths].
    destruct (disassemble_attributes _ _) as [[ks vs]|e],
             (attr_paths_attributes _ _ root) as [ps|e']; exact HI.
  - specialize (IHx (String.append root "._obj")).
    cbn [disassemble_tree attr_paths].
    destruct (D x) as [[k vs]|e], (P x (String.append root "._obj")) as [ps|e'];
      exact IHx.
Qed.

(** X1.  [attr_paths] lists one path for every tensor that
    [disassemble_tree] (without caching) returns for the same tree and the
    same attribute selection, so the assertion
    [len(paths) == len(tensors)] of [save] holds; where one of the two
    raises, the other raises the same exception. *)
Theorem attr_paths_count (x : Obj) (root : string) :
  same_count (disassemble_tree C attr_type false x) (attr_paths attr_type x root).
Proof. apply same_count_tree. Qed.

Lemma F_list items root :
  F (PyList items) root = container_items F root 0 items.
Proof. reflexivity. Qed.

Lemma F_tuple items root :
  F (PyTuple items) root = container_items F root 0 items.
Proof. reflexivity. Qed.

Lemma F_dict items root :
  has_key "__layout__" items = false ->
  F (PyDict items) root = container_dict F root items.
Proof. intros H. cbn [attr_paths_from_container]. rewrite H. reflexivity. Qed.

Lemma unambiguous_items items :
  unambiguous attr_type (PyList items) <-> Forall (unambiguous attr_type) items.
Proof.
  simpl. induction items as [|x items IH]; simpl.
  - split; auto.
  - rewrite IH. split.
    + intros [H1 H2]. constructor; auto.
    + intros H. inversion H; auto.
Qed.

Lemma unambiguous_values (items : list (string * Obj)) :
  (fix all (l : list (string * Obj)) : Prop :=
     match l with
     | [] => True
     | kv :: rest => unambiguous attr_type (snd kv) /\ all rest
     end) items
  <-> Forall (fun kv => unambiguous attr_type (snd kv)) items.
Proof.
  induction items as [|x items IH]; simpl.
  - split; auto.
  - rewrite IH. split.
    + intros [H1 H2]. constructor; auto.
    + intros H. inversion H; auto.
Qed.

Lemma paths_agree_items items :
  Forall (paths_agree C attr_type) items ->
  Forall (unambiguous attr_type) items ->
  forall root i keys values,
    disassemble_items D items = Ok (keys, values) ->
    exists paths,
      attr_paths_items P root i items = Ok paths /\
      container_items F root i keys = Success paths.
Proof.
  induction 1 as [|x items Hx _ IH]; intros HU root i keys values.
  - intros E. inversion E. exists []. split; reflexivity.
  - inversion HU as [|? ? Ux HU']; subst.
    rewrite disassemble_items_cons.
    destruct (D x) as [[k vs]|e] eqn:HD; cbn [bind]; [|discriminate].
    destruct (disassemble_items D items) as [[ks vss]|e] eqn:HDs; cbn [bind]; [|discriminate].
    intros E. inversion E; subst.
    destruct (Hx (index_path root i) k vs Ux HD) as (ps & HP & HF).
    destruct (IH HU' root (S i) ks vss eq_refl) as (pss & HPs & HFs).
    exists (ps ++ pss). split.
    + cbn [attr_paths_items]. fold (attr_paths_items P root).
      rewrite HP. cbn [bind]. rewrite HPs. reflexivity.
    + cbn [container_items]. fold (container_items F root).
      rewrite HF. cbn [attempt_bind]. rewrite HFs. reflexivity.
Qed.

Lemma paths_agree_dict items :
  Forall (fun kv => paths_agree C attr_type (snd kv)) items ->
  Forall (fun kv => unambiguous attr_type (snd kv)) items ->
  forall root keys values,
    disassemble_dict D items = Ok (keys, values) ->
    map fst keys = map fst items /\
    exists paths,
      attr_paths_dict P root items = Ok paths /\
      container_dict F root keys = Success paths.
Proof.
  induction 1 as [|[name x] items Hx _ IH]; intros HU root keys values.
  - intros E. inversion E. split; [reflexivity|]. exists []. split; reflexivity.
  - inversion HU as [|? ? Ux HU']; subst. cbn [snd] in Hx, Ux.
    rewrite disassemble_dict_cons.
    destruct (D x) as [[k vs]|e] eqn:HD; cbn [bind]; [|discriminate].
    destruct (disassemble_dict D items) as [[ks vss]|e] eqn:HDs; cbn [bind]; [|discriminate].
    intros E. inversion E; subst.
    destruct (Hx (key_path root name) k vs Ux HD) as (ps & HP & HF).
    destruct (IH HU' root ks vss eq_refl) as (Hnames & pss & HPs & HFs).
    split; [simpl; now rewrite Hnames|].
    exists (ps ++ pss). split.
    + cbn [attr_paths_dict]. fold (attr_paths_dict P root).
      rewrite HP. cbn [bind]. rewrite HPs. reflexivity.
    + cbn [container_dict]. fold (container_dict F root).
      rewrite HF. cbn [attempt_bind]. rewrite HFs. reflexivity.
Qed.

(** The skeletons that the attribute loop of [disassemble_tree] collects:
    every declared attribute has its entry, and every entry is the skeleton
    of the value of its attribute. *)
Lemma disassemble_attributes_entries (attrs : list (string * Obj)) (declared : list string)
    keys values :
  disassemble_attributes (map (fun kv => (fst kv, D (snd kv))) attrs) declared
    = Ok (keys, values) ->
  (forall a, In a declared -> has_key a keys = true) /\
  (forall a k, lookup a keys = Some k ->
     exists v vs, lookup a attrs = Some v /\ D v = Ok (k, vs)).
Proof.
  revert keys values. induction declared as [|a declared IH]; intros keys values.
  - intros E. inversion E. split; [intros a []|]. intros a k. discriminate.
  - cbn [disassemble_attributes]. rewrite lookup_map_values.
    destruct (lookup a attrs) as [v|] eqn:Hv; cbn [option_map]; [|discriminate].
    destruct (D v) as [[k vs]|e] eqn:HD; cbn [bind]; [|discriminate].
    destruct (disassemble_attributes _ declared) as [[ks vss]|e] eqn:HDs;
      cbn [bind]; [|discriminate].
    intros E. inversion E; subst. clear E.
    destruct (IH ks vss eq_refl) as (Hall & Hentries).
    unfold dict_entry. destruct (has_key a ks) eqn:Hk.
    + split; [|exact Hentries].
      intros a' [<-|Ha']; auto.
    + split.
      * intros a' [<-|Ha'].
        -- unfold has_key. simpl. now rewrite String.eqb_refl.
        -- specialize (Hall a' Ha'). unfold has_key in *. simpl.
           destruct (String.eqb a a'); auto.
      * intros a' k'. simpl. destruct (String.eqb a a') eqn:E.
        -- apply String.eqb_eq in E. subst a'. intros H. inversion H; subst. eauto.
        -- apply Hentries.
Qed.

Lemma paths_agree_attributes (attrs : list (string * Obj)) (declared0 declared : list string)
    keys values :
  Forall (fun kv => paths_agree C attr_type (snd kv)) attrs ->
  Forall (fun kv => unambiguous attr_type (snd kv)) attrs ->
  disassemble_attributes (map (fun kv => (fst kv, D (snd kv))) attrs) declared0
    = Ok (keys, values) ->
  (forall a, In a declared -> In a declared0) ->
  forall root,
  exists paths,
    attr_paths_attributes (map (fun kv => (fst kv, P (snd kv))) attrs) declared root
      = Ok paths /\
    container_attributes
      (map (fun kv => (fst kv, F (snd kv))) (copy_with attrs keys)) declared root
      = Success paths.
Proof.
  intros HP HU HD Hsub root.
  destruct (disassemble_attributes_entries _ _ HD) as (Hall & Hentries).
  induction declared as [|a declared IH]; [exists []; split; reflexivity|].
  destruct (has_key_lookup a keys (Hall a (Hsub a (or_introl eq_refl)))) as [k Hk].
  destruct (Hentries a k Hk) as (v & vs & Hv & HDv).
  pose proof (lookup_In _ _ Hv) as Hin.
  rewrite Forall_forall in HP, HU.
  destruct (HP _ Hin (attribute_path root a) k vs (HU _ Hin) HDv) as (ps & HPa & HFa).
  cbn [snd] in HPa.
  destruct IH as (pss & HPs & HFs); [intros a' Ha'; apply Hsub; now right|].
  exists (ps ++ pss). split.
  - cbn [attr_paths_attributes]. rewrite lookup_map_values, Hv. cbn [option_map].
    rewrite HPa. cbn [bind]. rewrite HPs. reflexivity.
  - cbn [container_attributes]. rewrite lookup_map_values.
    rewrite (@lookup_copy_with a k attrs keys); [|unfold has_key; now rewrite Hv|exact Hk].
    cbn [option_map]. rewrite HFa. cbn [attempt_bind]. rewrite HFs. reflexivity.
Qed.

Lemma paths_agree_all (x : Obj) : paths_agree C attr_type x.
Proof.
  induction x using Obj_nested_ind; intros root skeleton values HU HD.
  - inversion HD. exists []. split; reflexivity.
  - inversion HD; subst. destruct HU as [H1 H2]. exists []. split; [reflexivity|].
    apply String.eqb_neq in H1, H2. cbn [attr_paths_from_container].
    now rewrite H1, H2.
  - inversion HD. exists []. split; reflexivity.
  - inversion HD. exists [root]. split; reflexivity.
  - destruct HU.
  - apply unambiguous_items in HU. rewrite D_list in HD.
    destruct (disassemble_items D items) as [[ks vs]|e] eqn:HDs; cbn [bind] in HD;
      [|discriminate].
    inversion HD; subst.
    destruct (paths_agree_items H HU root 0 HDs) as (ps & HP & HF).
    exists ps. split; [now rewrite P_list|now rewrite F_list].
  - apply unambiguous_items in HU. rewrite D_tuple in HD.
    destruct (disassemble_items D items) as [[ks vs]|e] eqn:HDs; cbn [bind] in HD;
      [|discriminate].
    inversion HD; subst.
    destruct (paths_agree_items H HU root 0 HDs) as (ps & HP & HF).
    exists ps. split; [now rewrite P_tuple|now rewrite F_tuple].
  - destruct HU as [Hlayout HU]. apply unambiguous_values in HU. rewrite D_dict in HD.
    destruct (disassemble_dict D items) as [[ks vs]|e] eqn:HDs; cbn [bind] in HD;
      [|discriminate].
    inversion HD; subst.
    destruct (paths_agree_dict H HU root HDs) as (Hnames & ps & HP & HF).
    exists ps. split; [now rewrite P_dict|].
    rewrite F_dict; [exact HF|].
    rewrite (has_key_names "__layout__" ks items Hnames). exact Hlayout.
  - destruct HU as [Hstable HU]. apply unambiguous_values in HU.
    cbn [disassemble_tree] in HD.
    destruct (disassemble_attributes _ _) as [[ks vs]|e] eqn:HDs; cbn [bind] in HD;
      [|discriminate].
    inversion HD; subst.
    destruct (@paths_agree_attributes attrs _ (attr_type (PyNode cls dataclass attrs))
                ks values H HU HDs (fun a Ha => Ha) root) as (ps & HP & HF).
    exists ps. split; [exact HP|].
    cbn [attr_paths_from_container].
    rewrite (Hstable _ (copy_with_names attrs ks)). exact HF.
  - inversion HD. exists [root]. split; reflexivity.
  - inversion HD. exists [root]. split; reflexivity.
  - cbn [disassemble_tree] in HD.
    destruct (D x) as [[k vs]|e] eqn:HDx; cbn [bind] in HD; [|discriminate].
    inversion HD; subst.
    destruct (IHx (String.append root "._obj") k values HU HDx) as (ps & HP & HF).
    exists ps. split; [exact HP|exact HF].
Qed.

(** X2.  For a tree that [disassemble_tree] flattens unambiguously, the
    paths that [attr_paths_from_container] computes from the skeleton are
    the paths that [attr_paths] computes from the tree: [load] finds the
    stored paths equal to the paths of the stored skeleton and hands the
    tensors to [assemble_tree] in the stored order. *)
Theorem attr_paths_from_container_agrees (x : Obj) (root : string)
    (skeleton : Obj) (values : list Obj) :
  unambiguous attr_type x ->
  disassemble_tree C attr_type false x = Ok (skeleton, values) ->
  exists paths,
    attr_paths attr_type x root = Ok paths /\
    attr_paths_from_container attr_type skeleton root = Success paths /\
    List.length paths = List.length values.
Proof.
  intros HU HD.
  destruct (paths_agree_all x root HU HD) as (ps & HP & HF).
  exists ps. repeat split; auto.
  pose proof (same_count_tree x root) as HC.
  rewrite HD, HP in HC. exact HC.
Qed.

End PathProperties.

(* ------------------------------------------------------------------------- *)
(** ** Specs and their stored form *)

Section SpecInduction.
Variable P : SpecValue -> Prop.
Hypothesis HType : forall cls, P (SpecType cls).
Hypothesis HStr : forall s, P (SpecStr s).
Hypothesis HShape : forall s, P (SpecShape s).
Hypothesis HTensor : forall t, P (SpecTensor t).
Hypothesis HList : forall items, Forall P items -> P (SpecList items).
Hypothesis HDict : forall items, Forall (fun kv => P (snd kv)) items -> P (SpecDict items).

Lemma SpecValue_nested_ind (v : SpecValue) : P v.
Proof.
  revert v. fix IH 1. intros [cls|s|s|t|items|items].
  - apply HType.
  - apply HStr.
  - apply HShape.
  - apply HTensor.
  - apply HList. induction items as [|x rest IHrest]; constructor; [apply IH|exact IHrest].
  - apply HDict. induction items as [|x rest IHrest]; constructor; [apply IH|exact IHrest].
Qed.

End SpecInduction.

Lemma class_of_type_name v name :
  type_name_of v = Ok name ->
  exists cls, v = SpecType cls /\ class_of_name (SpecStr name) = Ok cls.
Proof.
  destruct v as [cls|s|s|t|items|items]; try discriminate.
  destruct cls; simpl; try discriminate; intros H; inversion H; subst; eauto.
Qed.

Lemma serialize_spec_dict items :
  serialize_spec (SpecDict items) =
  (result <- mapM (fun kv =>
                     x <- (if String.eqb (fst kv) "type" then
                             name <- type_name_of (snd kv) ;; Ok (SpecStr name)
                           else
                             match snd kv with
                             | SpecDict _ => serialize_spec (snd kv)
                             | SpecType _ => Raise (AssertionError "")
                             | _ => Ok (snd kv)
                             end) ;;
                     Ok (fst kv, x)) items ;;
   Ok (SpecDict result)).
Proof.
  cbn [serialize_spec]. f_equal.
  induction items as [|[k v] items IH]; [reflexivity|].
  cbn [mapM fst snd]. rewrite <- IH.
  destruct (if String.eqb k "type" then _ else _); reflexivity.
Qed.

Lemma unserialize_spec_dict items :
  unserialize_spec (SpecDict items) =
  (result <- mapM (fun kv =>
                     x <- (if String.eqb (fst kv) "type" then
                             cls <- class_of_name (snd kv) ;; Ok (SpecType cls)
                           else
                             match snd kv with
                             | SpecDict _ => unserialize_spec (snd kv)
                             | _ => Ok (snd kv)
                             end) ;;
                     Ok (fst kv, x)) items ;;
   Ok (SpecDict result)).
Proof.
  cbn [unserialize_spec]. f_equal.
  induction items as [|[k v] items IH]; [reflexivity|].
  cbn [mapM fst snd]. rewrite <- IH.
  destruct (if String.eqb k "type" then _ else _); reflexivity.
Qed.

Lemma serialize_spec_is_dict spec stored :
  serialize_spec spec = Ok stored -> exists items, stored = SpecDict items.
Proof.
  destruct spec; try discriminate. rewrite serialize_spec_dict.
  destruct (mapM _ items); cbn [bind]; [|discriminate].
  intros H. inversion H. eauto.
Qed.

Lemma unserialize_serialize (spec stored : SpecValue) :
  serialize_spec spec = Ok stored -> unserialize_spec stored = Ok spec.
Proof.
  revert stored. induction spec as [| | | | |items IH] using SpecValue_nested_ind;
    intros stored; try discriminate.
  rewrite serialize_spec_dict.
  destruct (mapM _ items) as [result|e] eqn:HM; cbn [bind]; [|discriminate].
  intros H. inversion H; subst. clear H.
  rewrite unserialize_spec_dict.
  replace (mapM _ result) with (Ok (A:=list (string * SpecValue)) items); [reflexivity|].
  symmetry. revert result HM.
  induction IH as [|[k v] items Hv _ IHitems]; intros result HM.
  - inversion HM. reflexivity.
  - cbn [mapM fst snd] in HM. cbn [snd] in Hv.
    destruct (String.eqb k "type") eqn:Hk.
    + destruct (type_name_of v) as [name|e] eqn:Hn; cbn [bind] in HM; [|discriminate].
      destruct (mapM _ items) as [rest|e] eqn:Hrest; cbn [bind] in HM; [|discriminate].
      inversion HM; subst. clear HM.
      destruct (class_of_type_name _ Hn) as (cls & -> & Hc).
      cbn [mapM fst snd]. rewrite Hk, Hc. cbn [bind].
      rewrite (IHitems rest eq_refl). reflexivity.
    + destruct v as [cls|s|s|t|l|l]; cbn [bind] in HM; try discriminate;
        try (destruct (mapM _ items) as [rest|e] eqn:Hrest; cbn [bind] in HM; [|discriminate];
             inversion HM; subst; clear HM;
             cbn [mapM fst snd]; rewrite Hk; cbn [bind];
             rewrite (IHitems rest eq_refl); reflexivity).
      destruct (serialize_spec (SpecDict l)) as [x|e] eqn:Hx; cbn [bind] in HM; [|discriminate].
      destruct (mapM _ items) as [rest|e] eqn:Hrest; cbn [bind] in HM; [|discriminate].
      inversion HM; subst. clear HM.
      destruct (serialize_spec_is_dict _ Hx) as [xs ->].
      cbn [mapM fst snd]. rewrite Hk, (Hv _ eq_refl). cbn [bind].
      rewrite (IHitems rest eq_refl). reflexivity.
Qed.

(** The spec of a dense tensor: the class, the shapes, and for a stack the
    specs of the components. *)
Lemma spec_dict_cases t spec :
  _spec_dict t = Ok spec ->
  (exists n native_shape s,
     t = NativeTensor n native_shape s /\
     spec = SpecDict [("type", SpecType NativeTensor_class);
                      ("native_shape", SpecShape native_shape);
                      ("shape", SpecShape s)]) \/
  (exists tensors stack_dim varying s specs,
     t = TensorStack tensors stack_dim varying s /\
     mapM _spec_dict tensors = Ok specs /\
     spec = SpecDict [("type", SpecType TensorStack_class);
                      ("stack_dim", SpecShape stack_dim);
                      ("tensors", SpecList specs)]).
Proof.
  destruct t; try discriminate.
  - intros H. inversion H. left. eauto 10.
  - cbn [_spec_dict].
    match goal with |- bind ?e _ = _ -> _ =>
      replace e with (mapM _spec_dict _tensors)
    end.
    2:{ induction _tensors as [|c rest IH]; [reflexivity|].
        cbn [mapM]. rewrite IH. reflexivity. }
    destruct (mapM _spec_dict _tensors) as [specs|e] eqn:HM; cbn [bind]; [|discriminate].
    intros H. inversion H. right. eauto 10.
Qed.

(** X3.  [unserialize_spec] undoes [serialize_spec]: whenever
    [serialize_spec(spec)] returns, [unserialize_spec] of the result is
    [spec] again; and [serialize_spec] returns on the spec of every tensor
    of the two dense classes. *)
Theorem spec_serialization_round_trip :
  (forall spec stored,
     serialize_spec spec = Ok stored -> unserialize_spec stored = Ok spec) /\
  (forall t spec,
     _spec_dict t = Ok spec ->
     exists stored, serialize_spec spec = Ok stored /\ unserialize_spec stored = Ok spec).
Proof.
  split; [exact unserialize_serialize|].
  intros t spec H.
  destruct (spec_dict_cases _ H) as [(n & ns & s & _ & ->)|(ts & sd & v & s & specs & _ & _ & ->)];
    (eexists; split; [reflexivity|]); reflexivity.
Qed.

(** X4.  [serialize_spec] names the class of the spec it is given and of
    nested dicts, but it does not look into lists: the stored spec of a
    tensor still holds class objects exactly when the tensor is a stack with
    at least one component, whose specs are stored as they are. *)
Theorem serialize_spec_keeps_component_classes (t : Obj) (spec stored : SpecValue) :
  _spec_dict t = Ok spec ->
  serialize_spec spec = Ok stored ->
  (mentions_class stored = true <->
   exists c rest stack_dim varying s, t = TensorStack (c :: rest) stack_dim varying s) /\
  (forall tensors stack_dim varying s,
     t = TensorStack tensors stack_dim varying s ->
     exists specs,
       mapM _spec_dict tensors = Ok specs /\
       stored = SpecDict [("type", SpecStr "stack");
                          ("stack_dim", SpecShape stack_dim);
                          ("tensors", SpecList specs)]).
Proof.
  intros H HS.
  destruct (spec_dict_cases _ H)
    as [(n & ns & s & -> & ->)|(ts & sd & v & s & specs & -> & HM & ->)];
    inversion HS; subst; clear HS.
  - split; [|discriminate].
    split; [discriminate|]. intros (c & rest & sd & v & s' & E). discriminate.
  - split.
    + destruct ts as [|c rest].
      * inversion HM; subst. split; [discriminate|].
        intros (c & rest & sd' & v' & s' & E). discriminate.
      * split; [eauto 10|]. intros _.
        cbn [mapM] in HM.
        destruct (_spec_dict c) as [sc|e] eqn:Hc; cbn [bind] in HM; [|discriminate].
        destruct (mapM _spec_dict rest) as [srest|e]; cbn [bind] in HM; [|discriminate].
        inversion HM; subst.
        destruct (spec_dict_cases _ Hc)
          as [(? & ? & ? & _ & ->)|(? & ? & ? & ? & ? & _ & _ & ->)]; reflexivity.
    + intros tensors stack_dim varying s' E. inversion E; subst. eauto.
Qed.

(* ------------------------------------------------------------------------- *)
(** ** Tensors from specs and arrays *)

Section SpecRoundTrip.
Variable C : Collaborators.

Lemma natives_of_stack tensors stack_dim varying s :
  _natives (TensorStack tensors stack_dim varying s) =
  (l <- mapM _natives tensors ;; Ok (List.concat l)).
Proof.
  cbn [_natives]. induction tensors as [|c rest IH]; [reflexivity|].
  cbn [mapM]. rewrite IH.
  destruct (_natives c) as [a|e]; cbn [bind]; [|reflexivity].
  destruct (mapM _natives rest) as [l|e]; reflexivity.
Qed.

Lemma from_spec_of_stack stack_dim specs natives :
  _from_spec_and_natives C
    (SpecDict [("type", SpecType TensorStack_class);
               ("stack_dim", SpecShape stack_dim);
               ("tensors", SpecList specs)]) natives =
  ('(tensors, natives) <- from_specs (_from_spec_and_natives C) specs natives ;;
   t <- TensorStack_init C tensors stack_dim ;;
   Ok (t, natives)).
Proof. reflexivity. Qed.

Lemma up_to_date_components tensors stack_dim varying s :
  up_to_date C (TensorStack tensors stack_dim varying s) ->
  Forall (up_to_date C) tensors.
Proof.
  cbn [up_to_date]. intros H. induction tensors as [|c rest IH]; constructor.
  - apply H.
  - apply IH, H.
Qed.

Lemma constructed_is_Tensor t : constructed C t -> is_Tensor t = true.
Proof. destruct t; simpl; tauto. Qed.

Lemma constructed_init_own tensors stack_dim varying s :
  constructed C (TensorStack tensors stack_dim varying s) ->
  TensorStack_init C tensors stack_dim = Ok (TensorStack tensors stack_dim varying s).
Proof.
  intros Hc. pose proof (constructed_components Hc) as Hall.
  destruct Hc as [_ [sd0 Hinit]].
  eapply TensorStack_init_again; [exact Hinit|].
  clear Hinit. induction Hall as [|c rest Hcc _ IH]; constructor; [|exact IH].
  split; [now apply constructed_is_Tensor|reflexivity].
Qed.

(** The arrays and the spec of a tensor rebuild the tensor and leave the
    arrays that follow. *)
Lemma rebuilt_from_spec (t : Obj) :
  constructed C t -> up_to_date C t ->
  exists spec natives,
    _spec_dict t = Ok spec /\
    _natives t = Ok natives /\
    forall rest, _from_spec_and_natives C spec (natives ++ rest) = Ok (t, rest).
Proof.
  induction t using Obj_nested_ind; intros Hc Hu; try (destruct Hc; fail).
  - destruct Hu as [Hn Hs].
    eexists _, [n]. split; [reflexivity|split; [reflexivity|]].
    intros rest. cbn. unfold NativeTensor_from_spec_and_natives. cbn.
    rewrite Hn. cbn. rewrite Hs. reflexivity.
  - pose proof (constructed_components Hc) as Hcs.
    pose proof (@up_to_date_components tensors stack_dim varying s Hu) as Hus.
    assert (Hlist : exists specs natives,
               mapM _spec_dict tensors = Ok specs /\
               mapM _natives tensors = Ok natives /\
               forall rest, from_specs (_from_spec_and_natives C) specs
                              (List.concat natives ++ rest) = Ok (tensors, rest)).
    { clear Hc Hu. induction H as [|c cs Hx _ IH].
      - exists [], []. repeat split; reflexivity.
      - inversion Hcs as [|? ? Hcc Hcs']; subst. inversion Hus as [|? ? Huc Hus']; subst.
        destruct (Hx Hcc Huc) as (sc & nc & Hsc & Hnc & Hrc).
        destruct (IH Hcs' Hus') as (specs & natives & Hss & Hns & Hrs).
        exists (sc :: specs), (nc :: natives). split; [|split].
        + cbn [mapM]. rewrite Hsc, Hss. reflexivity.
        + cbn [mapM]. rewrite Hnc, Hns. reflexivity.
        + intros rest. cbn [from_specs List.concat].
          rewrite <- app_assoc, Hrc. cbn [bind].
          fold (from_specs (_from_spec_and_natives C)). rewrite Hrs. reflexivity. }
    destruct Hlist as (specs & natives & Hss & Hns & Hrs).
    exists (SpecDict [("type", SpecType TensorStack_class);
                      ("stack_dim", SpecShape stack_dim);
                      ("tensors", SpecList specs)]), (List.concat natives).
    split; [|split].
    + cbn [_spec_dict].
      match goal with |- bind ?e _ = _ => replace e with (mapM _spec_dict tensors) end.
      * rewrite Hss. reflexivity.
      * clear. induction tensors as [|c rest IH]; [reflexivity|].
        cbn [mapM]. rewrite IH. reflexivity.
    + rewrite natives_of_stack, Hns. reflexivity.
    + intros rest. rewrite from_spec_of_stack, Hrs. cbn [bind].
      rewrite (constructed_init_own Hc). reflexivity.
Qed.

(** X5.  A tensor of the two dense classes is rebuilt from its spec and its
    arrays: [spec['type']._from_spec_and_natives(spec, natives)], called
    with [t._spec_dict()] and a list that starts with [t._natives()],
    returns [t] and removes exactly these arrays from the front of the
    list.  The tensor is one that the constructors built and whose stored
    sizes are those of its arrays. *)
Theorem from_spec_and_natives_round_trip (t : Obj) :
  constructed C t -> up_to_date C t ->
  exists spec natives,
    _spec_dict t = Ok spec /\
    _natives t = Ok natives /\
    forall rest, _from_spec_and_natives C spec (natives ++ rest) = Ok (t, rest).
Proof. apply rebuilt_from_spec. Qed.

(** X6.  [assemble_tensors] undoes [disassemble_tensors]: for tensors as
    [disassemble_tensors] leaves them (stacks are cached, the stored sizes
    are those of the arrays), [disassemble_tensors(tensors, expand=False)]
    returns the arrays, one shape and one spec for every tensor, and
    [assemble_tensors] on the arrays and the specs returns the tensors. *)
Theorem assemble_disassemble_tensors (tensors : list Obj) :
  Forall (settled C) tensors ->
  exists natives shapes specs,
    disassemble_tensors C tensors false = Ok (natives, shapes, specs) /\
    mapM shape tensors = Ok shapes /\
    List.length specs = List.length tensors /\
    assemble_tensors C natives specs = Ok tensors.
Proof.
  intros Hall.
  assert (Hcached : mapM (fun t => if is_TensorStack t || false then cached C t else Ok t)
                      tensors = Ok tensors).
  { apply mapM_fixed. eapply Forall_impl; [|exact Hall].
    intros t (_ & _ & Hc). rewrite orb_false_r.
    destruct (is_TensorStack t); auto. }
  assert (Hlist : exists specs natives shapes,
             mapM _spec_dict tensors = Ok specs /\
             mapM _natives tensors = Ok natives /\
             mapM shape tensors = Ok shapes /\
             List.length specs = List.length tensors /\
             forall rest, assemble_tensors_from C (List.concat natives ++ rest) specs
                          = Ok (tensors, rest)).
  { clear Hcached. induction Hall as [|t ts (Hc & Hu & _) _ IH].
    - exists [], [], []. repeat split; reflexivity.
    - destruct (@rebuilt_from_spec t Hc Hu) as (sc & nc & Hsc & Hnc & Hrc).
      destruct IH as (specs & natives & shapes & Hss & Hns & Hsh & Hlen & Hrs).
      assert (exists s, shape t = Ok s) as [s Hs].
      { destruct t; try (destruct Hc; fail); simpl; eauto. }
      exists (sc :: specs), (nc :: natives), (s :: shapes). repeat split.
      + cbn [mapM]. rewrite Hsc, Hss. reflexivity.
      + cbn [mapM]. rewrite Hnc, Hns. reflexivity.
      + cbn [mapM]. rewrite Hs, Hsh. reflexivity.
      + simpl. now rewrite Hlen.
      + intros rest. cbn [assemble_tensors_from List.concat].
        rewrite <- app_assoc, Hrc. cbn [bind]. rewrite Hrs. reflexivity. }
  destruct Hlist as (specs & natives & shapes & Hss & Hns & Hsh & Hlen & Hrs).
  exists (List.concat natives), shapes, specs. repeat split; auto.
  - unfold disassemble_tensors. rewrite Hcached. cbn [bind].
    rewrite Hns. cbn [bind]. rewrite Hsh. cbn [bind]. rewrite Hss. reflexivity.
  - unfold assemble_tensors. specialize (Hrs []). rewrite app_nil_r in Hrs.
    rewrite Hrs. reflexivity.
Qed.

End SpecRoundTrip.

(* ------------------------------------------------------------------------- *)
(** ** The axes of a transposition *)

Lemma nth_range_names (l : list string) :
  map (fun axis => nth axis l "") (range (List.length l)) = l.
Proof.
  unfold range. induction l as [|x l IH]; [reflexivity|].
  cbn [List.length seq map nth]. f_equal.
  rewrite <- seq_shift, map_map. exact IH.
Qed.

Section TransposedPermutation.
Variable C : Collaborators.

(** X7.  For an order that lists the dimensions of the backing array, each
    once, [NativeTensor._transposed_native] hands the backend the
    permutation [perm] of the axes that puts the array into the requested
    order: axis [perm[i]] of the backing array is the dimension
    [order[i]].  The array is transposed by [perm] when the order differs
    from the native order, converted with [as_tensor] without a
    transposition when a list gives the native order, and returned as it is
    or cast to the current precision when a tuple gives the native order;
    in no case is it indexed or tiled. *)
Theorem transposed_native_permutation
    (native : Native) (native_shape shape_ : Shape)
    (order : list string) (order_is_tuple force_expand : bool) :
  NoDup (names native_shape) ->
  NoDup order ->
  (forall n, In n order <-> In n (names native_shape)) ->
  let result := NativeTensor_transposed_native C native native_shape shape_
                  order order_is_tuple force_expand in
  exists perm,
    mapM (index native_shape) order = Ok perm /\
    map (fun axis => nth axis (names native_shape) "") perm = order /\
    Forall (fun axis => axis < rank native_shape) perm /\
    (perm = range (rank native_shape) <-> order = names native_shape) /\
    (order <> names native_shape -> result = Ok (NTranspose native perm)) /\
    (order = names native_shape -> order_is_tuple = false ->
       result = Ok (NAsTensor native)) /\
    (order = names native_shape -> order_is_tuple = true ->
       result = Ok native \/ result = Ok (NCast native (get_precision C))).
Proof.
  intros Hnd Hndo Hsame result.
  assert (Hfilter : only_reorder_names native_shape order = order).
  { unfold only_reorder_names. apply forallb_filter_id.
    apply forallb_forall. intros n Hn. apply mem_name_In, Hsame, Hn. }
  destruct (transposed_native_perm native_shape order) as (perm & Hperm & Hlen).
  destruct (@transposed_perm_is_permutation native_shape order perm Hnd Hndo
              (fun n Hn => proj2 (Hsame n) Hn) Hperm) as [Hp _].
  rewrite Hfilter in Hperm, Hlen.
  assert (Hrank : List.length order = rank native_shape).
  { unfold rank. rewrite <- (length_map dim_name native_shape). fold (names native_shape).
    apply Nat.le_antisymm; apply NoDup_incl_length; auto; intros n Hn; now apply Hsame. }
  pose proof (mapM_Forall2 _ _ Hperm) as HF.
  assert (Hnth : map (fun axis => nth axis (names native_shape) "") perm = order).
  { clear -HF. induction HF as [|n i l l' Hi _ IH]; [reflexivity|].
    cbn [map]. f_equal; [|exact IH]. now apply index_names in Hi. }
  assert (Hlt : Forall (fun axis => axis < rank native_shape) perm).
  { clear -HF. induction HF as [|n i l l' Hi _ IH]; constructor; [|exact IH].
    now apply index_names in Hi. }
  assert (Hid : perm = range (rank native_shape) <-> order = names native_shape).
  { split.
    - intros E. rewrite <- Hnth, E. unfold rank.
      rewrite <- (length_map dim_name native_shape). apply nth_range_names.
    - intros E. rewrite E, index_own_names in Hperm by assumption. congruence. }
  assert (Hassert : forallb (fun n => mem_name n order) (names native_shape) = true).
  { apply forallb_forall. intros n Hn. apply mem_name_In, Hsame, Hn. }
  exists perm. repeat split; auto; try apply Hid.
  - intros Hne. subst result. unfold NativeTensor_transposed_native.
    rewrite Hassert. cbn [py_assert bind].
    replace (list_eqb String.eqb order (names native_shape)) with false.
    2:{ symmetry. apply not_true_is_false. intros E. apply Hne.
        now apply list_eqb_string_eq. }
    rewrite andb_false_r, Hfilter, Hperm. cbn [bind].
    replace (list_eqb Nat.eqb perm (range (List.length perm))) with false.
    2:{ symmetry. apply not_true_is_false. intros E. apply Hne, Hid.
        apply list_eqb_eq in E; [|intros x y; apply Nat.eqb_eq].
        rewrite E at 1. f_equal. congruence. }
    cbn [negb]. unfold backend_transpose. rewrite Hp. cbn [bind].
    now rewrite Hlen, Nat.eqb_refl.
  - intros E Htuple. subst result order_is_tuple. unfold NativeTensor_transposed_native.
    rewrite Hassert. cbn [py_assert bind andb].
    rewrite Hfilter, Hperm. cbn [bind].
    replace (list_eqb Nat.eqb perm (range (List.length perm))) with true.
    2:{ symmetry. apply Hid in E. rewrite E at 1.
        replace (List.length perm) with (rank native_shape) by congruence.
        apply list_eqb_refl, Nat.eqb_refl. }
    cbn [negb bind]. now rewrite Hlen, Nat.eqb_refl.
  - intros E Htuple. subst result order_is_tuple. unfold NativeTensor_transposed_native.
    rewrite Hassert. cbn [py_assert bind].
    rewrite E, (list_eqb_refl String.eqb _ String.eqb_refl). cbn [andb].
    destruct (dtype_precision C native) as [p|]; [|now left].
    destruct (Nat.eqb p (get_precision C)); [now left|now right].
Qed.

End TransposedPermutation.

(* ------------------------------------------------------------------------- *)
(** ** Layouts *)

Lemma mapM_app {A B : Type} (f : A -> Result B) (l1 l2 : list A) (r1 r2 : list B) :
  mapM f l1 = Ok r1 -> mapM f l2 = Ok r2 -> mapM f (l1 ++ l2) = Ok (r1 ++ r2).
Proof.
  revert r1. induction l1 as [|x l1 IH]; intros r1 H1 H2.
  - inversion H1. exact H2.
  - cbn [mapM app] in *.
    destruct (f x) as [y|e]; cbn [bind] in *; [|discriminate].
    destruct (mapM f l1) as [ys|e]; cbn [bind] in *; [|discriminate].
    inversion H1; subst. rewrite (IH ys eq_refl H2). reflexivity.
Qed.

Lemma concat_repeat_repeat {A : Type} (l : list A) (p k : nat) :
  List.concat (repeat (List.concat (repeat l p)) k) = List.concat (repeat l (k * p)).
Proof.
  induction k as [|k IH]; [reflexivity|].
  cbn [repeat List.concat Nat.mul]. rewrite IH, repeat_app, concat_app. reflexivity.
Qed.

Section LayoutProperties.
Variable C : Collaborators.
Variable iter_object : Obj -> Result (list Obj).

Local Abbreviation as_list := (Layout_as_list_recursive iter_object).

Lemma as_list_level dims native result :
  as_list (S dims) native result =
  (items <- level_items iter_object native ;;
   as_list_items (as_list dims) items result).
Proof. reflexivity. Qed.

(** The leaves of a container are those of its items, in order. *)
Lemma as_list_items_leaves dims items (ls : list (list Obj)) :
  Forall2 (leaves_are iter_object dims) items ls ->
  forall result, as_list_items (as_list dims) items result = Ok (result ++ List.concat ls).
Proof.
  induction 1 as [|i l items ls Hi _ IH]; intros result.
  - cbn. now rewrite app_nil_r.
  - cbn [as_list_items List.concat]. rewrite Hi. cbn [bind].
    fold (as_list_items (as_list dims)). rewrite IH, app_assoc. reflexivity.
Qed.

Lemma op1_list f items d inner :
  Layout_recursive_op1 f (PyList items) (d :: inner) =
  (r <- op1_items (fun i => Layout_recursive_op1 f i inner) items ;; Ok (PyList r)).
Proof. reflexivity. Qed.

Lemma op1_tuple f items d inner :
  Layout_recursive_op1 f (PyTuple items) (d :: inner) =
  (r <- op1_items (fun i => Layout_recursive_op1 f i inner) items ;; Ok (PyTuple r)).
Proof. reflexivity. Qed.

Lemma op1_dict_eq f items d inner :
  Layout_recursive_op1 f (PyDict items) (d :: inner) =
  (r <- op1_dict (fun v => Layout_recursive_op1 f v inner) items ;; Ok (PyDict r)).
Proof. reflexivity. Qed.

Lemma op1_leaf f obj : Layout_recursive_op1 f obj [] = f obj.
Proof. destruct obj; reflexivity. Qed.

Lemma op1_maps_leaf f obj r :
  f obj = Ok r ->
  exists leaves leaves',
    leaves_are iter_object 0 obj leaves /\
    mapM f leaves = Ok leaves' /\
    leaves_are iter_object 0 r leaves'.
Proof.
  intros H. exists [obj], [r]. split; [|split].
  - intros result. reflexivity.
  - cbn [mapM]. rewrite H. reflexivity.
  - intros result. reflexivity.
Qed.

Lemma op1_maps_items f inner items rs :
  Forall (op1_maps iter_object f) items ->
  op1_items (fun i => Layout_recursive_op1 f i inner) items = Ok rs ->
  exists ls ls',
    Forall2 (leaves_are iter_object (rank inner)) items ls /\
    mapM f (List.concat ls) = Ok (List.concat ls') /\
    Forall2 (leaves_are iter_object (rank inner)) rs ls'.
Proof.
  intros HP. revert rs. induction HP as [|i items Hi _ IH]; intros rs.
  - intros E. inversion E. exists [], []. repeat split; constructor.
  - cbn [op1_items].
    destruct (Layout_recursive_op1 f i inner) as [x|e] eqn:Hx; cbn [bind]; [|discriminate].
    fold (op1_items (fun i => Layout_recursive_op1 f i inner)).
    destruct (op1_items _ items) as [xs|e] eqn:Hxs; cbn [bind]; [|discriminate].
    intros E. inversion E; subst.
    destruct (Hi inner x Hx) as (l & l' & Hl & Hf & Hl').
    destruct (IH xs eq_refl) as (ls & ls' & Hls & Hfs & Hls').
    exists (l :: ls), (l' :: ls'). split; [|split].
    + constructor; assumption.
    + cbn [List.concat]. now apply mapM_app.
    + constructor; assumption.
Qed.

Lemma op1_maps_dict f inner (items rs : list (string * Obj)) :
  Forall (fun kv => op1_maps iter_object f (snd kv)) items ->
  op1_dict (fun v => Layout_recursive_op1 f v inner) items = Ok rs ->
  map fst rs = map fst items /\
  exists ls ls',
    Forall2 (leaves_are iter_object (rank inner)) (map snd items) ls /\
    mapM f (List.concat ls) = Ok (List.concat ls') /\
    Forall2 (leaves_are iter_object (rank inner)) (map snd rs) ls'.
Proof.
  intros HP. revert rs. induction HP as [|[k v] items Hi _ IH]; intros rs.
  - intros E. inversion E. split; [reflexivity|].
    exists [], []. repeat split; constructor.
  - cbn [op1_dict]. cbn [snd] in Hi.
    destruct (Layout_recursive_op1 f v inner) as [x|e] eqn:Hx; cbn [bind]; [|discriminate].
    fold (op1_dict (fun v => Layout_recursive_op1 f v inner)).
    destruct (op1_dict _ items) as [xs|e] eqn:Hxs; cbn [bind]; [|discriminate].
    intros E. inversion E; subst.
    destruct (Hi inner x Hx) as (l & l' & Hl & Hf & Hl').
    destruct (IH xs eq_refl) as (Hk & ls & ls' & Hls & Hfs & Hls').
    split; [cbn [map fst]; now rewrite Hk|].
    exists (l :: ls), (l' :: ls'). split; [|split].
    + constructor; assumption.
    + cbn [List.concat]. now apply mapM_app.
    + constructor; assumption.
Qed.

Lemma leaves_of_level dims native items ls :
  level_items iter_object native = Ok items ->
  Forall2 (leaves_are iter_object dims) items ls ->
  leaves_are iter_object (S dims) native (List.concat ls).
Proof.
  intros Hitems HF result. rewrite as_list_level, Hitems. cbn [bind].
  now apply as_list_items_leaves.
Qed.

Lemma op1_maps_all f obj : op1_maps iter_object f obj.
Proof.
  induction obj using Obj_nested_ind; intros [|d inner] r;
    try (rewrite op1_leaf; apply op1_maps_leaf);
    try discriminate.
  - rewrite op1_list.
    destruct (op1_items _ items) as [rs|e] eqn:Hrs; cbn [bind]; [|discriminate].
    intros E. inversion E; subst.
    destruct (op1_maps_items inner H Hrs) as (ls & ls' & Hls & Hf & Hls').
    exists (List.concat ls), (List.concat ls'). split; [|split]; [|exact Hf|].
    + eapply leaves_of_level; [reflexivity|exact Hls].
    + eapply leaves_of_level; [reflexivity|exact Hls'].
  - rewrite op1_tuple.
    destruct (op1_items _ items) as [rs|e] eqn:Hrs; cbn [bind]; [|discriminate].
    intros E. inversion E; subst.
    destruct (op1_maps_items inner H Hrs) as (ls & ls' & Hls & Hf & Hls').
    exists (List.concat ls), (List.concat ls'). split; [|split]; [|exact Hf|].
    + eapply leaves_of_level; [reflexivity|exact Hls].
    + eapply leaves_of_level; [reflexivity|exact Hls'].
  - rewrite op1_dict_eq.
    destruct (op1_dict _ items) as [rs|e] eqn:Hrs; cbn [bind]; [|discriminate].
    intros E. inversion E; subst.
    destruct (op1_maps_dict inner H Hrs) as (_ & ls & ls' & Hls & Hf & Hls').
    exists (List.concat ls), (List.concat ls'). split; [|split]; [|exact Hf|].
    + eapply leaves_of_level; [reflexivity|exact Hls].
    + eapply leaves_of_level; [reflexivity|exact Hls'].
Qed.

(** X8.  [Layout._op1] applies the function to the leaves of the layout,
    one by one in the order in which [_as_list] lists them, and keeps the
    nesting and the stack dimensions: the leaves of the result are the
    results for the leaves. *)
Theorem Layout_op1_maps_leaves (self : Obj) (native_function : Obj -> Result Obj) (r : Obj) :
  Layout_op1 C self native_function = Ok r ->
  exists obj stack_dim s obj' s' leaves leaves',
    self = Layout obj stack_dim s /\
    r = Layout obj' stack_dim s' /\
    Layout_as_list iter_object self = Ok leaves /\
    mapM native_function leaves = Ok leaves' /\
    Layout_as_list iter_object r = Ok leaves'.
Proof.
  destruct self as [ | | | | | | | | | | |obj stack_dim s]; try discriminate.
  cbn [Layout_op1].
  destruct (Layout_recursive_op1 native_function obj stack_dim) as [obj'|e] eqn:Hop;
    cbn [bind]; [|discriminate].
  unfold Layout_init. destruct (layout_shape C obj' stack_dim) as [s'|e]; cbn [bind];
    [|discriminate].
  intros E. inversion E; subst.
  destruct (op1_maps_all native_function obj stack_dim Hop) as (l & l' & Hl & Hf & Hl').
  exists obj, stack_dim, s, obj', s', l, l'. repeat split; auto.
  - cbn [Layout_as_list]. apply (Hl []).
  - cbn [Layout_as_list]. apply (Hl' []).
Qed.

(** With an operand that is no tensor, [_recursive_op2] hands the same
    operand to every item. *)
Lemma op2_plain_list op items d inner other :
  is_Tensor other = false ->
  Layout_recursive_op2 C op (PyList items) (d :: inner) other =
  (r <- op2_items (fun i o => Layout_recursive_op2 C op i inner o) items
          (repeat other (List.length items)) ;;
   Ok (PyList r)).
Proof. intros H. cbn [Layout_recursive_op2]. rewrite H. reflexivity. Qed.

Lemma op2_plain_tuple op items d inner other :
  is_Tensor other = false ->
  Layout_recursive_op2 C op (PyTuple items) (d :: inner) other =
  (r <- op2_items (fun i o => Layout_recursive_op2 C op i inner o) items
          (repeat other (List.length items)) ;;
   Ok (PyTuple r)).
Proof. intros H. cbn [Layout_recursive_op2]. rewrite H. reflexivity. Qed.

Lemma op2_plain_dict op items d inner other :
  is_Tensor other = false ->
  Layout_recursive_op2 C op (PyDict items) (d :: inner) other =
  (r <- op2_dict (fun v o => Layout_recursive_op2 C op v inner o) items
          (repeat other (List.length items)) ;;
   Ok (PyDict r)).
Proof. intros H. cbn [Layout_recursive_op2]. rewrite H. reflexivity. Qed.

Lemma op2_plain_leaf op obj other :
  is_Tensor other = false ->
  Layout_recursive_op2 C op obj [] other = on_objects (native_function op) obj other.
Proof.
  intros H. destruct obj; cbn [Layout_recursive_op2];
    destruct other; try discriminate; reflexivity.
Qed.

Lemma op2_plain_value op other obj :
  is_Tensor other = false ->
  forall shape_ r,
    Layout_recursive_op1 (fun leaf => on_objects (native_function op) leaf other) obj shape_
      = Ok r ->
    Layout_recursive_op2 C op obj shape_ other = Ok r.
Proof.
  intros Hnt. induction obj using Obj_nested_ind; intros [|d inner] r;
    try (rewrite op1_leaf, op2_plain_leaf by assumption; auto; fail);
    try discriminate.
  - rewrite op1_list, op2_plain_list by assumption.
    destruct (op1_items _ items) as [rs|e] eqn:Hrs; cbn [bind]; [|discriminate].
    intros E. inversion E; subst. clear E.
    replace (op2_items _ items _) with (Ok (A:=list Obj) rs); [reflexivity|].
    symmetry. revert rs Hrs. induction H as [|i items Hi _ IH]; intros rs.
    + intros E'. inversion E'. reflexivity.
    + cbn [op1_items List.length repeat op2_items].
      destruct (Layout_recursive_op1 _ i inner) as [x|e] eqn:Hx; cbn [bind]; [|discriminate].
      fold (op1_items (fun i =>
              Layout_recursive_op1
                (fun leaf => on_objects (native_function op) leaf other) i inner)).
      destruct (op1_items _ items) as [xs|e] eqn:Hxs; cbn [bind]; [|discriminate].
      intros E'. inversion E'; subst.
      rewrite (Hi inner x Hx). cbn [bind].
      fold (op2_items (fun i o => Layout_recursive_op2 C op i inner o)).
      rewrite (IH xs eq_refl). reflexivity.
  - rewrite op1_tuple, op2_plain_tuple by assumption.
    destruct (op1_items _ items) as [rs|e] eqn:Hrs; cbn [bind]; [|discriminate].
    intros E. inversion E; subst. clear E.
    replace (op2_items _ items _) with (Ok (A:=list Obj) rs); [reflexivity|].
    symmetry. revert rs Hrs. induction H as [|i items Hi _ IH]; intros rs.
    + intros E'. inversion E'. reflexivity.
    + cbn [op1_items List.length repeat op2_items].
      destruct (Layout_recursive_op1 _ i inner) as [x|e] eqn:Hx; cbn [bind]; [|discriminate].
      fold (op1_items (fun i =>
              Layout_recursive_op1
                (fun leaf => on_objects (native_function op) leaf other) i inner)).
      destruct (op1_items _ items) as [xs|e] eqn:Hxs; cbn [bind]; [|discriminate].
      intros E'. inversion E'; subst.
      rewrite (Hi inner x Hx). cbn [bind].
      fold (op2_items (fun i o => Layout_recursive_op2 C op i inner o)).
      rewrite (IH xs eq_refl). reflexivity.
  - rewrite op1_dict_eq, op2_plain_dict by assumption.
    destruct (op1_dict _ items) as [rs|e] eqn:Hrs; cbn [bind]; [|discriminate].
    intros E. inversion E; subst. clear E.
    replace (op2_dict _ items _) with (Ok (A:=list (string * Obj)) rs); [reflexivity|].
    symmetry. revert rs Hrs. induction H as [|[k v] items Hi _ IH]; intros rs.
    + intros E'. inversion E'. reflexivity.
    + cbn [op1_dict List.length repeat op2_dict]. cbn [snd] in Hi.
      destruct (Layout_recursive_op1 _ v inner) as [x|e] eqn:Hx; cbn [bind]; [|discriminate].
      fold (op1_dict (fun v =>
              Layout_recursive_op1
                (fun leaf => on_objects (native_function op) leaf other) v inner)).
      destruct (op1_dict _ items) as [xs|e] eqn:Hxs; cbn [bind]; [|discriminate].
      intros E'. inversion E'; subst.
      rewrite (Hi inner x Hx). cbn [bind].
      fold (op2_dict (fun v o => Layout_recursive_op2 C op v inner o)).
      rewrite (IH xs eq_refl). reflexivity.
Qed.

(** X9.  A [Layout] combined with a value that is no tensor: [Layout._op2]
    returns what [Layout._op1] returns for the native function with the
    value as its second argument.  The value is handed to every leaf; the
    operator on tensors is not used. *)
Theorem Layout_op2_plain_value (self other : Obj) (op : Operation) (r : Obj) :
  is_Tensor other = false ->
  Layout_op1 C self (fun leaf => on_objects (native_function op) leaf other) = Ok r ->
  Layout_op2 C self other op = Ok (Handled r).
Proof.
  intros Hnt. destruct self as [ | | | | | | | | | | |obj stack_dim s]; try discriminate.
  cbn [Layout_op1 Layout_op2].
  destruct (Layout_recursive_op1 _ obj stack_dim) as [obj'|e] eqn:Hop;
    cbn [bind]; [|discriminate].
  rewrite (op2_plain_value op other obj Hnt stack_dim Hop). cbn [bind].
  intros Hinit. destruct other; try discriminate; rewrite Hinit; reflexivity.
Qed.

(** The leaves are appended to whatever list is handed in. *)
Lemma as_list_accumulates dims :
  forall obj acc r,
    as_list dims obj acc = Ok r ->
    exists leaves, r = acc ++ leaves /\ leaves_are iter_object dims obj leaves.
Proof.
  induction dims as [|dims IH]; intros obj acc r.
  - intros E. inversion E. exists [obj]. split; [reflexivity|]. intros result. reflexivity.
  - rewrite as_list_level.
    destruct (level_items iter_object obj) as [items|e] eqn:Hitems; cbn [bind];
      [|discriminate].
    intros E.
    assert (H : exists ls, r = acc ++ List.concat ls /\
                           Forall2 (leaves_are iter_object dims) items ls).
    { clear Hitems. revert acc r E. induction items as [|n items IHitems]; intros acc r E.
      - inversion E. exists []. split; [now rewrite app_nil_r|constructor].
      - cbn [as_list_items] in E.
        destruct (as_list dims n acc) as [acc'|e] eqn:Hn; cbn [bind] in E; [|discriminate].
        fold (as_list_items (as_list dims)) in E.
        destruct (IH n acc acc' Hn) as (l & -> & Hl).
        destruct (IHitems _ _ E) as (ls & -> & Hls).
        exists (l :: ls). split; [cbn [List.concat]; now rewrite app_assoc|].
        constructor; assumption. }
    destruct H as (ls & -> & Hls).
    exists (List.concat ls). split; [reflexivity|].
    eapply leaves_of_level; eauto.
Qed.

Lemma as_list_leaves dims obj leaves :
  as_list dims obj [] = Ok leaves -> leaves_are iter_object dims obj leaves.
Proof.
  intros H. destruct (as_list_accumulates _ _ _ H) as (l & -> & Hl). exact Hl.
Qed.

Lemma repeat_along_leaves new_stack_dims obj dims leaves :
  leaves_are iter_object dims obj leaves ->
  forall obj',
    repeat_along new_stack_dims obj = Ok obj' ->
    exists sizes_,
      sizes new_stack_dims = map SizeInt sizes_ /\
      leaves_are iter_object (rank new_stack_dims + dims) obj'
        (List.concat (repeat leaves (product sizes_))).
Proof.
  intros Hl. induction new_stack_dims as [|d rest IH]; intros obj'.
  - intros E. inversion E; subst. exists []. split; [reflexivity|].
    cbn [product fold_right repeat List.concat rank List.length Nat.add].
    now rewrite app_nil_r.
  - cbn [repeat_along].
    destruct (repeat_along rest obj) as [obj1|e]; cbn [bind]; [|discriminate].
    destruct (dim_size d) as [|k|id] eqn:Hd; try discriminate.
    intros E. inversion E; subst. clear E.
    destruct (IH obj1 eq_refl) as (sizes1 & Hsizes & Hl1).
    exists (k :: sizes1). split.
    + cbn [sizes map]. rewrite Hd. f_equal. exact Hsizes.
    + cbn [product fold_right]. fold (product sizes1).
      rewrite <- concat_repeat_repeat.
      cbn [rank List.length Nat.add]. fold (rank rest).
      eapply leaves_of_level; [reflexivity|].
      clear -Hl1. induction k as [|k IHk]; constructor; assumption.
Qed.

(** X10.  [Layout.__expand__] returns the layout itself when it has all the
    dimensions asked for.  Otherwise the new dimensions are put in front of
    the stack dimensions, all of them have integer sizes, and the leaves
    of the result are the leaves of the layout, repeated as often as the
    product of the new sizes says. *)
Theorem Layout_expand_repeats_leaves (obj : Obj) (stack_dim s dims : Shape)
    (leaves : list Obj) (r : Obj) :
  Layout_as_list iter_object (Layout obj stack_dim s) = Ok leaves ->
  Layout___expand__ C (Layout obj stack_dim s) dims = Ok r ->
  let new_stack_dims := without dims (names stack_dim) in
  (new_stack_dims = [] -> r = Layout obj stack_dim s) /\
  (new_stack_dims <> [] ->
     exists obj' s' sizes_,
       r = Layout obj' (new_stack_dims ++ stack_dim) s' /\
       sizes new_stack_dims = map SizeInt sizes_ /\
       Layout_as_list iter_object r
         = Ok (List.concat (repeat leaves (product sizes_)))).
Proof.
  intros Hl Hex. cbv zeta. cbn [Layout_as_list] in Hl. cbn [Layout___expand__] in Hex.
  apply as_list_leaves in Hl.
  destruct (without dims (names stack_dim)) as [|d rest] eqn:Hnew.
  - split; [|congruence]. intros _. inversion Hex. reflexivity.
  - split; [discriminate|]. intros _.
    cbn [rank List.length Nat.eqb] in Hex.
    destruct (repeat_along (d :: rest) obj) as [obj'|e] eqn:Hrep; cbn [bind] in Hex;
      [|discriminate].
    unfold Layout_init, concat_shapes in Hex.
    destruct (layout_shape C obj' _) as [s'|e]; cbn [bind] in Hex; [|discriminate].
    inversion Hex; subst. clear Hex.
    destruct (repeat_along_leaves (d :: rest) Hl Hrep) as (sizes_ & Hsizes & Hl').
    exists obj', s', sizes_. repeat split; auto.
    cbn [Layout_as_list].
    replace (rank (d :: rest ++ stack_dim)) with (rank (d :: rest) + rank stack_dim)
      by (unfold rank; cbn [List.length]; rewrite length_app; reflexivity).
    apply (Hl' []).
Qed.

(** X11.  Iterating over a [Layout] yields the leaves that [_as_list] lists,
    with one exception: a layout of one dimension that wraps a dict yields
    the keys of the dict, where [_as_list] lists its values. *)
Theorem Layout_iter_lists_leaves (obj : Obj) (stack_dim s : Shape) :
  rank s = rank stack_dim ->
  ((rank s = 1 -> forall items, obj <> PyDict items) ->
     Layout___iter__ iter_object (Layout obj stack_dim s)
       = Layout_as_list iter_object (Layout obj stack_dim s)) /\
  (forall items, rank s = 1 -> obj = PyDict items ->
     Layout___iter__ iter_object (Layout obj stack_dim s)
       = Ok (map (fun kv => PyStr (fst kv)) items) /\
     Layout_as_list iter_object (Layout obj stack_dim s) = Ok (map snd items)).
Proof.
  intros Hrank. assert (Hone : forall items : list Obj,
                          as_list_items (as_list 0) items [] = Ok items).
  { intros items. rewrite <- (app_nil_l items) at 2. generalize (@nil Obj).
    induction items as [|n items IH]; intros acc.
    - now rewrite app_nil_r.
    - cbn [as_list_items Layout_as_list_recursive bind].
      fold (as_list_items (as_list 0)). rewrite IH, <- app_assoc. reflexivity. }
  split.
  - intros Hnd. cbn [Layout___iter__ Layout_as_list].
    destruct (Nat.eqb (rank s) 1) eqn:E1.
    + apply Nat.eqb_eq in E1. rewrite <- Hrank, E1, as_list_level.
      specialize (Hnd E1).
      assert (Hlevel : level_items iter_object obj = iterate iter_object obj).
      { destruct obj; try reflexivity. exfalso. eapply Hnd. reflexivity. }
      rewrite Hlevel. destruct (iterate iter_object obj) as [items|e]; cbn [bind];
        [|reflexivity].
      now rewrite Hone.
    + destruct (Nat.eqb (rank s) 0) eqn:E0; [|reflexivity].
      apply Nat.eqb_eq in E0. rewrite <- Hrank, E0. reflexivity.
  - intros items E1 ->. cbn [Layout___iter__ Layout_as_list].
    rewrite <- Hrank, E1. cbn [Nat.eqb iterate]. split; [reflexivity|].
    rewrite as_list_level. cbn [level_items bind]. apply Hone.
Qed.

End LayoutProperties.

Section LayoutStacking.
Variable C : Collaborators.

(** X12.  Unstacking undoes stacking for layouts: [Layout.__stack__] of
    layouts with the stack dimensions of [self] along a new dimension,
    followed by [_unstack] along that dimension, returns the layouts that
    were stacked.  The layouts wrap objects that [Layout.wrap] keeps in a
    [Layout] (no tensors, no numbers), and have the shape that the
    constructor computes. *)
Theorem Layout_stack_unstack (self : Obj) (values : list Obj) (dim stack_dim : Shape)
    (r : Obj) :
  rank dim = 1 ->
  (exists obj s, self = Layout obj stack_dim s) ->
  Forall (fun v => exists obj s,
              v = Layout obj stack_dim s /\
              kept_as_layout C obj = true /\
              layout_shape C obj stack_dim = Ok s) values ->
  Layout___stack__ C self values dim = Ok r ->
  _unstack C r (single_name dim) = Ok values.
Proof.
  intros Hrank (obj0 & s0 & ->) Hvalues. cbn [Layout___stack__].
  assert (Hobjs : exists objs,
             mapM (fun v => native_object C v (OrderShape stack_dim)) values = Ok objs /\
             mapM (Layout_wrap C stack_dim) objs = Ok values).
  { induction Hvalues as [|v values (obj & s & -> & Hkept & Hshape) _ IH].
    - exists []. split; reflexivity.
    - destruct IH as (objs & Hn & Hw). exists (obj :: objs). split.
      + cbn [mapM native_object]. unfold Layout_native.
        rewrite (list_eqb_refl String.eqb _ String.eqb_refl). cbn [py_assert bind].
        rewrite Hn. reflexivity.
      + cbn [mapM]. rewrite Hw.
        assert (Hwrap : Layout_wrap C stack_dim obj = Ok (Layout obj stack_dim s)).
        { unfold kept_as_layout in Hkept. apply andb_true_iff in Hkept as [Hnt Hk].
          apply negb_true_iff in Hnt. unfold Layout_wrap, Layout_init.
          rewrite Hnt, Hshape.
          destruct obj; try discriminate; try reflexivity;
            try (apply negb_true_iff in Hk; rewrite Hk; reflexivity).
          destruct n; try discriminate;
            apply negb_true_iff in Hk; rewrite Hk; reflexivity. }
        rewrite Hwrap. reflexivity. }
  destruct Hobjs as (objs & Hn & Hw). rewrite Hn. cbn [bind].
  unfold Layout_init, concat_shapes.
  destruct (layout_shape C (PyList objs) (dim ++ stack_dim)) as [s'|e]; cbn [bind];
    [|discriminate].
  intros E. inversion E; subst. clear E.
  destruct dim as [|d [|d' rest]]; try discriminate.
  cbn [_unstack names map app single_name]. rewrite String.eqb_refl.
  cbn [py_iter bind tl]. exact Hw.
Qed.

End LayoutStacking.

(* ------------------------------------------------------------------------- *)
(** ** Unstacking a [TensorStack] *)

Lemma heads_length {A : Type} (lists : list (list A)) hs ts :
  heads lists = Some (hs, ts) ->
  List.length hs = List.length lists /\
  Forall2 (fun l t => List.length l = S (List.length t)) lists ts.
Proof.
  revert hs ts. induction lists as [|l lists IH]; intros hs ts.
  - intros E. inversion E. split; [reflexivity|constructor].
  - cbn [heads]. destruct l as [|x xs]; [discriminate|].
    destruct (heads lists) as [[hs' ts']|] eqn:H; [|discriminate].
    intros E. inversion E; subst. destruct (IH hs' ts' eq_refl) as [H1 H2].
    split; [simpl; now rewrite H1|]. constructor; [reflexivity|assumption].
Qed.

Lemma heads_none {A : Type} (lists : list (list A)) :
  heads lists = None -> exists l, In l lists /\ l = [].
Proof.
  induction lists as [|l lists IH]; [discriminate|].
  cbn [heads]. destruct l as [|x xs]; [intros _; exists []; split; [now left|reflexivity]|].
  destruct (heads lists) as [[hs ts]|]; [discriminate|].
  intros _. destruct (IH eq_refl) as (l & Hin & ->). exists []. split; [now right|reflexivity].
Qed.

Lemma fold_min_le {A : Type} (rest : list (list A)) (n : nat) :
  fold_right (fun l m => Nat.min (List.length l) m) n rest <= n.
Proof. induction rest as [|l rest IH]; simpl; lia. Qed.

Lemma fold_min_tails {A : Type} (lists ts : list (list A)) (n : nat) :
  Forall2 (fun l t => List.length l = S (List.length t)) lists ts ->
  fold_right (fun l m => Nat.min (List.length l) m) (S n) lists
  = S (fold_right (fun l m => Nat.min (List.length l) m) n ts).
Proof.
  induction 1 as [|l t lists ts Hl _ IH]; [reflexivity|].
  cbn [fold_right]. rewrite IH, Hl. reflexivity.
Qed.

Lemma fold_min_empty {A : Type} (lists : list (list A)) (n : nat) :
  (exists l, In l lists /\ l = []) ->
  fold_right (fun l m => Nat.min (List.length l) m) n lists = 0.
Proof.
  intros (l & Hin & ->). induction lists as [|x lists IH]; [destruct Hin|].
  cbn [fold_right]. destruct Hin as [->|Hin]; [reflexivity|].
  rewrite (IH Hin). apply Nat.min_0_r.
Qed.

Lemma zip_star_fuel_length {A : Type} (fuel : nat) (lists : list (list A)) :
  lists <> [] ->
  List.length (zip_star_fuel fuel lists)
  = fold_right (fun l m => Nat.min (List.length l) m) fuel lists.
Proof.
  revert lists. induction fuel as [|fuel IH]; intros lists Hne.
  - cbn [zip_star_fuel List.length]. symmetry. apply Nat.le_0_r. apply fold_min_le.
  - cbn [zip_star_fuel]. destruct (heads lists) as [[hs ts]|] eqn:H.
    + destruct (heads_length _ H) as [Hlen HF].
      cbn [List.length]. rewrite IH.
      * symmetry. now apply fold_min_tails.
      * intros ->. inversion HF; subst. contradiction.
    + cbn [List.length]. symmetry. apply fold_min_empty. now apply heads_none.
Qed.

Lemma zip_star_length {A : Type} (lists : list (list A)) :
  List.length (zip_star lists) = min_length lists.
Proof.
  destruct lists as [|first rest]; [reflexivity|].
  unfold zip_star, min_length. rewrite zip_star_fuel_length by discriminate.
  cbn [fold_right]. rewrite Nat.min_r; [reflexivity|apply fold_min_le].
Qed.

Section UnstackProperties.
Variable C : Collaborators.

Lemma unstack_stack_other tensors stack_dim varying s dim :
  String.eqb dim (single_name stack_dim) = false ->
  requires_broadcast C (TensorStack tensors stack_dim varying s) = Ok true ->
  _unstack C (TensorStack tensors stack_dim varying s) dim =
  (unstacked <- unstack_components (fun c => _unstack C c dim) tensors ;;
   mapM (fun items => TensorStack_init C items stack_dim) (zip_star unstacked)).
Proof. intros Hd Hrb. cbn [_unstack]. rewrite Hd, Hrb. reflexivity. Qed.

Lemma unstack_components_Forall2 f tensors unstacked :
  unstack_components f tensors = Ok unstacked ->
  Forall2 (fun c u => f c = Ok u) tensors unstacked.
Proof.
  revert unstacked. induction tensors as [|c rest IH]; intros unstacked.
  - intros E. inversion E. constructor.
  - cbn [unstack_components]. destruct (f c) as [u|e] eqn:Hu; cbn [bind]; [|discriminate].
    fold (unstack_components f).
    destruct (unstack_components f rest) as [us|e]; cbn [bind]; [|discriminate].
    intros E. inversion E; subst. constructor; auto.
Qed.

(** X13.  [TensorStack._unstack] along the stack dimension returns the
    components, and the constructor, called with them and the stack
    dimension of the stack, returns the stack again. *)
Theorem TensorStack_unstack_restack (tensors : list Obj) (stack_dim : Shape)
    (varying : bool) (s : Shape) :
  constructed C (TensorStack tensors stack_dim varying s) ->
  _unstack C (TensorStack tensors stack_dim varying s) (single_name stack_dim)
    = Ok tensors /\
  (components <- _unstack C (TensorStack tensors stack_dim varying s)
                   (single_name stack_dim) ;;
   TensorStack_init C components stack_dim)
    = Ok (TensorStack tensors stack_dim varying s).
Proof.
  intros Hc.
  assert (H : _unstack C (TensorStack tensors stack_dim varying s) (single_name stack_dim)
              = Ok tensors).
  { cbn [_unstack]. now rewrite String.eqb_refl. }
  split; [exact H|]. rewrite H. cbn [bind]. now apply constructed_init_own.
Qed.

(** X14.  [TensorStack._unstack] along another dimension, on a stack that
    requires broadcasting, unstacks every component and stacks the slices
    of equal position.  It pairs the slices with [zip]: there are as many
    results as the component with the fewest slices has, and the further
    slices of the other components are left out. *)
Theorem TensorStack_unstack_truncates (tensors : list Obj) (stack_dim : Shape)
    (varying : bool) (s : Shape) (dim : string) (slices : list Obj) :
  String.eqb dim (single_name stack_dim) = false ->
  requires_broadcast C (TensorStack tensors stack_dim varying s) = Ok true ->
  _unstack C (TensorStack tensors stack_dim varying s) dim = Ok slices ->
  exists unstacked,
    Forall2 (fun c u => _unstack C c dim = Ok u) tensors unstacked /\
    List.length slices = min_length unstacked /\
    Forall2 (fun items slice => TensorStack_init C items stack_dim = Ok slice)
            (zip_star unstacked) slices.
Proof.
  intros Hd Hrb. rewrite unstack_stack_other by assumption.
  destruct (unstack_components _ tensors) as [unstacked|e] eqn:Hu; cbn [bind];
    [|discriminate].
  intros Hm. exists unstacked. split; [|split].
  - now apply unstack_components_Forall2.
  - apply mapM_Forall2, Forall2_length_eq in Hm. rewrite <- Hm. apply zip_star_length.
  - now apply mapM_Forall2.
Qed.

End UnstackProperties.

(* ------------------------------------------------------------------------- *)
(** ** Inequality *)

Section InequalityProperties.
Variable C : Collaborators.

(** X15.  Outside the element-wise mode, [!=] is the negation of [==] for
    two different objects: under [equality_by_ref] and
    [equality_by_shape_and_value], [t.__eq__(other)] and [t.__ne__(other)]
    return scalar bool tensors of which one negates the other, or raise
    the same exception.  This holds for the three tensor classes. *)
Theorem ne_negates_eq (stack_ : EqualityStack) (frame : Frame) (t other : Obj) :
  active_frame stack_ = Ok frame ->
  is_elementwise frame = false ->
  is_Tensor t = true ->
  negated (__eq__ C stack_ false t other) (__ne__ C stack_ false t other).
Proof.
  intros Hf He Ht.
  assert (H : negated (Tensor___eq__ C stack_ false t other)
                      (Tensor___ne__ C stack_ false t other)).
  { unfold Tensor___eq__, Tensor___ne__. rewrite Hf. cbn [bind].
    destruct frame as [| |rel abs_ nan_]; [discriminate| |].
    - exists false. split; reflexivity.
    - destruct (shape t) as [st|e]; cbn [bind negated]; [|reflexivity].
      destruct (shape other) as [so|e]; cbn [bind negated]; [|reflexivity].
      destruct (same_dim_set st so); cbn [negb].
      + destruct (close C t other rel abs_ nan_) as [b|e]; cbn [bind negated];
          [|reflexivity].
        exists b. split; reflexivity.
      + exists false. split; reflexivity. }
  destruct t; try discriminate; cbn [__eq__ __ne__]; try exact H.
  unfold Layout___eq__, Layout___ne__. rewrite Hf. cbn [bind]. rewrite He. exact H.
Qed.

End InequalityProperties.

(* ------------------------------------------------------------------------- *)
(** ** Caching a tree *)

Section CachedTree.
Variable C : Collaborators.
Variable attr_type : Obj -> list string.

Lemma leaves_cached_items items :
  leaves_cached C (PyList items) <-> Forall (leaves_cached C) items.
Proof.
  simpl. induction items as [|x items IH]; simpl.
  - split; auto.
  - rewrite IH. split.
    + intros [H1 H2]. constructor; auto.
    + intros H. inversion H; auto.
Qed.

Lemma leaves_cached_values (items : list (string * Obj)) :
  leaves_cached C (PyDict items) <-> Forall (fun kv => leaves_cached C (snd kv)) items.
Proof.
  simpl. induction items as [|x items IH]; simpl.
  - split; auto.
  - rewrite IH. split.
    + intros [H1 H2]. constructor; auto.
    + intros H. inversion H; auto.
Qed.

(** Where the tensors are cached, flattening with caching is flattening
    without. *)
Lemma disassemble_cached (x : Obj) :
  leaves_cached C x ->
  disassemble_tree C attr_type true x = disassemble_tree C attr_type false x.
Proof.
  induction x using Obj_nested_ind; intros HL; try reflexivity.
  - apply leaves_cached_items in HL. cbn [disassemble_tree]. f_equal.
    induction H as [|x items Hx _ IH]; [reflexivity|].
    inversion HL as [|? ? Lx HL']; subst.
    rewrite !disassemble_items_cons, (Hx Lx), (IH HL'). reflexivity.
  - apply leaves_cached_items in HL. cbn [disassemble_tree]. f_equal.
    induction H as [|x items Hx _ IH]; [reflexivity|].
    inversion HL as [|? ? Lx HL']; subst.
    rewrite !disassemble_items_cons, (Hx Lx), (IH HL'). reflexivity.
  - apply leaves_cached_values in HL. cbn [disassemble_tree]. f_equal.
    change (disassemble_dict (disassemble_tree C attr_type true) items
            = disassemble_dict (disassemble_tree C attr_type false) items).
    induction H as [|[k x] items Hx _ IH]; [reflexivity|].
    inversion HL as [|? ? Lx HL']; subst. cbn [snd] in Hx, Lx.
    rewrite !disassemble_dict_cons, (Hx Lx), (IH HL'). reflexivity.
  - apply leaves_cached_values in HL. cbn [disassemble_tree]. f_equal. f_equal.
    induction H as [|[k x] items Hx _ IH]; [reflexivity|].
    inversion HL as [|? ? Lx HL']; subst. cbn [snd] in Hx, Lx.
    cbn [map fst snd]. rewrite (Hx Lx), (IH HL'). reflexivity.
  - cbn [leaves_cached] in HL. unfold cached in HL. cbn in HL.
    cbn [disassemble_tree]. rewrite HL. reflexivity.
  - cbn [leaves_cached] in HL. unfold cached in HL.
    cbn [is_Tensor orb py_assert bind] in HL.
    cbn [disassemble_tree]. rewrite HL. reflexivity.
  - cbn [leaves_cached] in HL. cbn [disassemble_tree]. rewrite (IHx HL). reflexivity.
Qed.

End CachedTree.

(** X16.  [cached] returns a tree as it is when the tensors in it are cached
    already: for a tree that [assemble_tree] rebuilds from its skeleton, each
    of whose tensors [cached] returns unchanged, [cached(tree)] is the
    tree. *)
Theorem cached_tree_identity (C : Collaborators) (x : Obj) :
  supported C (variable_attributes C) x ->
  is_Tensor x || is_PhiTreeNode x = true ->
  leaves_cached C x ->
  cached C x = Ok x.
Proof.
  intros HS HT HL.
  destruct (@round_trips_supported C (variable_attributes C) x HS) as (k & vs & HD & HA).
  specialize (HA []). rewrite app_nil_r in HA.
  pose proof (@disassemble_cached C (variable_attributes C) x HL) as HDc.
  rewrite HD in HDc.
  unfold cached. rewrite HT. cbn [py_assert bind].
  destruct x; try exact HL; try (rewrite HDc; cbn [bind]; rewrite HA; reflexivity).
  reflexivity.
Qed.

(* ------------------------------------------------------------------------- *)
(** ** Tensors from backend arrays *)

Lemma with_sizes_sizes s ns :
  List.length ns = rank s -> sizes (with_sizes s ns) = map SizeInt ns.
Proof.
  unfold rank. revert ns. induction s as [|d s IH]; intros [|n ns]; simpl;
    try discriminate; [reflexivity|].
  intros H. f_equal. apply IH. lia.
Qed.

Lemma with_sizes_names s ns : names (with_sizes s ns) = names s.
Proof.
  revert ns. induction s as [|d s IH]; intros [|n ns]; simpl; try reflexivity.
  f_equal. apply IH.
Qed.

Lemma with_sizes_tuple_ok s ns r :
  with_sizes_tuple s ns = Ok r ->
  List.length ns = rank s /\ r = with_sizes s ns.
Proof.
  unfold with_sizes_tuple.
  destruct (Nat.eqb (List.length ns) (rank s)) eqn:E; cbn [py_assert bind]; [|discriminate].
  apply Nat.eqb_eq in E. intros H. inversion H. auto.
Qed.

Lemma check_sizes_ok ns given :
  check_sizes ns given = Ok tt ->
  List.length ns = List.length given ->
  Forall2 (fun g n => g = SizeNone \/ g = SizeInt n) given ns.
Proof.
  revert given. induction ns as [|n ns IH]; intros [|g given]; simpl; try discriminate.
  - constructor.
  - intros H Hlen.
    destruct g as [|m|id]; cbn [bind] in H; try discriminate.
    + constructor; [now left|apply IH; [assumption|lia]].
    + destruct (Nat.eqb m n) eqn:E; cbn [py_assert bind] in H; [|discriminate].
      apply Nat.eqb_eq in E. subst.
      constructor; [now right|apply IH; [assumption|lia]].
Qed.

Section TensorFromArrayProperties.
Variable C : Collaborators.
Variable is_sparse_native : Native -> bool.
Variable from_sparse_native : Native -> Shape -> Result Obj.

(** X17.  What [tensor] and [wrap] make of a dense backend array: a
    [NativeTensor] that holds the array, whose native shape has one
    dimension for every axis with the size of the axis, so the sizes of the
    shape never differ from the static shape of the array.  Where no size of
    the array is zero, the shape of the tensor is its native shape, it has
    the names given, and every size given was undefined or is the size of
    the axis; and a shape given with another number of dimensions than the
    array has axes raises [IncompatibleShapes]. *)
Theorem tensor_of_array_sizes (data : Native) (shape_ : option Shape) :
  is_sparse_native data = false ->
  (forall t,
     tensor_of_array C is_sparse_native from_sparse_native data shape_ = Ok t ->
     exists native_shape expanded,
       t = NativeTensor data native_shape expanded /\
       sizes native_shape = map SizeInt (staticshape C data) /\
       (has_zero (staticshape C data) = false ->
          expanded = native_shape /\
          forall given, shape_ = Some given ->
            names native_shape = names given /\
            Forall2 (fun g n => g = SizeNone \/ g = SizeInt n)
                    (sizes given) (staticshape C data))) /\
  (forall given,
     shape_ = Some given ->
     has_zero (staticshape C data) = false ->
     List.length (staticshape C data) <> rank given ->
     tensor_of_array C is_sparse_native from_sparse_native data shape_
       = Raise IncompatibleShapes).
Proof.
  intros Hdense. split.
  - intros t. unfold tensor_of_array. rewrite Hdense.
    destruct shape_ as [given|].
    + destruct (has_zero (staticshape C data)) eqn:Hz; cbn [negb bind].
      * destruct (with_sizes_tuple _ _) as [present|e] eqn:Hp; cbn [bind]; [|discriminate].
        intros E. inversion E; subst. clear E.
        apply with_sizes_tuple_ok in Hp as [Hlen ->].
        eexists _, _. split; [reflexivity|]. split; [now apply with_sizes_sizes|].
        discriminate.
      * destruct (Nat.eqb (List.length (staticshape C data)) (rank given)) eqn:Hr;
          cbn [negb]; [|discriminate].
        apply Nat.eqb_eq in Hr.
        destruct (check_sizes _ _) as [[]|e] eqn:Hc; cbn [bind]; [|discriminate].
        destruct (with_sizes_tuple _ _) as [s|e] eqn:Hs; cbn [bind]; [|discriminate].
        intros E. inversion E; subst. clear E.
        apply with_sizes_tuple_ok in Hs as [Hlen ->].
        eexists _, _. split; [reflexivity|]. split; [now apply with_sizes_sizes|].
        intros _. split; [reflexivity|]. intros given' E. inversion E; subst.
        split; [apply with_sizes_names|].
        apply check_sizes_ok; [assumption|].
        unfold sizes. rewrite length_map. exact Hr.
    + destruct (Nat.leb (List.length (staticshape C data)) 1); cbn [py_assert bind];
        [|discriminate].
      destruct (with_sizes_tuple _ _) as [s|e] eqn:Hs; cbn [bind]; [|discriminate].
      apply with_sizes_tuple_ok in Hs as [Hlen ->].
      destruct (has_zero (staticshape C data)) eqn:Hz.
      * destruct (with_sizes_tuple _ _) as [present|e] eqn:Hp; cbn [bind]; [|discriminate].
        intros E. inversion E; subst. clear E.
        apply with_sizes_tuple_ok in Hp as [Hlen' ->].
        eexists _, _. split; [reflexivity|]. split; [now apply with_sizes_sizes|].
        discriminate.
      * intros E. inversion E; subst. clear E.
        eexists _, _. split; [reflexivity|]. split; [now apply with_sizes_sizes|].
        intros _. split; [reflexivity|]. discriminate.
  - intros given -> Hz Hr. unfold tensor_of_array. rewrite Hz. cbn [negb].
    apply Nat.eqb_neq in Hr. rewrite Hr. reflexivity.
Qed.

End TensorFromArrayProperties.

(* ------------------------------------------------------------------------- *)
(** ** Comparing specs *)

Lemma TensorClass_eqb_refl c : TensorClass_eqb c c = true.
Proof. destruct c; simpl; auto using String.eqb_refl. Qed.

Lemma keys_present {X : Type} (items items' : list (string * X)) :
  (forall k, lookup k items' = lookup k items) ->
  forallb (fun x => existsb (leaf_eq x) (map (fun kv => SpecStr (fst kv)) items'))
          (map (fun kv => SpecStr (fst kv)) items) = true.
Proof.
  intros Hsame. apply forallb_forall. intros x Hx.
  apply in_map_iff in Hx as ([k v] & <- & Hin). cbn [fst].
  apply existsb_exists. exists (SpecStr k). split; [|apply String.eqb_refl].
  assert (Hk : lookup k items' <> None).
  { rewrite Hsame. intros Hnone. apply lookup_None in Hnone. apply Hnone.
    change k with (fst (k, v)). now apply in_map. }
  destruct (lookup k items') as [v'|] eqn:Hl; [|contradiction].
  apply lookup_In in Hl.
  change (SpecStr k) with ((fun kv : string * X => SpecStr (fst kv)) (k, v')).
  now apply in_map.
Qed.

Section SpecsEqualProperties.
Variable C : Collaborators.
Variable equal : Obj -> Obj -> Result bool.

Local Abbreviation E := (specs_equal C equal).

Lemma specs_equal_dicts items items' :
  E (SpecDict items) (SpecDict items') =
  (if negb (same_elements (map (fun kv => SpecStr (fst kv)) items)
                          (map (fun kv => SpecStr (fst kv)) items'))
   then Ok false
   else results <- specs_equal_entries E (SpecDict items') items ;;
        Ok (py_all results)).
Proof.
  cbn [specs_equal]. unfold spec_set. cbn [spec_elements bind].
  replace (forallb spec_hashable (map (fun kv => SpecStr (fst kv)) items')) with true;
    [reflexivity|].
  symmetry. apply forallb_forall. intros x Hx.
  apply in_map_iff in Hx as (kv & <- & _). reflexivity.
Qed.

Lemma specs_equal_lists items items' :
  E (SpecList items) (SpecList items') =
  (if negb (Nat.eqb (List.length items) (List.length items')) then Ok false
   else results <- specs_equal_items E items items' ;; Ok (py_all results)).
Proof. reflexivity. Qed.

Lemma specs_equal_same_dict items items' :
  Forall (fun kv => E (snd kv) (snd kv) = Ok true) items ->
  NoDup (map fst items) ->
  (forall k, lookup k items' = lookup k items) ->
  E (SpecDict items) (SpecDict items') = Ok true.
Proof.
  intros Hrefl Hnd Hsame. rewrite specs_equal_dicts.
  unfold same_elements. rewrite (keys_present items items' Hsame).
  rewrite (keys_present items' items) by (intros k; symmetry; apply Hsame).
  cbn [andb negb].
  assert (H : forall l, (forall kv, In kv l -> In kv items) ->
              exists results, specs_equal_entries E (SpecDict items') l = Ok results /\
                              py_all results = true).
  { induction l as [|[k v] l IH]; intros Hsub.
    - exists []. split; reflexivity.
    - destruct IH as (rs & Hrs & Hall); [intros kv Hkv; apply Hsub; now right|].
      assert (Hin : In (k, v) items) by (apply Hsub; now left).
      assert (Hl : lookup k items' = Some v) by (rewrite Hsame; now apply lookup_NoDup).
      rewrite Forall_forall in Hrefl. specialize (Hrefl _ Hin). cbn [snd] in Hrefl.
      exists (true :: rs). split; [|exact Hall].
      cbn [specs_equal_entries spec_contains spec_getitem]. unfold has_key, spec_item.
      rewrite Hl. cbn [bind]. rewrite Hrefl. cbn [bind].
      fold (specs_equal_entries E (SpecDict items')). rewrite Hrs. reflexivity. }
  destruct (H items (fun kv Hkv => Hkv)) as (rs & -> & Hall). cbn [bind].
  now rewrite Hall.
Qed.

Lemma specs_equal_refl (spec : SpecValue) : plain_spec spec -> E spec spec = Ok true.
Proof.
  induction spec as [c|s|s|t|items IH|items IH] using SpecValue_nested_ind; intros Hp.
  - cbn. now rewrite TensorClass_eqb_refl.
  - cbn. now rewrite String.eqb_refl.
  - cbn. now rewrite Shape_eqb_refl.
  - destruct Hp.
  - rewrite specs_equal_lists, Nat.eqb_refl. cbn [negb].
    assert (H : exists results, specs_equal_items E items items = Ok results /\
                                py_all results = true).
    { induction IH as [|x items Hx _ IHitems].
      - exists []. split; reflexivity.
      - destruct Hp as [Hpx Hp]. destruct (IHitems Hp) as (rs & Hrs & Hall).
        exists (true :: rs). split; [|exact Hall].
        cbn [specs_equal_items]. rewrite (Hx Hpx). cbn [bind].
        fold (specs_equal_items E). rewrite Hrs. reflexivity. }
    destruct H as (rs & -> & Hall). cbn [bind]. now rewrite Hall.
  - destruct Hp as [Hnd Hp]. apply specs_equal_same_dict; auto.
    clear Hnd. induction IH as [|x items Hx _ IHitems]; constructor.
    + apply Hx, Hp.
    + apply IHitems, Hp.
Qed.

(** X18.  [specs_equal] does not depend on the order of the entries of a
    dict: a spec of classes, strings, shapes, lists and dicts equals itself,
    and a dict spec equals every dict that holds the same value under every
    key. *)
Theorem specs_equal_same_entries (items items' : list (string * SpecValue)) :
  plain_spec (SpecDict items) ->
  (forall k, lookup k items' = lookup k items) ->
  specs_equal C equal (SpecDict items) (SpecDict items) = Ok true /\
  specs_equal C equal (SpecDict items) (SpecDict items') = Ok true.
Proof.
  intros Hp Hsame. split; [now apply specs_equal_refl|].
  destruct Hp as [Hnd Hp]. apply specs_equal_same_dict; auto.
  clear Hnd Hsame. induction items as [|x items IH]; constructor.
  - apply specs_equal_refl, Hp.
  - apply IH, Hp.
Qed.

End SpecsEqualProperties.

(* ------------------------------------------------------------------------- *)
(** ** The broadcast formatter *)

Section BroadcastFormatterProperties.
Variable map_format : string -> list Obj -> Result Obj.
Variable format_tensor : Obj -> string -> Result string.
Variable repr : Obj -> Result string.
Variable format_object : Obj -> string -> Result string.

Local Abbreviation fields_of := (format_fields format_tensor repr format_object).

Lemma format_field_registers (vs : list Obj) (t : Obj) (format_spec : string) :
  is_Tensor t = true ->
  format_field format_tensor repr format_object (Some vs) t format_spec
  = register_formatted (Some vs) t format_spec.
Proof.
  intros HT. unfold format_field. rewrite HT.
  destruct t; reflexivity.
Qed.

Lemma format_fields_registers (vs : list Obj) (fields : list (Obj * string)) :
  Forall (fun field => is_Tensor (fst field) = true) fields ->
  fields_of (Some vs) fields =
  (Some (vs ++ map fst fields),
   Success (placeholders (List.length vs) (map snd fields))).
Proof.
  intros HT. revert vs.
  induction HT as [|[t format_spec] fields Ht HT IH]; intros vs.
  - cbn. now rewrite app_nil_r.
  - cbn [format_fields]. rewrite (@format_field_registers vs t format_spec Ht).
    cbn [register_formatted]. rewrite IH.
    cbn [map fst snd placeholders]. rewrite <- app_assoc. cbn [app].
    rewrite !length_app. cbn [List.length].
    replace (List.length vs + 1 - 1) with (List.length vs) by lia.
    replace (List.length vs + 1) with (S (List.length vs)) by lia.
    reflexivity.
Qed.

(** X19.  One formatting with [-f-f"..."]: [-f] on the idle formatter
    starts a list, every tensor that is formatted next, of whichever class,
    is appended to it and gives the placeholder that carries its position
    in the list and its format spec, and no tensor is formatted yet.
    [f - string] hands the registered tensors, in this order, to [map_] and
    makes the formatter idle again.  That last step is skipped when [map_]
    raises: the formatter keeps the list, and the next [-f] raises
    [SyntaxError]. *)
Theorem broadcast_formatter_cycle (fields : list (Obj * string)) (other : string) :
  Forall (fun field => is_Tensor (fst field) = true) fields ->
  let started := fst (BroadcastFormatter___neg__ BroadcastFormatter_init) in
  let registered := fst (fields_of started fields) in
  BroadcastFormatter___neg__ BroadcastFormatter_init = (Some [], Success tt) /\
  fields_of started fields
    = (Some (map fst fields), Success (placeholders 0 (map snd fields))) /\
  (forall result,
     map_format other (map fst fields) = Ok result ->
     BroadcastFormatter_format map_format registered other
       = (BroadcastFormatter_init, Success result)) /\
  (forall e,
     map_format other (map fst fields) = Raise e ->
     BroadcastFormatter_format map_format registered other
       = (registered, Failed (Builtin e)) /\
     BroadcastFormatter___neg__ registered
       = (registered, Failed (SyntaxError "-f called twice without formatting string."))).
Proof.
  intros HT. cbv zeta. cbn [BroadcastFormatter___neg__ BroadcastFormatter_init fst].
  rewrite (@format_fields_registers [] fields HT). cbn [app List.length fst].
  repeat split.
  - intros result H. cbn [BroadcastFormatter_format]. now rewrite H.
  - cbn [BroadcastFormatter_format]. now rewrite H.
Qed.

End BroadcastFormatterProperties.

(* ------------------------------------------------------------------------- *)
(** ** A stack combined with a stack that requires broadcasting *)

Section MixedStacks.
Variable C : Collaborators.

(** X20.  [TensorStack._op2] on a stack that does not require broadcasting
    and another stack that does, whose stack dimension is not in the shape
    of the first: the operator is applied to the first stack and every
    component of the other, and the results are stacked along the stack
    dimension of the first stack, not of the other.  The constructor
    rejects them when one of the results has that dimension, as a result
    with the dimensions of the first stack does: the call raises
    [AssertionError]. *)
Theorem TensorStack_op2_stacks_along_own_dim
    (tensors : list Obj) (stack_dim : Shape) (varying : bool) (s : Shape)
    (other_tensors : list Obj) (other_stack_dim : Shape) (other_varying : bool)
    (other_shape : Shape) (op : Operation) (results : list Obj) :
  let self := TensorStack tensors stack_dim varying s in
  let other := TensorStack other_tensors other_stack_dim other_varying other_shape in
  requires_broadcast C self = Ok false ->
  requires_broadcast C other = Ok true ->
  has_dim (single_name other_stack_dim) s = false ->
  mapM (fun t => operator op self t) other_tensors = Ok results ->
  TensorStack_op2 C self other op
    = (r <- TensorStack_init C results stack_dim ;; Ok (Handled r)) /\
  ((exists r sr,
      In r results /\ shape r = Ok sr /\ has_dim (single_name stack_dim) sr = true) ->
   exists msg, TensorStack_op2 C self other op = Raise (AssertionError msg)).
Proof.
  intros self other Hself Hother Hdim Hresults.
  assert (HE : TensorStack_op2 C self other op
               = (r <- TensorStack_init C results stack_dim ;; Ok (Handled r))).
  { unfold TensorStack_op2, self.
    rewrite (@_tensor_of_Tensor C (TensorStack tensors stack_dim varying s) other eq_refl).
    cbn [bind]. fold self. rewrite Hself. cbn [bind]. unfold other at 1.
    fold other. rewrite Hother. cbn [bind negb]. rewrite Hdim.
    fold self. rewrite Hresults. reflexivity. }
  split; [exact HE|].
  intros (r & sr & Hin & Hs & Hd). rewrite HE.
  unfold TensorStack_init.
  destruct (Nat.eqb (rank stack_dim) 1); cbn [py_assert bind]; [|eauto].
  destruct (check_components_clash stack_dim results r Hin Hs Hd) as (msg & ->).
  cbn [bind]. eauto.
Qed.

End MixedStacks.

(* ------------------------------------------------------------------------- *)
(** ** Packing the dimensions of a layout *)

Lemma concat_singletons {A : Type} (l : list A) : List.concat (map (fun x => [x]) l) = l.
Proof. induction l as [|x l IH]; cbn; [reflexivity|now rewrite IH]. Qed.

Section LayoutPackingProperties.
Variable C : Collaborators.
Variable iter_object : Obj -> Result (list Obj).
Variable pack_slices : Obj -> list string -> Shape -> Result Obj.

Lemma as_list_flat (leaves : list Obj) :
  Layout_as_list_recursive iter_object 1 (PyList leaves) [] = Ok leaves.
Proof.
  rewrite as_list_level. cbn [level_items iterate bind].
  rewrite (@as_list_items_leaves iter_object 0 leaves (map (fun x => [x]) leaves)).
  - now rewrite concat_singletons.
  - induction leaves as [|x l IH]; constructor; [|exact IH].
    intros result. reflexivity.
Qed.

(** X21.  [Layout.__pack_dims__] with all stack dimensions, in their order,
    flattens the layout: the result wraps the list of the leaves as
    [_as_list] lists them, its one stack dimension is the packed dimension
    with the number of leaves as its size, and its leaves are the leaves of
    the layout, in the same order. *)
Theorem Layout_pack_dims_flattens (obj : Obj) (stack_dim s packed_dim : Shape) (r : Obj) :
  rank packed_dim = 1 ->
  Layout___pack_dims__ C iter_object pack_slices (Layout obj stack_dim s)
    (names stack_dim) packed_dim = Ok r ->
  exists leaves s',
    Layout_as_list iter_object (Layout obj stack_dim s) = Ok leaves /\
    r = Layout (PyList leaves) (with_sizes packed_dim [List.length leaves]) s' /\
    sizes (with_sizes packed_dim [List.length leaves]) = [SizeInt (List.length leaves)] /\
    Layout_as_list iter_object r = Ok leaves.
Proof.
  intros Hrank. unfold Layout___pack_dims__.
  rewrite list_eqb_refl by apply String.eqb_refl.
  destruct (Layout_as_list iter_object (Layout obj stack_dim s)) as [leaves|e] eqn:HL;
    cbn [bind]; [|discriminate].
  unfold Layout_init.
  destruct (layout_shape C (PyList leaves) (with_sizes packed_dim [List.length leaves]))
    as [s'|e]; cbn [bind]; [|discriminate].
  intros E. injection E as <-.
  exists leaves, s'.
  destruct packed_dim as [|d [|d' rest]]; try discriminate Hrank.
  repeat split. cbn [Layout_as_list with_sizes rank List.length]. apply as_list_flat.
Qed.

End LayoutPackingProperties.

(* ------------------------------------------------------------------------- *)
(** * The properties on concrete values *)

Import MoreExamples.

(** X2 on the tree [[None, t1, {'k': u1}]]: the paths are [root[1]] and
    [root[2][k]], from the tree and from its skeleton. *)
Lemma attr_paths_from_container_agrees_witness :
  exists paths,
    attr_paths (variable_attributes Reference.collaborators) tree "root" = Ok paths /\
    attr_paths_from_container (variable_attributes Reference.collaborators)
      (PyList [PyStr "__missing__"; PyNone; PyDict [("k", PyNone)]]) "root" = Success paths /\
    List.length paths = List.length [t1; u1].
Proof.
  apply (@attr_paths_from_container_agrees Reference.collaborators
           (variable_attributes Reference.collaborators) tree "root"
           (PyList [PyStr "__missing__"; PyNone; PyDict [("k", PyNone)]]) [t1; u1]).
  - simpl. repeat split.
  - reflexivity.
Defined.

(** X3 on the spec of the stack of [t1] and [t2]. *)
Lemma spec_serialization_round_trip_witness :
  exists spec stored,
    _spec_dict ragged = Ok spec /\
    serialize_spec spec = Ok stored /\
    unserialize_spec stored = Ok spec.
Proof.
  destruct (_spec_dict ragged) as [spec|e] eqn:E; [|discriminate E].
  destruct (proj2 spec_serialization_round_trip ragged spec E) as (stored & HS & _).
  exists spec, stored.
  split; [reflexivity|split; [exact HS|]].
  exact (proj1 spec_serialization_round_trip spec stored HS).
Defined.

(** X4 on the stack of [t1] and [t2]: its stored spec holds the class of the
    components. *)
Lemma serialize_spec_keeps_component_classes_witness :
  exists spec stored,
    _spec_dict ragged = Ok spec /\
    serialize_spec spec = Ok stored /\
    mentions_class stored = true.
Proof.
  eexists. eexists.
  split; [reflexivity|split; [reflexivity|]].
  apply (proj1 (@serialize_spec_keeps_component_classes ragged _ _ eq_refl eq_refl)).
  exists t1, [t2], [Reference.dim "b" BATCH_DIM 2], true,
    [Reference.dim "b" BATCH_DIM 2; mkDim "x" (Some SPATIAL_DIM) (SizeTensor 0) None].
  reflexivity.
Defined.

(** X5 on the stack of [t1] and [t2], whose arrays have the sizes two and
    three. *)
Lemma from_spec_and_natives_round_trip_witness :
  exists spec natives,
    _spec_dict ragged = Ok spec /\
    _natives ragged = Ok natives /\
    forall rest, _from_spec_and_natives sized spec (natives ++ rest) = Ok (ragged, rest).
Proof.
  apply (@from_spec_and_natives_round_trip sized ragged).
  - simpl. split; [tauto|]. exists b_dim. reflexivity.
  - simpl. repeat split.
Defined.

(** X6 on the stack of [t1] and [t2] and a scalar. *)
Lemma assemble_disassemble_tensors_witness :
  exists natives shapes specs,
    disassemble_tensors sized [ragged; u1] false = Ok (natives, shapes, specs) /\
    mapM shape [ragged; u1] = Ok shapes /\
    List.length specs = List.length [ragged; u1] /\
    assemble_tensors sized natives specs = Ok [ragged; u1].
Proof.
  assert (HR : settled sized ragged).
  { split; [|split].
    - simpl. split; [tauto|]. exists b_dim. reflexivity.
    - simpl. repeat split.
    - intros _. reflexivity. }
  assert (HU : settled sized u1).
  { split; [exact I|split; [simpl; repeat split|discriminate]]. }
  exact (@assemble_disassemble_tensors sized [ragged; u1]
           (Forall_cons _ HR (Forall_cons _ HU (Forall_nil _)))).
Defined.

(** X7 on an array with the dimensions [x] and [y], asked for in the order
    [y], [x]: the axes are swapped. *)
Lemma transposed_native_permutation_witness :
  NativeTensor_transposed_native Reference.collaborators (NArray 1)
    [Reference.dim "x" SPATIAL_DIM 2; Reference.dim "y" SPATIAL_DIM 3]
    [Reference.dim "x" SPATIAL_DIM 2; Reference.dim "y" SPATIAL_DIM 3]
    ["y"; "x"] false true
  = Ok (NTranspose (NArray 1) [1; 0]).
Proof.
  destruct (@transposed_native_permutation Reference.collaborators (NArray 1)
              [Reference.dim "x" SPATIAL_DIM 2; Reference.dim "y" SPATIAL_DIM 3]
              [Reference.dim "x" SPATIAL_DIM 2; Reference.dim "y" SPATIAL_DIM 3]
              ["y"; "x"] false true)
    as (perm & Hp & _ & _ & _ & Ht & _).
  - repeat constructor; simpl; intuition discriminate.
  - repeat constructor; simpl; intuition discriminate.
  - intros n. simpl. tauto.
  - vm_compute in Hp. inversion Hp; subst perm. apply Ht. discriminate.
Defined.

(** X8 on the layout of the numbers one and two and [lambda n: n + 1]. *)
Lemma Layout_op1_maps_leaves_witness :
  exists obj' s' leaves',
    Layout_op1 Reference.collaborators two_numbers increment = Ok (Layout obj' a2 s') /\
    mapM increment [one; two] = Ok leaves' /\
    Layout_as_list no_iteration (Layout obj' a2 s') = Ok leaves'.
Proof.
  destruct (@Layout_op1_maps_leaves Reference.collaborators no_iteration two_numbers increment
              (Layout (PyList [two; PyRaw (NNumber (PyInt 3))]) a2 a2) eq_refl)
    as (obj & stack_dim & s & obj' & s' & leaves & leaves' & HS & HR & HL & HM & HL').
  injection HS as <- <- <-.
  injection HR as <- <-.
  injection HL as <-.
  exists (PyList [two; PyRaw (NNumber (PyInt 3))]), a2, leaves'.
  split; [reflexivity|split; [exact HM|exact HL']].
Defined.

(** X9 on the layout of the numbers one and two, plus ten. *)
Lemma Layout_op2_plain_value_witness :
  Layout_op2 Reference.collaborators two_numbers ten plus
  = Ok (Handled (Layout (PyList [PyRaw (NNumber (PyInt 11)); PyRaw (NNumber (PyInt 12))]) a2 a2)).
Proof.
  apply (@Layout_op2_plain_value Reference.collaborators two_numbers ten plus).
  - reflexivity.
  - reflexivity.
Defined.

(** X10 on the layout of the numbers one and two, expanded along [b] of size
    three, and along its own dimension. *)
Lemma Layout_expand_repeats_leaves_witness :
  (exists obj' s',
     Layout___expand__ Reference.collaborators two_numbers [Reference.dim "b" BATCH_DIM 3]
       = Ok (Layout obj' ([Reference.dim "b" BATCH_DIM 3] ++ a2) s') /\
     Layout_as_list no_iteration (Layout obj' ([Reference.dim "b" BATCH_DIM 3] ++ a2) s')
       = Ok [one; two; one; two; one; two]) /\
  Layout___expand__ Reference.collaborators two_numbers a2 = Ok two_numbers.
Proof.
  split.
  - destruct (Layout___expand__ Reference.collaborators two_numbers
                [Reference.dim "b" BATCH_DIM 3]) as [r|e] eqn:E; [|discriminate E].
    destruct (proj2 (@Layout_expand_repeats_leaves Reference.collaborators no_iteration
                       (PyList [one; two]) a2 a2 [Reference.dim "b" BATCH_DIM 3]
                       [one; two] r eq_refl E))
      as (obj' & s' & sizes_ & HR & HS & HL).
    + discriminate.
    + exists obj', s'. subst r. split; [reflexivity|].
      destruct sizes_ as [|n [|m rest]]; try discriminate HS.
      injection HS as <-.
      exact (eq_trans HL eq_refl).
  - destruct (Layout___expand__ Reference.collaborators two_numbers a2) as [r|e] eqn:E;
      [|discriminate E].
    f_equal.
    exact (proj1 (@Layout_expand_repeats_leaves Reference.collaborators no_iteration
                    (PyList [one; two]) a2 a2 a2 [one; two] r eq_refl E) eq_refl).
Defined.

(** X11 on the layout of a dict along [a], and on the layout of the numbers
    one and two. *)
Lemma Layout_iter_lists_leaves_witness :
  Layout___iter__ no_iteration by_key = Ok [PyStr "k"; PyStr "l"] /\
  Layout_as_list no_iteration by_key = Ok [one; two] /\
  Layout___iter__ no_iteration two_numbers = Layout_as_list no_iteration two_numbers.
Proof.
  split; [|split].
  - exact (proj1 (proj2 (@Layout_iter_lists_leaves no_iteration
                           (PyDict [("k", one); ("l", two)]) a2 a2 eq_refl)
                    [("k", one); ("l", two)] eq_refl eq_refl)).
  - exact (proj2 (proj2 (@Layout_iter_lists_leaves no_iteration
                           (PyDict [("k", one); ("l", two)]) a2 a2 eq_refl)
                    [("k", one); ("l", two)] eq_refl eq_refl)).
  - apply (proj1 (@Layout_iter_lists_leaves no_iteration (PyList [one; two]) a2 a2 eq_refl)).
    intros _ items H. discriminate H.
Defined.

(** X12 on two layouts of strings along [a], stacked along [b]. *)
Lemma Layout_stack_unstack_witness :
  exists r,
    Layout___stack__ Reference.collaborators words [words; more_words]
      [Reference.dim "b" BATCH_DIM 2] = Ok r /\
    _unstack Reference.collaborators r "b" = Ok [words; more_words].
Proof.
  eexists. split; [reflexivity|].
  apply (@Layout_stack_unstack Reference.collaborators words [words; more_words]
           [Reference.dim "b" BATCH_DIM 2] a2).
  - reflexivity.
  - exists (PyList [PyStr "a"; PyStr "b"]), a2. reflexivity.
  - repeat constructor.
    + exists (PyList [PyStr "a"; PyStr "b"]), a2. repeat split.
    + exists (PyList [PyStr "c"; PyStr "d"]), a2. repeat split.
  - reflexivity.
Defined.

(** X13 on the stack of [t1] and [t2]. *)
Lemma TensorStack_unstack_restack_witness :
  _unstack Reference.collaborators ragged "b" = Ok [t1; t2] /\
  (components <- _unstack Reference.collaborators ragged "b" ;;
   TensorStack_init Reference.collaborators components [Reference.dim "b" BATCH_DIM 2])
    = Ok ragged.
Proof.
  apply (@TensorStack_unstack_restack Reference.collaborators [t1; t2]
           [Reference.dim "b" BATCH_DIM 2] true
           [Reference.dim "b" BATCH_DIM 2; mkDim "x" (Some SPATIAL_DIM) (SizeTensor 0) None]).
  simpl. split; [tauto|]. exists b_dim. reflexivity.
Defined.

(** X14 on the stack of [t1] and [t2], unstacked along [x]: [t1] has two
    slices and [t2] has three, and two stacks are returned. *)
Lemma TensorStack_unstack_truncates_witness :
  exists slices unstacked,
    _unstack Reference.collaborators ragged "x" = Ok slices /\
    Forall2 (fun c u => _unstack Reference.collaborators c "x" = Ok u) [t1; t2] unstacked /\
    map (@List.length Obj) unstacked = [2; 3] /\
    List.length slices = 2.
Proof.
  destruct (_unstack Reference.collaborators ragged "x") as [slices|e] eqn:E; [|discriminate E].
  destruct (@TensorStack_unstack_truncates Reference.collaborators [t1; t2]
              [Reference.dim "b" BATCH_DIM 2] true
              [Reference.dim "b" BATCH_DIM 2; mkDim "x" (Some SPATIAL_DIM) (SizeTensor 0) None]
              "x" slices eq_refl eq_refl E)
    as (unstacked & HU & HL & _).
  exists slices, unstacked.
  split; [reflexivity|split; [exact HU|]].
  inversion HU as [|c u cs us H1 HU' E1 E2]; subst.
  inversion HU' as [|c' u' cs' us' H2 HU'' E1 E2]; subst.
  inversion HU''; subst.
  vm_compute in H1. vm_compute in H2.
  injection H1 as <-. injection H2 as <-.
  split; [reflexivity|exact HL].
Defined.

(** X15 on [t1] and [t2] under [equality_by_ref]: [==] gives [False] and
    [!=] gives [True]. *)
Lemma ne_negates_eq_witness :
  negated (__eq__ Reference.collaborators (_EQUALITY_REDUCE ++ [ByRef]) false t1 t2)
          (__ne__ Reference.collaborators (_EQUALITY_REDUCE ++ [ByRef]) false t1 t2) /\
  __eq__ Reference.collaborators (_EQUALITY_REDUCE ++ [ByRef]) false t1 t2
    = Ok (Handled (wrap_bool false)).
Proof.
  split.
  - apply (@ne_negates_eq Reference.collaborators (_EQUALITY_REDUCE ++ [ByRef]) ByRef t1 t2).
    + reflexivity.
    + reflexivity.
    + reflexivity.
  - reflexivity.
Defined.

(** X16 on the tree [[t1, {'k': u1}]]. *)
Lemma cached_tree_identity_witness :
  cached Reference.collaborators tensors_only = Ok tensors_only.
Proof.
  apply cached_tree_identity.
  - simpl. repeat split.
  - reflexivity.
  - simpl. repeat split.
Defined.

(** X17 on the array of [t1], of static shape [(2,)], with the dimension [x]
    of undefined size, and with no dimension. *)
Lemma tensor_of_array_sizes_witness :
  (exists native_shape expanded,
     tensor_of_array sized all_dense no_sparse (NArray 1)
       (Some [mkDim "x" (Some SPATIAL_DIM) SizeNone None])
       = Ok (NativeTensor (NArray 1) native_shape expanded) /\
     sizes native_shape = [SizeInt 2] /\
     expanded = native_shape /\
     names native_shape = ["x"]) /\
  tensor_of_array sized all_dense no_sparse (NArray 1) (Some []) = Raise IncompatibleShapes.
Proof.
  split.
  - destruct (tensor_of_array sized all_dense no_sparse (NArray 1)
                (Some [mkDim "x" (Some SPATIAL_DIM) SizeNone None])) as [t|e] eqn:E;
      [|discriminate E].
    destruct (proj1 (@tensor_of_array_sizes sized all_dense no_sparse (NArray 1)
                       (Some [mkDim "x" (Some SPATIAL_DIM) SizeNone None]) eq_refl) t E)
      as (native_shape & expanded & HT & HS & HZ).
    destruct (HZ eq_refl) as (HE & HG).
    destruct (HG _ eq_refl) as (HN & _).
    exists native_shape, expanded. subst t.
    split; [reflexivity|split; [exact HS|split; [exact HE|exact HN]]].
  - apply (proj2 (@tensor_of_array_sizes sized all_dense no_sparse (NArray 1) (Some []) eq_refl)
             []).
    + reflexivity.
    + reflexivity.
    + discriminate.
Defined.

(** X18 on a spec of two entries and the same entries in the other order. *)
Lemma specs_equal_same_entries_witness :
  specs_equal Reference.collaborators (fun _ _ => Ok true)
    (SpecDict two_entries) (SpecDict two_entries) = Ok true /\
  specs_equal Reference.collaborators (fun _ _ => Ok true)
    (SpecDict two_entries) (SpecDict two_entries_swapped) = Ok true.
Proof.
  apply specs_equal_same_entries.
  - simpl. repeat split. repeat constructor; simpl; intuition discriminate.
  - intros k. unfold two_entries, two_entries_swapped. cbn [lookup].
    destruct (String.eqb "names" k) eqn:E1; destruct (String.eqb "type" k) eqn:E2;
      try reflexivity.
    apply String.eqb_eq in E1. apply String.eqb_eq in E2. congruence.
Defined.

(** X19 on a tensor and a layout, of which the second has the format spec
    [.2f], with a [map_] that returns and with one that raises. *)
Lemma broadcast_formatter_cycle_witness :
  format_fields plain_text shown plain_text (Some []) [(t1, ""); (words, ".2f")]
    = (Some [t1; words], Success ["{0:}"; "{1:.2f}"]) /\
  BroadcastFormatter_format joined (Some [t1; words]) "{0:} {1:.2f}"
    = (BroadcastFormatter_init, Success (PyStr "{0:} {1:.2f}")) /\
  BroadcastFormatter_format failing (Some [t1; words]) "{0:} {1:.2f}"
    = (Some [t1; words], Failed (Builtin TypeError)) /\
  BroadcastFormatter___neg__ (Some [t1; words])
    = (Some [t1; words], Failed (SyntaxError "-f called twice without formatting string.")).
Proof.
  assert (HT : Forall (fun field : Obj * string => is_Tensor (fst field) = true)
                 [(t1, ""); (words, ".2f")])
    by (repeat constructor).
  pose proof (@broadcast_formatter_cycle joined plain_text shown plain_text
                [(t1, ""); (words, ".2f")] "{0:} {1:.2f}" HT) as (_ & HF & HJ & _).
  pose proof (@broadcast_formatter_cycle failing plain_text shown plain_text
                [(t1, ""); (words, ".2f")] "{0:} {1:.2f}" HT) as (_ & _ & _ & HR).
  split; [exact HF|split; [exact (HJ _ eq_refl)|]].
  exact (HR _ eq_refl).
Defined.

(** X20 on the stack of three scalars along [b] and the stack of [t1] and
    [t2] along [c], with an operator whose result has the dimensions of both
    operands. *)
Lemma TensorStack_op2_stacks_along_own_dim_witness :
  exists msg,
    TensorStack_op2 Reference.collaborators three ragged_c broadcast
    = Raise (AssertionError msg).
Proof.
  apply (proj2 (@TensorStack_op2_stacks_along_own_dim Reference.collaborators
                  [u1; u2; u3] [Reference.dim "b" BATCH_DIM 3] false
                  [Reference.dim "b" BATCH_DIM 3]
                  [t1; t2] [Reference.dim "c" BATCH_DIM 2] true
                  [Reference.dim "c" BATCH_DIM 2;
                   mkDim "x" (Some SPATIAL_DIM) (SizeTensor 0) None]
                  broadcast
                  [NativeTensor (NArray 10)
                     [Reference.dim "b" BATCH_DIM 3; Reference.dim "x" SPATIAL_DIM 2]
                     [Reference.dim "b" BATCH_DIM 3; Reference.dim "x" SPATIAL_DIM 2];
                   NativeTensor (NArray 10)
                     [Reference.dim "b" BATCH_DIM 3; Reference.dim "x" SPATIAL_DIM 3]
                     [Reference.dim "b" BATCH_DIM 3; Reference.dim "x" SPATIAL_DIM 3]]
                  eq_refl eq_refl eq_refl eq_refl)).
  exists (NativeTensor (NArray 10)
            [Reference.dim "b" BATCH_DIM 3; Reference.dim "x" SPATIAL_DIM 2]
            [Reference.dim "b" BATCH_DIM 3; Reference.dim "x" SPATIAL_DIM 2]),
    [Reference.dim "b" BATCH_DIM 3; Reference.dim "x" SPATIAL_DIM 2].
  split; [left; reflexivity|split; reflexivity].
Defined.

(** X21 on a layout of two lists of two strings, packed into [b] of unknown
    size: the result lists the four strings along [b] of size four. *)
Lemma Layout_pack_dims_flattens_witness :
  exists s',
    Layout___pack_dims__ Reference.collaborators no_iteration no_slices grid ["b"; "a"] b_dim
      = Ok (Layout (PyList [PyStr "a"; PyStr "b"; PyStr "c"; PyStr "d"])
              [Reference.dim "b" BATCH_DIM 4] s') /\
    Layout_as_list no_iteration
      (Layout (PyList [PyStr "a"; PyStr "b"; PyStr "c"; PyStr "d"])
         [Reference.dim "b" BATCH_DIM 4] s')
      = Ok [PyStr "a"; PyStr "b"; PyStr "c"; PyStr "d"].
Proof.
  destruct (Layout___pack_dims__ Reference.collaborators no_iteration no_slices grid
              ["b"; "a"] b_dim) as [r|e] eqn:E; [|discriminate E].
  destruct (@Layout_pack_dims_flattens Reference.collaborators no_iteration no_slices
              (PyList [PyList [PyStr "a"; PyStr "b"]; PyList [PyStr "c"; PyStr "d"]])
              [Reference.dim "b" BATCH_DIM 2; Reference.dim "a" CHANNEL_DIM 2]
              [Reference.dim "b" BATCH_DIM 2; Reference.dim "a" CHANNEL_DIM 2]
              b_dim r eq_refl E)
    as (leaves & s' & HL & HR & _ & HA).
  injection HL as <-.
  exists s'. subst r. split; [reflexivity|exact HA].
Defined.
